(** * Scheduling backend (backend/app.py): a shallow embedding

    The Flask handlers of [backend/app.py] are embedded as functions over an
    explicit store.  The relational store is a record of three tables; a
    psycopg2 connection is a pair of a committed and a pending copy of the
    store, so that [commit], [rollback] and [close] can be written as the
    code calls them.  The CP-SAT model built by [/api/optimize] is a value
    of type [CpModel], and the solver is an input of the handler: what it
    returns is described by [satisfies].

    Conventions.
    - A timestamp is an integer number of microseconds since the epoch
      (the resolution of Python's [datetime]).
    - A number of a request and [duration_hours] in the store are exact
      rationals; where Python computes in floating point ([float(d) * 60],
      [timedelta(hours=d)]) the operands and the results are rounded to
      binary64, to nearest and ties to even.
    - A status is the string stored in the [status] column; the handlers
      only ever write non-null strings there.
    - An f-string is kept as the list of its pieces, unrendered. *)

From Stdlib Require Import ZArith List Ascii String DecimalString.
From Stdlib Require Import QArith Qabs Qpower Lia Lqa Bool.
From Stdlib Require Import Permutation Sorted.
Import ListNotations.
Open Scope string_scope.
Open Scope Z_scope.

(** ** Time *)

Definition MINUTE_US : Z := 60000000.
Definition HOUR_US : Z := 3600000000.

(** [dt.replace(second=0, microsecond=0)] *)
Definition replace_second0 (t : Z) : Z := t - t mod MINUTE_US.

(** ** Numbers *)

(** Rounding of an exact rational to the nearest integer, ties to even *)
Definition round_half_even (q : Q) : Z :=
  let n := Qnum q in
  let d := Zpos (Qden q) in
  let f := n / d in
  let r2 := 2 * (n mod d) in
  if r2 <? d then f
  else if d <? r2 then f + 1
  else if Z.even f then f else f + 1.

(** [int(x)] on a rational: truncation towards zero *)
Definition py_int (x : Q) : Z := Z.quot (Qnum x) (Zpos (Qden x)).

(** [floor(log2 q)] of a positive rational *)
Definition ilog2 (q : Q) : Z :=
  let c := Z.log2 (Qnum q) - Z.log2 (Zpos (Qden q)) in
  if Qle_bool (2 ^ c) q then c else c - 1.

(** The binary64 value nearest to a positive rational, ties to even: the
    significand has 53 bits, and the exponent of its last bit is at least
    -1074 (below the normal range the spacing stays 2^-1074). *)
Definition round64_pos (q : Q) : Q :=
  let e := Z.max (ilog2 q - 52) (-1074) in
  (inject_Z (round_half_even (q / 2 ^ e)) * 2 ^ e)%Q.

(** [float(q)].  The exponent is not bounded above: a value beyond the
    largest double, about 1.8e308, is [inf] in Python and is not
    modelled. *)
Definition float_ (q : Q) : Q :=
  match Qnum q with
  | 0 => 0%Q
  | Zpos _ => round64_pos q
  | Zneg _ => (- round64_pos (- q))%Q
  end.

(** The unit roundoff of binary64, 2^-53, and half its smallest spacing *)
Definition EPS64 : Q := 1 # 9007199254740992.
Definition TINY64 : Q := (2 ^ (-1075))%Q.

(** ** Time spans *)

(** [timedelta(hours=h)], in microseconds, for the double nearest to [h]:
    the whole hours are multiplied exactly, the fraction of an hour is
    multiplied in floating point, and the sum is rounded to a whole
    microsecond, ties to even.  (A JSON integer is multiplied exactly,
    which comes to the same below 2^53 hours; beyond it both are outside
    the range of [timedelta].) *)
Definition timedelta_hours (h : Q) : Z :=
  let x := float_ h in
  let intpart := py_int x in
  let fracpart := (x - inject_Z intpart)%Q in
  intpart * HOUR_US + round_half_even (float_ (fracpart * inject_Z HOUR_US)).

(** [timedelta(minutes=m)] for an integer [m], in microseconds *)
Definition timedelta_minutes (m : Z) : Z := m * MINUTE_US.

Definition DAY_US : Z := 86400000000.

(** [timedelta.min] and [timedelta.max]: 999999999 days either way *)
Definition TIMEDELTA_MIN : Z := -999999999 * DAY_US.
Definition TIMEDELTA_MAX : Z := 1000000000 * DAY_US - 1.

(** [datetime.min] and [datetime.max] read as UTC: the first microsecond
    of year 1 and the last of year 9999 *)
Definition DATETIME_MIN : Z := -62135596800000000.
Definition DATETIME_MAX : Z := 253402300799999999.

Definition timedelta_in_range (us : Z) : bool :=
  (TIMEDELTA_MIN <=? us) && (us <=? TIMEDELTA_MAX).

Definition datetime_in_range (t : Z) : bool :=
  (DATETIME_MIN <=? t) && (t <=? DATETIME_MAX).

(** ** JSON values of a request body *)

Inductive json : Type :=
| JNull
| JBool (b : bool)
| JNum (q : Q)
| JStr (s : string).

(** Python truthiness, as tested by [if not x] *)
Definition truthy (j : json) : bool :=
  match j with
  | JNull => false
  | JBool b => b
  | JNum q => negb (Qeq_bool q 0)
  | JStr s => negb (String.eqb s "")
  end.

(** A JSON object.  [get] is [data.get(key)]: [None] when the key is
    absent; a later duplicate of a key wins, as in [json.loads]. *)
Definition body := list (string * json).

Fixpoint get (data : body) (key : string) : json :=
  match data with
  | [] => JNull
  | (k, v) :: rest =>
      if existsb (fun kv => String.eqb (fst kv) key) rest then get rest key
      else if String.eqb k key then v else JNull
  end.

(** [key in data] *)
Definition has_key (data : body) (key : string) : bool :=
  existsb (fun kv => String.eqb (fst kv) key) data.

(** ** Python dictionaries keyed by integers, in insertion order *)

Definition dict (V : Type) := list (Z * V).

Fixpoint dict_get {V} (d : dict V) (k : Z) : option V :=
  match d with
  | [] => None
  | (k', v) :: rest => if k' =? k then Some v else dict_get rest k
  end.

(** [k in d] *)
Definition dict_mem {V} (d : dict V) (k : Z) : bool :=
  match dict_get d k with Some _ => true | None => false end.

(** [d[k] = v]: overwrites in place, appends a new key at the end *)
Fixpoint dict_set {V} (d : dict V) (k : Z) (v : V) : dict V :=
  match d with
  | [] => [(k, v)]
  | (k', v') :: rest =>
      if k' =? k then (k, v) :: rest else (k', v') :: dict_set rest k v
  end.

Definition keys {V} (d : dict V) : list Z := map fst d.
Definition values {V} (d : dict V) : list V := map snd d.

(** [{key(row): val(row) for row in rows}] *)
Definition dict_of_rows {R V} (key : R -> Z) (val : R -> V) (rows : list R)
  : dict V :=
  fold_left (fun d row => dict_set d (key row) (val row)) rows [].

(** ** The store *)

Record MachineRow : Type := mkMachine {
  machine_id : Z;
  machine_name : string;
  capacity : Z
}.

Record TaskRow : Type := mkTask {
  task_id : Z;
  job_id : Z;
  name : string;
  duration_hours : Q;
  required_machine_id : Z;
  status : string;
  start_time : option Z;
  end_time : option Z
}.

Record DB : Type := mkDB {
  machines : list MachineRow;
  tasks : list TaskRow;
  precedences : list (Z * Z)
}.

(** A psycopg2 connection: statements act on [pending]; [commit] makes
    them durable, [rollback] and [close] drop what was not committed. *)
Record Conn : Type := mkConn {
  committed : DB;
  pending : DB
}.

Definition connect (db : DB) : Conn :=
  {| committed := db; pending := db |}.
Definition commit (c : Conn) : Conn :=
  {| committed := pending c; pending := pending c |}.
Definition rollback (c : Conn) : Conn :=
  {| committed := committed c; pending := committed c |}.
Definition close (c : Conn) : DB := committed c.

Definition set_tasks (db : DB) (ts : list TaskRow) : DB :=
  {| machines := machines db; tasks := ts; precedences := precedences db |}.

Definition with_pending (c : Conn) (db : DB) : Conn :=
  {| committed := committed c; pending := db |}.

(** ** Exceptions and responses *)

Inductive exn : Type :=
| TypeError (what : string)
| AttributeError (what : string)
| KeyError (key : Z)
| OverflowError (what : string)
| DatabaseError (what : string).

Inductive Result (A : Type) : Type :=
| Ok (a : A)
| Raise (e : exn).
Arguments Ok {A} a.
Arguments Raise {A} e.

Definition bind {A B} (r : Result A) (k : A -> Result B) : Result B :=
  match r with
  | Ok a => k a
  | Raise e => Raise e
  end.

Notation "x <- r ;; k" := (bind r (fun x => k))
  (at level 61, r at next level, right associativity).

(** The pieces of an f-string, in order. *)
Inductive piece : Type :=
| Lit (s : string)
| ValZ (z : Z)
| ValJ (j : json)
| ValE (e : exn)
| ValL (l : list string).

Inductive out : Type :=
| Text (m : list piece)
| Number (q : Q).

(** [jsonify(payload), code] *)
Record Response : Type := mkResponse {
  payload : list (string * out);
  code : Z
}.

Definition message (m : list piece) (c : Z) : Response :=
  {| payload := [("message", Text m)]; code := c |}.
Definition error (m : list piece) (c : Z) : Response :=
  {| payload := [("error", Text m)]; code := c |}.

(** ** SQL aggregates *)

(** [MAX] over a nullable column: nulls are skipped, and the result is
    null when no non-null value remains. *)
Fixpoint sql_max (col : list (option Z)) : option Z :=
  match col with
  | [] => None
  | None :: rest => sql_max rest
  | Some v :: rest =>
      match sql_max rest with
      | None => Some v
      | Some w => Some (Z.max v w)
      end
  end.

(** ** The CP-SAT model *)

(** A model variable, identified by the name the code gives it:
    [start_<id>], [end_<id>] and [max_end_time]. *)
Inductive var : Type :=
| start_ (id : Z)
| end_ (id : Z)
| max_end_time.

(** [interval_<id>]: start, fixed size and end *)
Record IntervalVar : Type := mkInterval {
  iv_task : Z;
  iv_start : var;
  iv_size : Z;
  iv_end : var
}.

Inductive constraint : Type :=
| Interval (i : IntervalVar)
| GreaterOrEqual (a b : var)
| NoOverlap (intervals : list IntervalVar)
| MaxEquality (target : var) (vs : list var).

Record CpModel : Type := mkModel {
  int_vars : list (var * (Z * Z));
  constraints : list constraint;
  objective : option var
}.

Definition CpModel_new : CpModel :=
  {| int_vars := []; constraints := []; objective := None |}.

Definition NewIntVar (m : CpModel) (lb ub : Z) (v : var) : CpModel :=
  {| int_vars := int_vars m ++ [(v, (lb, ub))];
     constraints := constraints m; objective := objective m |}.

Definition Add (m : CpModel) (c : constraint) : CpModel :=
  {| int_vars := int_vars m; constraints := constraints m ++ [c];
     objective := objective m |}.

Definition NewIntervalVar (m : CpModel) (i : IntervalVar) : CpModel :=
  Add m (Interval i).
Definition AddNoOverlap (m : CpModel) (l : list IntervalVar) : CpModel :=
  Add m (NoOverlap l).
Definition AddMaxEquality (m : CpModel) (t : var) (l : list var) : CpModel :=
  Add m (MaxEquality t l).
Definition Minimize (m : CpModel) (v : var) : CpModel :=
  {| int_vars := int_vars m; constraints := constraints m;
     objective := Some v |}.

(** *** What a solution is *)

Definition assignment := var -> Z.

Fixpoint pairwise {A} (R : A -> A -> bool) (l : list A) : bool :=
  match l with
  | [] => true
  | x :: rest => forallb (R x) rest && pairwise R rest
  end.

(** Two intervals do not overlap: one ends at or before the other starts. *)
Definition disjoint (asg : assignment) (i j : IntervalVar) : bool :=
  (asg (iv_end i) <=? asg (iv_start j)) || (asg (iv_end j) <=? asg (iv_start i)).

Fixpoint maximum (l : list Z) : option Z :=
  match l with
  | [] => None
  | x :: rest =>
      match maximum rest with
      | None => Some x
      | Some m => Some (Z.max x m)
      end
  end.

Definition holds (asg : assignment) (c : constraint) : bool :=
  match c with
  | Interval i =>
      (0 <=? iv_size i) && (asg (iv_start i) + iv_size i =? asg (iv_end i))
  | GreaterOrEqual a b => asg b <=? asg a
  | NoOverlap l => pairwise (disjoint asg) l
  | MaxEquality t l =>
      match maximum (map asg l) with
      | Some m => asg t =? m
      | None => false
      end
  end.

Definition in_domain (asg : assignment) (d : var * (Z * Z)) : bool :=
  let '(v, (lb, ub)) := d in (lb <=? asg v) && (asg v <=? ub).

(** [asg] is a solution of [m]: every variable is in its domain and every
    constraint holds. *)
Definition satisfies (m : CpModel) (asg : assignment) : bool :=
  forallb (in_domain asg) (int_vars m) && forallb (holds asg) (constraints m).

Inductive CpSolverStatus : Type :=
| UNKNOWN | MODEL_INVALID | FEASIBLE | INFEASIBLE | OPTIMAL.

(** The solver after [Solve]: its status, [Value] and [ObjectiveValue]. *)
Record CpSolver : Type := mkSolver {
  solver_status : CpSolverStatus;
  Value : var -> Z;
  ObjectiveValue : Q
}.

Definition usable (s : CpSolverStatus) : bool :=
  match s with
  | OPTIMAL | FEASIBLE => true
  | _ => false
  end.

(** ** What a request reads from outside the store *)

Record Env : Type := mkEnv {
  (** whether [psycopg2.connect] succeeds *)
  db_up : bool;
  (** [datetime.now(timezone.utc)] *)
  now : Z;
  (** [datetime.strptime(s, '%Y-%m-%dT%H:%M:%S')] read as UTC; [None] is
      its [ValueError] *)
  strptime : string -> option Z;
  (** [CpSolver().Solve(model)] *)
  Solve : CpModel -> CpSolver;
  (** position in the batch of the [UPDATE] that raises: the store rejects
      it, or its timestamps leave the range of [datetime] *)
  failing_update : option nat;
  (** the value the [task_id] sequence hands out next *)
  nextval_task_id : Z;
  (** what the store makes of a parameter that has not the type of its
      column: of a number or a boolean for a text column, and of text or a
      boolean for a numeric column and for an integer column; [None] when
      it rejects the parameter *)
  store_text : json -> option string;
  store_numeric : json -> option Q;
  store_integer : json -> option Z
}.

(** *** Parameters and the types of their columns

    The tables are not part of the source.  A parameter of the type of its
    column is stored as it is, and what the store makes of another one is
    an input of the model.  The rows of the model hold no null in these
    columns: a null parameter is taken as rejected. *)
Definition text_param (env : Env) (j : json) : option string :=
  match j with
  | JStr s => Some s
  | JNull => None
  | _ => store_text env j
  end.

Definition numeric_param (env : Env) (j : json) : option Q :=
  match j with
  | JNum q => Some q
  | JNull => None
  | _ => store_numeric env j
  end.

(** Rounding to the nearest integer, halves away from zero *)
Definition round_half_away (q : Q) : Z :=
  let n := Qnum q in
  let d := Zpos (Qden q) in
  Z.sgn n * ((2 * Z.abs n + d) / (2 * d)).

Definition INT4_MIN : Z := -2147483648.
Definition INT4_MAX : Z := 2147483647.

(** What an integer column makes of a number: it is rounded to the
    nearest integer, halves away from zero, and rejected when that is not
    a 32-bit one. *)
Definition to_int4 (q : Q) : option Z :=
  let c := round_half_away q in
  if (INT4_MIN <=? c) && (c <=? INT4_MAX) then Some c else None.

Definition integer_param (env : Env) (j : json) : option Z :=
  match j with
  | JNum q => to_int4 q
  | JNull => None
  | _ => store_integer env j
  end.

Definition get_db_connection (env : Env) (db : DB) : option Conn :=
  if db_up env then Some (connect db) else None.

(** ** Sequential estimator *)

(** [calculate_sequential_schedule(conn, machine_id, duration_hours)].
    [timedelta] and the sum raise [OverflowError] beyond their ranges. *)
Definition calculate_sequential_schedule
  (env : Env) (conn : Conn) (m_id : Z) (duration : Q) : Result (Z * Z) :=
  let latest_end_time_result :=
    sql_max (map end_time
               (filter (fun t => required_machine_id t =? m_id)
                       (tasks (pending conn)))) in
  let start :=
    match latest_end_time_result with
    | Some latest => latest
    | None => now env
    end in
  let start := replace_second0 start in
  let duration_delta := timedelta_hours duration in
  if negb (timedelta_in_range duration_delta) then
    Raise (OverflowError "days; must have magnitude <= 999999999")
  else
    let end' := start + duration_delta in
    if negb (datetime_in_range end') then
      Raise (OverflowError "date value out of range")
    else Ok (start, end').

(** ** Problem assembler *)

(** [ORDER BY key]: a stable insertion sort *)
Fixpoint insert_by {R} (key : R -> Z) (x : R) (l : list R) : list R :=
  match l with
  | [] => [x]
  | y :: rest =>
      if key x <? key y then x :: y :: rest else y :: insert_by key x rest
  end.

Fixpoint order_by {R} (key : R -> Z) (l : list R) : list R :=
  match l with
  | [] => []
  | x :: rest => insert_by key x (order_by key rest)
  end.

Record TaskData : Type := mkTaskData {
  td_job_id : Z;
  td_duration : Q;
  td_machine_id : Z
}.

(** [t.status != 'Completed' AND t.status != 'Scheduled'] *)
Definition unresolved (t : TaskRow) : bool :=
  negb (String.eqb (status t) "Completed")
  && negb (String.eqb (status t) "Scheduled").

(** [fetch_scheduling_data(conn)] *)
Definition fetch_scheduling_data (conn : Conn)
  : dict Z * dict TaskData * list (Z * Z) :=
  let db := pending conn in
  let machines :=
    dict_of_rows machine_id capacity (order_by machine_id (machines db)) in
  let tasks :=
    dict_of_rows task_id
      (fun row => {| td_job_id := job_id row;
                     td_duration := duration_hours row;
                     td_machine_id := required_machine_id row |})
      (order_by task_id (filter unresolved (tasks db))) in
  (machines, tasks, precedences db).

(** ** Constraint model builder and objective composer *)

Definition horizon : Z := 100000.

(** [int(float(duration) * 60)]: the conversion and the product are both
    rounded, then the product is truncated. *)
Definition duration_minutes_of (duration : Q) : Z :=
  py_int (float_ (float_ duration * inject_Z 60)%Q).

(** The integers of the solver's interface are 64-bit ones.  The model
    keeps the size of an interval unbounded; where a property depends on
    it, the size is assumed to be within these bounds. *)
Definition INT64_MIN : Z := - 2 ^ 63.
Definition INT64_MAX : Z := 2 ^ 63 - 1.

Record TaskVars : Type := mkTaskVars {
  tv_start : var;
  tv_end : var;
  tv_interval : IntervalVar;
  tv_machine_id : Z;
  tv_duration_minutes : Z
}.

(** [d[k]], which raises [KeyError] on a missing key *)
Definition dict_index {V} (d : dict V) (k : Z) : Result V :=
  match dict_get d k with
  | Some v => Ok v
  | None => Raise (KeyError k)
  end.

(** Step 2, one turn of the loop over [tasks.items()] *)
Definition create_task_vars (acc : CpModel * dict TaskVars)
  (item : Z * TaskData) : CpModel * dict TaskVars :=
  let '(model, task_vars) := acc in
  let '(id, data) := item in
  let duration_minutes := duration_minutes_of (td_duration data) in
  let model := NewIntVar model 0 horizon (start_ id) in
  let model := NewIntVar model 0 horizon (end_ id) in
  let interval_var :=
    {| iv_task := id; iv_start := start_ id;
       iv_size := duration_minutes; iv_end := end_ id |} in
  let model := NewIntervalVar model interval_var in
  (model,
   dict_set task_vars id
     {| tv_start := start_ id; tv_end := end_ id;
        tv_interval := interval_var;
        tv_machine_id := td_machine_id data;
        tv_duration_minutes := duration_minutes |}).

(** Step 3, one turn of the loop over [precedences] *)
Definition add_precedence_constraint (task_vars : dict TaskVars)
  (acc : Result CpModel) (edge : Z * Z) : Result CpModel :=
  model <- acc ;;
  let '(predecessor_id, successor_id) := edge in
  if dict_mem task_vars predecessor_id && dict_mem task_vars successor_id
  then
    succ <- dict_index task_vars successor_id ;;
    pred <- dict_index task_vars predecessor_id ;;
    Ok (Add model (GreaterOrEqual (tv_start succ) (tv_end pred)))
  else Ok model.

(** [machine_intervals[m_id].append(interval)] *)
Fixpoint dict_append {V} (d : dict (list V)) (k : Z) (v : V) : dict (list V) :=
  match d with
  | [] => []
  | (k', l) :: rest =>
      if k' =? k then (k', (l ++ [v])%list) :: rest
      else (k', l) :: dict_append rest k v
  end.

(** Step 4, first loop: group the intervals by machine *)
Definition collect_interval (machine_intervals : dict (list IntervalVar))
  (t_vars : TaskVars) : dict (list IntervalVar) :=
  let m_id := tv_machine_id t_vars in
  if dict_mem machine_intervals m_id
  then dict_append machine_intervals m_id (tv_interval t_vars)
  else machine_intervals.

(** Step 4, second loop: one [AddNoOverlap] per machine of capacity 1 *)
Definition add_capacity_constraint (machines : dict Z)
  (acc : Result CpModel) (item : Z * list IntervalVar) : Result CpModel :=
  model <- acc ;;
  let '(m_id, intervals) := item in
  cap <- dict_index machines m_id ;;
  if cap =? 1 then Ok (AddNoOverlap model intervals) else Ok model.

(** Steps 1 to 5 of [run_optimization]: the model and [task_vars] *)
Definition build_model (machines : dict Z) (tasks : dict TaskData)
  (precedences : list (Z * Z)) : Result (CpModel * dict TaskVars) :=
  let '(model, task_vars) :=
    fold_left create_task_vars tasks (CpModel_new, []) in
  model <-
    fold_left (add_precedence_constraint task_vars) precedences (Ok model) ;;
  let machine_intervals :=
    fold_left collect_interval (values task_vars)
      (map (fun m_id => (m_id, [])) (keys machines)) in
  model <-
    fold_left (add_capacity_constraint machines) machine_intervals (Ok model) ;;
  let all_ends := map tv_end (values task_vars) in
  match all_ends with
  | [] => Ok (model, task_vars)
  | _ :: _ =>
      let model := NewIntVar model 0 horizon max_end_time in
      let model := AddMaxEquality model max_end_time all_ends in
      Ok (Minimize model max_end_time, task_vars)
  end.

(** ** Solution materializer *)

(** [UPDATE tasks SET start_time = s, end_time = e, status = 'Scheduled'
    WHERE task_id = id] *)
Definition sql_update_schedule (db : DB) (s e id : Z) : DB :=
  set_tasks db
    (map (fun row =>
            if task_id row =? id
            then {| task_id := task_id row; job_id := job_id row;
                    name := name row; duration_hours := duration_hours row;
                    required_machine_id := required_machine_id row;
                    status := "Scheduled";
                    start_time := Some s; end_time := Some e |}
            else row)
         (tasks db)).

(** The loop over [task_vars.items()]; [i] counts the statements sent. *)
Fixpoint save_schedule (env : Env) (solver : CpSolver)
  (schedule_start_time : Z) (items : dict TaskVars) (i : nat) (conn : Conn)
  : Result Conn :=
  match items with
  | [] => Ok conn
  | (id, t_vars) :: rest =>
      let start_minutes_offset := Value solver (tv_start t_vars) in
      let end_minutes_offset := Value solver (tv_end t_vars) in
      let actual_start_time :=
        schedule_start_time + timedelta_minutes start_minutes_offset in
      let actual_end_time :=
        schedule_start_time + timedelta_minutes end_minutes_offset in
      if match failing_update env with
         | Some k => Nat.eqb k i
         | None => false
         end
      then Raise (DatabaseError "UPDATE tasks")
      else
        save_schedule env solver schedule_start_time rest (S i)
          (with_pending conn
             (sql_update_schedule (pending conn)
                actual_start_time actual_end_time id))
  end.

(** ** POST /api/optimize *)

(** [s.split('.')[0]] *)
Fixpoint split_dot_head (s : string) : string :=
  match s with
  | EmptyString => EmptyString
  | String c rest =>
      if Ascii.eqb c "."%char then EmptyString
      else String c (split_dot_head rest)
  end.

(** *** [strptime] on ASCII text *)

(** The value of an ASCII decimal digit *)
Definition digit (c : ascii) : option Z :=
  let n := Z.of_N (N_of_ascii c) in
  if (48 <=? n) && (n <=? 57) then Some (n - 48) else None.

(** A directive of one or two digits.  The alternatives of its pattern
    that take two digits come first, then the one that takes one digit;
    [k] is the rest of the pattern, and a later alternative is tried when
    the rest does not match. *)
Definition digits_field {A} (two : Z -> Z -> bool) (one : Z -> bool)
  (k : Z -> string -> option A) (s : string) : option A :=
  let one_digit :=
    match s with
    | String c rest =>
        match digit c with
        | Some d => if one d then k d rest else None
        | None => None
        end
    | EmptyString => None
    end in
  match s with
  | String c1 (String c2 rest) =>
      match digit c1, digit c2 with
      | Some d1, Some d2 =>
          if two d1 d2 then
            match k (10 * d1 + d2) rest with
            | Some r => Some r
            | None => one_digit
            end
          else one_digit
      | _, _ => one_digit
      end
  | _ => one_digit
  end.

(** A character of the format that is not a letter *)
Definition literal {A} (c : ascii) (k : string -> option A) (s : string)
  : option A :=
  match s with
  | String c' rest =>
      if Ascii.eqb c' c then k rest else None
  | EmptyString => None
  end.

(** [%Y]: four digits *)
Definition year_field {A} (k : Z -> string -> option A) (s : string)
  : option A :=
  match s with
  | String c1 (String c2 (String c3 (String c4 rest))) =>
      match digit c1, digit c2, digit c3, digit c4 with
      | Some d1, Some d2, Some d3, Some d4 =>
          k (1000 * d1 + 100 * d2 + 10 * d3 + d4) rest
      | _, _, _, _ => None
      end
  | _ => None
  end.

(** [%m]: 1[0-2]|0[1-9]|[1-9] *)
Definition month_field {A} :=
  @digits_field A
    (fun a b => ((a =? 1) && (b <=? 2)) || ((a =? 0) && (1 <=? b)))
    (fun a => 1 <=? a).

(** [%d]: 3[01]|[12]\d|0[1-9]|[1-9]| [1-9] *)
Definition day_field {A} (k : Z -> string -> option A) (s : string)
  : option A :=
  match digits_field
          (fun a b => ((a =? 3) && (b <=? 1)) || ((1 <=? a) && (a <=? 2))
                      || ((a =? 0) && (1 <=? b)))
          (fun a => 1 <=? a) k s with
  | Some r => Some r
  | None =>
      match s with
      | String c0 (String c rest) =>
          match digit c with
          | Some d =>
              if Ascii.eqb c0 " " && (1 <=? d) then k d rest else None
          | None => None
          end
      | _ => None
      end
  end.

(** [%H]: 2[0-3]|[0-1]\d|\d *)
Definition hour_field {A} :=
  @digits_field A (fun a b => ((a =? 2) && (b <=? 3)) || (a <=? 1))
    (fun _ => true).

(** [%M]: [0-5]\d|\d *)
Definition minute_field {A} :=
  @digits_field A (fun a _ => a <=? 5) (fun _ => true).

(** [%S]: 6[0-1]|[0-5]\d|\d *)
Definition second_field {A} :=
  @digits_field A (fun a b => ((a =? 6) && (b <=? 1)) || (a <=? 5))
    (fun _ => true).

Definition is_leap (y : Z) : bool :=
  ((y mod 4 =? 0) && negb (y mod 100 =? 0)) || (y mod 400 =? 0).

Definition days_in_month (y m : Z) : Z :=
  if m =? 2 then (if is_leap y then 29 else 28)
  else if (m =? 4) || (m =? 6) || (m =? 9) || (m =? 11) then 30
  else 31.

(** Days from 1 January 1970 to the given day of the proleptic Gregorian
    calendar *)
Definition days_from_civil (y m d : Z) : Z :=
  let y := if m <=? 2 then y - 1 else y in
  let era := y / 400 in
  let yoe := y - era * 400 in
  let doy := (153 * (if 2 <? m then m - 3 else m + 9) + 2) / 5 + d - 1 in
  let doe := yoe * 365 + yoe / 4 - yoe / 100 + doy in
  era * 146097 + doe - 719468.

(** [datetime(y, m, d, H, M, S, tzinfo=timezone.utc)], whose [ValueError]
    is [None] *)
Definition datetime_utc (y m d H M sec : Z) : option Z :=
  if (1 <=? y) && (d <=? days_in_month y m) && (sec <=? 59) then
    Some (((days_from_civil y m d * 24 + H) * 60 + M) * 60000000
          + sec * 1000000)
  else None.

(** [datetime.strptime(s, '%Y-%m-%dT%H:%M:%S')] read as UTC, on ASCII
    text.  The pattern must match at the start of the text, the letter of
    the format without regard to case; text that remains after the match
    is a [ValueError], as is a date or a second that does not exist. *)
Definition strptime_utc (s : string) : option Z :=
  match
    year_field (fun y =>
     literal "-" (
      month_field (fun m =>
       literal "-" (
        day_field (fun d s =>
         match s with
         | String c rest =>
             if Ascii.eqb c "T" || Ascii.eqb c "t" then
               hour_field (fun H =>
                literal ":" (
                 minute_field (fun M =>
                  literal ":" (
                   second_field (fun sec rest =>
                     Some (y, m, d, H, M, sec, rest)))))) rest
             else None
         | EmptyString => None
         end))))) s
  with
  | Some (y, m, d, H, M, sec, EmptyString) => datetime_utc y m d H M sec
  | _ => None
  end.

(** The anchor of the schedule before it is rounded: the parsed
    [start_time] of the request, or the current minute.  [Ok None] is the
    [ValueError] of [strptime], which the handler answers with 400; a
    [start_time] that is truthy and not text has no [split]. *)
Definition parse_start_time (env : Env) (data : body) : Result (option Z) :=
  let start_time_str := get data "start_time" in
  if truthy start_time_str then
    match start_time_str with
    | JStr s => Ok (strptime env (split_dot_head s))
    | _ => Raise (AttributeError "split")
    end
  else Ok (Some (replace_second0 (now env))).

(** [request.get_json(silent=True) or {}]; a missing or malformed
    request body is [None]. *)
Definition json_or_empty (request : option body) : body :=
  match request with
  | Some d => d
  | None => []
  end.

(** What the handler returns once the schedule is saved *)
Definition saved_response (solver : CpSolver) : Response :=
  {| payload :=
       [("message",
         Text [Lit "Optimization successful. New schedule generated and saved."]);
        ("makespan_minutes", Number (ObjectiveValue solver));
        ("status", Text [Lit "OPTIMAL"])];
     code := 200 |}.

Definition infeasible_response : Response :=
  {| payload :=
       [("message",
         Text [Lit "Optimization failed. No feasible schedule found. Check your tasks and machines."]);
        ("status", Text [Lit "INFEASIBLE"])];
     code := 400 |}.

(** What the [try] block does: a response and the connection, or an
    exception. *)
Definition run_optimization_try (env : Env) (conn : Conn)
  (request : option body) : Result (Response * Conn) :=
  let data := json_or_empty request in
  parsed <- parse_start_time env data ;;
  match parsed with
  | None =>
      Ok (message
            [Lit "Invalid start time format. Please select a valid time."]
            400, conn)
  | Some schedule_start_time =>
      let schedule_start_time := replace_second0 schedule_start_time in
      let '(machines, tasks, precedences) := fetch_scheduling_data conn in
      match tasks with
      | [] =>
          Ok (message
                [Lit "Optimization successful. No pending tasks found to schedule."]
                200, conn)
      | _ :: _ =>
          built <- build_model machines tasks precedences ;;
          let '(model, task_vars) := built in
          let solver := Solve env model in
          if usable (solver_status solver) then
            conn <- save_schedule env solver schedule_start_time
                      task_vars 0 conn ;;
            let conn := commit conn in
            Ok (saved_response solver, conn)
          else Ok (infeasible_response, conn)
      end
  end.

(** [run_optimization()]: the response and the store the request leaves *)
Definition run_optimization (env : Env) (db : DB) (request : option body)
  : Response * DB :=
  match get_db_connection env db with
  | None => (error [Lit "Could not connect to database"] 500, db)
  | Some conn =>
      match run_optimization_try env conn request with
      | Ok (resp, conn) => (resp, close conn)
      | Raise e =>
          (error [Lit "An internal error occurred: "; ValE e] 500,
           close (rollback conn))
      end
  end.

(** ** Shared pieces of the remaining handlers *)

(** [request.get_json()] gave no object: the first [data.get] raises. *)
Definition request_object (request : option body) : Result body :=
  match request with
  | Some data => Ok data
  | None => Raise (AttributeError "get")
  end.

(** [conn.cursor()] on what [get_db_connection] returned *)
Definition cursor (conn : option Conn) : Result Conn :=
  match conn with
  | Some c => Ok c
  | None => Raise (AttributeError "cursor")
  end.

(** An exception that leaves the handler: Flask answers 500 itself. *)
Definition flask_internal_error : Response :=
  {| payload := []; code := 500 |}.

(** [SELECT machine_id FROM machines WHERE name = %s] and [fetchone()] *)
Definition sql_machine_by_name (db : DB) (n : string) : option Z :=
  option_map machine_id
    (find (fun m => String.eqb (machine_name m) n) (machines db)).

(** The same lookup with the request's value as parameter: null matches
    no row, and a value that is not text is rejected by the store. *)
Definition lookup_machine (db : DB) (n : json) : Result (option Z) :=
  match n with
  | JStr s => Ok (sql_machine_by_name db s)
  | JNull => Ok None
  | _ => Raise (DatabaseError "operator does not exist")
  end.

(** Number of rows a [WHERE task_id = id] clause matches *)
Definition rowcount (db : DB) (id : Z) : Z :=
  Z.of_nat (List.length (filter (fun row => task_id row =? id) (tasks db))).

(** ** POST /tasks *)

(** [SELECT COALESCE(MAX(job_id), 0) + 1 FROM tasks] *)
Definition sql_next_job_id (db : DB) : Z :=
  match sql_max (map (fun t => Some (job_id t)) (tasks db)) with
  | Some m => m + 1
  | None => 0 + 1
  end.

(** [INSERT INTO tasks (...) VALUES (..., 'Pending', ...)] *)
Definition sql_insert_task (db : DB) (row : TaskRow) : DB :=
  set_tasks db (tasks db ++ [row])%list.

(** The [hours] of [timedelta]: a number, a boolean counting as 0 or 1;
    text is a [TypeError]. *)
Definition timedelta_arg (j : json) : Result Q :=
  match j with
  | JNum q => Ok q
  | JBool b => Ok (if b then 1 else 0)%Q
  | _ => Raise (TypeError "unsupported type for timedelta hours component")
  end.

Definition add_task_try (env : Env) (conn0 : option Conn) (data : body)
  : Result (Response * option Conn) :=
  let name_ := get data "name" in
  let duration_hours_ := get data "duration_hours" in
  let machine_name_ := get data "machine_name" in
  if negb (truthy name_) || negb (truthy duration_hours_)
     || negb (truthy machine_name_)
  then
    Ok (message
          [Lit "Missing required fields (name, duration_hours, machine_name)"]
          400, None)
  else
    conn <- cursor conn0 ;;
    let new_job_id := sql_next_job_id (pending conn) in
    machine_result <- lookup_machine (pending conn) machine_name_ ;;
    match machine_result with
    | None =>
        Ok (message [Lit "Machine not found: "; ValJ machine_name_] 404,
            Some conn)
    | Some m_id =>
        hours <- timedelta_arg duration_hours_ ;;
        estimate <- calculate_sequential_schedule env conn m_id hours ;;
        let '(start, end') := estimate in
        task_name <-
          match text_param env name_ with
          | Some s => Ok s
          | None => Raise (DatabaseError "column name")
          end ;;
        duration <-
          match numeric_param env duration_hours_ with
          | Some q => Ok q
          | None => Raise (DatabaseError "column duration_hours")
          end ;;
        let id := nextval_task_id env in
        let conn :=
          with_pending conn
            (sql_insert_task (pending conn)
               {| task_id := id; job_id := new_job_id; name := task_name;
                  duration_hours := duration; required_machine_id := m_id;
                  status := "Pending";
                  start_time := Some start; end_time := Some end' |}) in
        let conn := commit conn in
        Ok (message
              [Lit "Task '"; ValJ name_; Lit "' added with ID "; ValZ id;
               Lit ". Run optimizer for true schedule."] 201, Some conn)
    end.

(** [add_task()] *)
Definition add_task (env : Env) (db : DB) (request : option body)
  : Response * DB :=
  match request_object request with
  | Raise e =>
      (message [Lit "An internal error occurred: "; ValE e] 500, db)
  | Ok data =>
      let conn0 := get_db_connection env db in
      match add_task_try env conn0 data with
      | Ok (resp, Some conn) => (resp, close conn)
      | Ok (resp, None) => (resp, db)
      | Raise e =>
          (message [Lit "An internal error occurred: "; ValE e] 500,
           match conn0 with
           | Some conn => close (rollback conn)
           | None => db
           end)
      end
  end.

(** ** POST /precedences *)

(** The integer a JSON number denotes, if it denotes one *)
Definition as_integer (j : json) : option Z :=
  match j with
  | JNum q =>
      if Pos.eqb (Qden (Qred q)) 1 then Some (Qnum (Qred q)) else None
  | _ => None
  end.

(** [INSERT INTO precedences (predecessor_task_id, successor_task_id)
    VALUES (p, s)] *)
Definition sql_insert_precedence (db : DB) (p s : Z) : DB :=
  {| machines := machines db; tasks := tasks db;
     precedences := (precedences db ++ [(p, s)])%list |}.

(** [cursor.execute(query, vars, **kwargs)] for the [INSERT INTO
    precedences] statement, which has two placeholders.  The method has
    the parameters [query] and [vars] and no other: a call with another
    keyword is a [TypeError] before anything is sent.  Without [vars] the
    placeholders reach the store as they are and the statement is
    rejected. *)
Definition execute_insert_precedence (conn : Conn)
  (vars : option (list json)) (kwargs : list (string * json)) : Result Conn :=
  match find (fun kw => negb (String.eqb (fst kw) "vars")) kwargs with
  | Some kw =>
      Raise (TypeError "invalid keyword argument for this function")
  | None =>
      match vars with
      | Some [p; s] =>
          match as_integer p, as_integer s with
          | Some p, Some s =>
              Ok (with_pending conn (sql_insert_precedence (pending conn) p s))
          | _, _ => Raise (DatabaseError "invalid input syntax for integer")
          end
      | Some _ => Raise (TypeError "not all arguments converted")
      | None => Raise (DatabaseError "syntax error at or near %")
      end
  end.

Definition add_precedence_try (env : Env) (db : DB) (data : body)
  : Result (Response * DB) :=
  let predecessor_id := get data "predecessor_id" in
  let successor_id := get data "successor_id" in
  if negb (truthy predecessor_id) || negb (truthy successor_id)
  then
    Ok (message
          [Lit "Missing required fields (predecessor_id, successor_id)"]
          400, db)
  else
    conn <- cursor (get_db_connection env db) ;;
    conn <- execute_insert_precedence conn None
              [("predecessor_id", get data "predecessor_id")] ;;
    let conn := commit conn in
    Ok (message
          [Lit "Precedence rule added: Task "; ValJ successor_id;
           Lit " follows Task "; ValJ predecessor_id; Lit "."] 201,
        close conn).

(** [add_precedence()] *)
Definition add_precedence (env : Env) (db : DB) (request : option body)
  : Response * DB :=
  match (data <- request_object request ;; add_precedence_try env db data) with
  | Ok r => r
  | Raise e =>
      (message [Lit "An internal error occurred: "; ValE e] 500, db)
  end.

(** ** PATCH /tasks/<id>/status *)

Definition valid_statuses : list string :=
  ["In Progress"; "Completed"; "Canceled"; "Pending"; "Scheduled"].

(** [new_status in valid_statuses] *)
Definition in_valid_statuses (j : json) : bool :=
  match j with
  | JStr s => existsb (String.eqb s) valid_statuses
  | _ => false
  end.

Definition set_status (row : TaskRow) (st : string) : TaskRow :=
  {| task_id := task_id row; job_id := job_id row; name := name row;
     duration_hours := duration_hours row;
     required_machine_id := required_machine_id row;
     status := st;
     start_time := start_time row; end_time := end_time row |}.

(** [UPDATE tasks SET status = st WHERE task_id = id] *)
Definition sql_update_status (db : DB) (st : string) (id : Z) : DB :=
  set_tasks db
    (map (fun row => if task_id row =? id then set_status row st else row)
         (tasks db)).

Definition update_task_status_try (env : Env) (db : DB) (id : Z)
  (data : body) : Result (Response * DB) :=
  let new_status := get data "status" in
  if negb (truthy new_status) then
    Ok (message [Lit "Missing required field: status"] 400, db)
  else if negb (in_valid_statuses new_status) then
    Ok (message
          [Lit "Invalid status: "; ValJ new_status;
           Lit ". Must be one of "; ValL valid_statuses] 400, db)
  else
    conn <- cursor (get_db_connection env db) ;;
    st <- match new_status with
          | JStr s => Ok s
          | _ => Raise (TypeError "status")
          end ;;
    let n := rowcount (pending conn) id in
    let conn := with_pending conn (sql_update_status (pending conn) st id) in
    if n =? 0 then
      Ok (message [Lit "Task with ID "; ValZ id; Lit " not found."] 404,
          close conn)
    else
      let conn := commit conn in
      Ok (message
            [Lit "Task "; ValZ id; Lit " status updated to '";
             ValJ new_status; Lit "'. RUN OPTIMIZER NOW."] 200,
          close conn).

(** [update_task_status(task_id)] *)
Definition update_task_status (env : Env) (db : DB) (id : Z)
  (request : option body) : Response * DB :=
  match (data <- request_object request ;;
         update_task_status_try env db id data) with
  | Ok r => r
  | Raise e => (error [Lit "An internal error occurred: "; ValE e] 500, db)
  end.

(** ** PATCH /tasks/<id> *)

(** One [column = %s] of the [SET] clause with its parameter *)
Inductive column_update : Type :=
| set_name (v : json)
| set_duration_hours (v : json)
| set_required_machine_id (m : Z).

(** A row after one assignment of the [SET] clause; a parameter the column
    cannot hold is rejected by the store. *)
Definition apply_update (env : Env) (row : Result TaskRow)
  (u : column_update) : Result TaskRow :=
  row <- row ;;
  match u with
  | set_name v =>
      match text_param env v with
      | Some s =>
          Ok {| task_id := task_id row; job_id := job_id row; name := s;
                duration_hours := duration_hours row;
                required_machine_id := required_machine_id row;
                status := status row;
                start_time := start_time row; end_time := end_time row |}
      | None => Raise (DatabaseError "column name")
      end
  | set_duration_hours v =>
      match numeric_param env v with
      | Some q =>
          Ok {| task_id := task_id row; job_id := job_id row;
                name := name row; duration_hours := q;
                required_machine_id := required_machine_id row;
                status := status row;
                start_time := start_time row; end_time := end_time row |}
      | None => Raise (DatabaseError "column duration_hours")
      end
  | set_required_machine_id m =>
      Ok {| task_id := task_id row; job_id := job_id row; name := name row;
            duration_hours := duration_hours row;
            required_machine_id := m;
            status := status row;
            start_time := start_time row; end_time := end_time row |}
  end.

(** [status = 'Pending', start_time = NULL, end_time = NULL] *)
Definition reset_to_pending (row : TaskRow) : TaskRow :=
  {| task_id := task_id row; job_id := job_id row; name := name row;
     duration_hours := duration_hours row;
     required_machine_id := required_machine_id row;
     status := "Pending";
     start_time := None; end_time := None |}.

(** The rows of [UPDATE tasks SET <updates>, status = 'Pending',
    start_time = NULL, end_time = NULL WHERE task_id = id] *)
Fixpoint sql_update_details_rows (env : Env) (rows : list TaskRow)
  (updates : list column_update) (id : Z) : Result (list TaskRow) :=
  match rows with
  | [] => Ok []
  | row :: rest =>
      rest <- sql_update_details_rows env rest updates id ;;
      if task_id row =? id then
        row <- fold_left (apply_update env) updates (Ok row) ;;
        Ok (reset_to_pending row :: rest)
      else Ok (row :: rest)
  end.

(** The parameters are checked against the column types whether or not a
    row matches. *)
Definition well_typed_update (env : Env) (u : column_update) : bool :=
  match u with
  | set_name v =>
      match text_param env v with Some _ => true | None => false end
  | set_duration_hours v =>
      match numeric_param env v with Some _ => true | None => false end
  | set_required_machine_id _ => true
  end.

Definition sql_update_details (env : Env) (db : DB)
  (updates : list column_update) (id : Z) : Result DB :=
  if forallb (well_typed_update env) updates then
    rows <- sql_update_details_rows env (tasks db) updates id ;;
    Ok (set_tasks db rows)
  else Raise (DatabaseError "UPDATE tasks").

Definition edit_task_details_try (env : Env) (conn0 : option Conn)
  (id : Z) (data : body) : Result (Response * option Conn) :=
  if negb (existsb (has_key data) ["name"; "duration_hours"; "machine_name"])
  then
    Ok (message
          [Lit "No valid fields provided for update (name, duration_hours, machine_name)."]
          400, None)
  else
    conn <- cursor conn0 ;;
    let updates := [] in
    let updates :=
      if has_key data "name"
      then (updates ++ [set_name (get data "name")])%list else updates in
    let updates :=
      if has_key data "duration_hours"
      then (updates ++ [set_duration_hours (get data "duration_hours")])%list
      else updates in
    machine <-
      (if has_key data "machine_name" then
         machine_result <-
           lookup_machine (pending conn) (get data "machine_name") ;;
         match machine_result with
         | None => Ok (inl tt)
         | Some m_id => Ok (inr [set_required_machine_id m_id])
         end
       else Ok (inr [])) ;;
    match machine with
    | inl _ =>
        Ok (message
              [Lit "Machine not found: "; ValJ (get data "machine_name")] 404,
            Some conn)
    | inr machine_update =>
        let updates := (updates ++ machine_update)%list in
        let n := rowcount (pending conn) id in
        db' <- sql_update_details env (pending conn) updates id ;;
        let conn := with_pending conn db' in
        if n =? 0 then
          Ok (message [Lit "Task with ID "; ValZ id; Lit " not found."] 404,
              Some conn)
        else
          let conn := commit conn in
          Ok (message
                [Lit "Task "; ValZ id;
                 Lit " updated successfully. Status reset to PENDING. RUN OPTIMIZER NOW."]
                200, Some conn)
    end.

(** [edit_task_details(task_id)].  When the exception is raised before
    the connection exists, [conn.rollback()] in the handler raises in its
    turn and the exception leaves the handler. *)
Definition edit_task_details (env : Env) (db : DB) (id : Z)
  (request : option body) : Response * DB :=
  match request_object request with
  | Raise e => (flask_internal_error, db)
  | Ok data =>
      let conn0 := get_db_connection env db in
      match edit_task_details_try env conn0 id data with
      | Ok (resp, Some conn) => (resp, close conn)
      | Ok (resp, None) => (resp, db)
      | Raise e =>
          match conn0 with
          | Some conn =>
              (error [Lit "An internal error occurred: "; ValE e] 500,
               close (rollback conn))
          | None => (flask_internal_error, db)
          end
      end
  end.

(** ** The notions the properties are stated with *)

(** The five status values as the specification's data model writes
    them *)
Definition claimed_statuses : list string :=
  ["Pending"; "Scheduled"; "InProgress"; "Completed"; "Canceled"].

(** A span in microseconds equals a duration in hours to within a minute:
    the truncation to whole minutes loses less than a minute, and the
    rounding of the floating-point product less than the microsecond that
    is allowed on top. *)
Definition within_a_minute (span_us : Z) (duration : Q) : Prop :=
  (Qabs (inject_Z span_us - duration * inject_Z HOUR_US)
   <= inject_Z (MINUTE_US + 1))%Q.

(** Both timestamps are set and their difference is the duration. *)
Definition timed (t : TaskRow) : Prop :=
  exists s e,
    start_time t = Some s /\ end_time t = Some e
    /\ within_a_minute (e - s) (duration_hours t).

Definition task_invariant (t : TaskRow) : Prop :=
  status t = "Scheduled" \/ status t = "Completed" -> timed t.

Definition db_invariant (db : DB) : Prop :=
  forall t, In t (tasks db) -> task_invariant t.

(** [T] is the latest end timestamp among the tasks bound to machine [m],
    whatever their status. *)
Definition latest_end_on (db : DB) (m T : Z) : Prop :=
  (exists t, In t (tasks db) /\ required_machine_id t = m
             /\ end_time t = Some T)
  /\ forall t T', In t (tasks db) -> required_machine_id t = m ->
                  end_time t = Some T' -> T' <= T.

(** No task bound to machine [m] has an end timestamp. *)
Definition no_end_on (db : DB) (m : Z) : Prop :=
  forall t, In t (tasks db) -> required_machine_id t = m ->
            end_time t = None.

(** The instant the estimator starts from *)
Inductive anchor_of (env : Env) (db : DB) (m : Z) : Z -> Prop :=
| anchor_latest T : latest_end_on db m T -> anchor_of env db m T
| anchor_now : no_end_on db m -> anchor_of env db m (now env).

(** A row as the materializer writes it: offsets in minutes from the
    anchor, status Scheduled *)
Definition scheduled (solver : CpSolver) (anchor : Z) (row : TaskRow)
  : TaskRow :=
  {| task_id := task_id row; job_id := job_id row; name := name row;
     duration_hours := duration_hours row;
     required_machine_id := required_machine_id row;
     status := "Scheduled";
     start_time :=
       Some (anchor + Value solver (start_ (task_id row)) * MINUTE_US);
     end_time :=
       Some (anchor + Value solver (end_ (task_id row)) * MINUTE_US) |}.

(** The store with every task of the assignment written *)
Definition materialized (solver : CpSolver) (anchor : Z)
  (assigned : Z -> bool) (db : DB) : DB :=
  set_tasks db
    (map (fun row =>
            if assigned (task_id row) then scheduled solver anchor row
            else row)
         (tasks db)).

(** The interval of a task of the assembled set *)
Definition interval_of (id : Z) (data : TaskData) : IntervalVar :=
  {| iv_task := id; iv_start := start_ id;
     iv_size := duration_minutes_of (td_duration data); iv_end := end_ id |}.

(** The intervals of the tasks that require machine [m] *)
Definition intervals_on (tasks : dict TaskData) (m : Z) : list IntervalVar :=
  map (fun item => interval_of (fst item) (snd item))
      (filter (fun item => td_machine_id (snd item) =? m) tasks).

Definition is_no_overlap (c : constraint) : bool :=
  match c with
  | NoOverlap _ => true
  | _ => false
  end.

(** What the solver is relied on for: when it reports a usable status,
    its values are a solution of the model it was given. *)
Definition solver_contract (env : Env) (db : DB) : bool :=
  let '(machines, tasks, precedences) := fetch_scheduling_data (connect db) in
  match build_model machines tasks precedences with
  | Ok (model, _) =>
      let solver := Solve env model in
      implb (usable (solver_status solver)) (satisfies model (Value solver))
  | Raise _ => true
  end.

(** No [UPDATE] of a batch of [n] statements raises. *)
Definition no_failing_update (env : Env) (n : nat) : bool :=
  match failing_update env with
  | Some k => Nat.leb n k
  | None => true
  end.

(** *** The model in closed form *)

Definition task_vars_of (tasks : dict TaskData) : dict TaskVars :=
  map (fun item =>
         (fst item,
          {| tv_start := start_ (fst item); tv_end := end_ (fst item);
             tv_interval := interval_of (fst item) (snd item);
             tv_machine_id := td_machine_id (snd item);
             tv_duration_minutes :=
               duration_minutes_of (td_duration (snd item)) |}))
      tasks.

Definition task_int_vars (tasks : dict TaskData) : list (var * (Z * Z)) :=
  flat_map (fun item => [(start_ (fst item), (0, horizon));
                         (end_ (fst item), (0, horizon))]) tasks.

Definition interval_constraints (tasks : dict TaskData) : list constraint :=
  map (fun item => Interval (interval_of (fst item) (snd item))) tasks.

Definition precedence_constraints (tasks : dict TaskData)
  (precedences : list (Z * Z)) : list constraint :=
  flat_map (fun edge =>
              if dict_mem tasks (fst edge) && dict_mem tasks (snd edge)
              then [GreaterOrEqual (start_ (snd edge)) (end_ (fst edge))]
              else [])
           precedences.

Definition capacity_constraints (machines : dict Z) (tasks : dict TaskData)
  : list constraint :=
  flat_map (fun item =>
              if snd item =? 1 then [NoOverlap (intervals_on tasks (fst item))]
              else [])
           machines.

Definition model_of (machines : dict Z) (tasks : dict TaskData)
  (precedences : list (Z * Z)) : CpModel :=
  match tasks with
  | [] =>
      {| int_vars := [];
         constraints :=
           (precedence_constraints tasks precedences
            ++ capacity_constraints machines tasks)%list;
         objective := None |}
  | _ :: _ =>
      {| int_vars :=
           (task_int_vars tasks ++ [(max_end_time, (0, horizon))])%list;
         constraints :=
           (interval_constraints tasks
            ++ precedence_constraints tasks precedences
            ++ capacity_constraints machines tasks
            ++ [MaxEquality max_end_time (map end_ (keys tasks))])%list;
         objective := Some max_end_time |}
  end.

(** ** A small shop floor, used to run the handlers *)

Module Example.

(** A mill that takes one task at a time and a lathe of capacity 3;
    task 2 must follow task 1, task 3 is already scheduled. *)
Definition db : DB :=
  {| machines := [mkMachine 2 "Lathe" 3; mkMachine 1 "Mill" 1];
     tasks :=
       [mkTask 1 1 "cut" 2 1 "Pending" None None;
        mkTask 2 1 "drill" (3 # 2) 1 "Canceled"
          (Some 1700000000000000) (Some 1700005400000000);
        mkTask 3 2 "turn" 1 2 "Scheduled"
          (Some 1700000040000000) (Some 1700003640000000);
        mkTask 4 2 "polish" 1 2 "In Progress" None None];
     precedences := [(1, 2); (3, 1); (2, 9)] |}.

Definition values_ (v : var) : Z :=
  match v with
  | start_ 1 => 0
  | end_ 1 => 120
  | start_ 2 => 120
  | end_ 2 => 210
  | start_ 4 => 0
  | end_ 4 => 60
  | max_end_time => 210
  | _ => 0
  end.

Definition solver (st : CpSolverStatus) : CpSolver :=
  {| solver_status := st; Value := values_; ObjectiveValue := 210 |}.

(** The store of the examples converts whole numbers and booleans.  For
    a text column a whole number is the text of its decimal digits and a
    boolean is the text true or false; for a numeric or an integer column
    a text of decimal digits, with a minus sign or without, is the number
    it denotes.  It rejects any other parameter. *)
Definition store_text_ (j : json) : option string :=
  match j with
  | JBool true => Some "true"
  | JBool false => Some "false"
  | JNum q =>
      if Pos.eqb (Qden (Qred q)) 1
      then Some (NilZero.string_of_int (Z.to_int (Qnum (Qred q))))
      else None
  | _ => None
  end.

Definition store_numeric_ (j : json) : option Q :=
  match j with
  | JStr s => option_map (fun i => inject_Z (Z.of_int i))
                         (NilZero.int_of_string s)
  | _ => None
  end.

Definition store_integer_ (j : json) : option Z :=
  match j with
  | JStr s =>
      match NilZero.int_of_string s with
      | Some i => to_int4 (inject_Z (Z.of_int i))
      | None => None
      end
  | _ => None
  end.

(** The store is reachable, it is 22:13:32.345678 UTC on 14 November
    2023, and the solver finds [values_] without proving it optimal. *)
Definition env : Env :=
  {| db_up := true;
     now := 1700000012345678;
     strptime := strptime_utc;
     Solve := fun _ => solver FEASIBLE;
     failing_update := None;
     nextval_task_id := 5;
     store_text := store_text_;
     store_numeric := store_numeric_;
     store_integer := store_integer_ |}.

(** The same, with the store rejecting the second [UPDATE] of a batch *)
Definition env_failing : Env :=
  {| db_up := true;
     now := 1700000012345678;
     strptime := strptime_utc;
     Solve := fun _ => solver FEASIBLE;
     failing_update := Some 1%nat;
     nextval_task_id := 5;
     store_text := store_text_;
     store_numeric := store_numeric_;
     store_integer := store_integer_ |}.

(** The same, with a solver that finds no schedule *)
Definition env_infeasible : Env :=
  {| db_up := true;
     now := 1700000012345678;
     strptime := strptime_utc;
     Solve := fun _ => solver INFEASIBLE;
     failing_update := None;
     nextval_task_id := 5;
     store_text := store_text_;
     store_numeric := store_numeric_;
     store_integer := store_integer_ |}.

Definition machines_ : dict Z := [(1, 1); (2, 3)].

Definition tasks_ : dict TaskData :=
  [(1, {| td_job_id := 1; td_duration := 2; td_machine_id := 1 |});
   (2, {| td_job_id := 1; td_duration := 3 # 2; td_machine_id := 1 |});
   (4, {| td_job_id := 2; td_duration := 1; td_machine_id := 2 |})].

(** A task that was edited, hence Pending without timestamps *)
Definition edited_db : DB :=
  {| machines := [mkMachine 1 "Mill" 1];
     tasks := [mkTask 1 1 "cut" 2 1 "Pending" None None];
     precedences := [] |}.

(** The lathe has one task, which ends 12 seconds past a minute. *)
Definition scenario_db : DB :=
  {| machines := [mkMachine 1 "Mill" 1; mkMachine 2 "Lathe" 3];
     tasks :=
       [mkTask 1 1 "cut" 2 1 "Pending" None None;
        mkTask 3 2 "turn" 1 2 "Scheduled"
          (Some 1700000052000000) (Some 1700003652000000)];
     precedences := [] |}.

Definition new_task : body :=
  [("name", JStr "deburr"); ("duration_hours", JNum 2);
   ("machine_name", JStr "Lathe")].

End Example.

(** ** DELETE /tasks/<id> *)

(** [DELETE FROM precedences WHERE predecessor_task_id = id
    OR successor_task_id = id] *)
Definition sql_delete_precedences_of (db : DB) (id : Z) : DB :=
  {| machines := machines db; tasks := tasks db;
     precedences :=
       filter (fun edge => negb ((fst edge =? id) || (snd edge =? id)))
              (precedences db) |}.

(** [DELETE FROM tasks WHERE task_id = id] *)
Definition sql_delete_task (db : DB) (id : Z) : DB :=
  set_tasks db (filter (fun row => negb (task_id row =? id)) (tasks db)).

(** [delete_task(task_id)].  Without a connection [conn.cursor()] raises
    and so does [conn.rollback()] in the handler: Flask answers 500. *)
Definition delete_task (env : Env) (db : DB) (id : Z) : Response * DB :=
  match get_db_connection env db with
  | None => (flask_internal_error, db)
  | Some conn =>
      let conn :=
        with_pending conn (sql_delete_precedences_of (pending conn) id) in
      let n := rowcount (pending conn) id in
      let conn := with_pending conn (sql_delete_task (pending conn) id) in
      if n =? 0 then
        (message [Lit "Task with ID "; ValZ id; Lit " not found."] 404,
         close conn)
      else
        let conn := commit conn in
        (message
           [Lit "Task "; ValZ id;
            Lit " successfully deleted. Run optimizer to re-schedule remaining tasks."]
           200,
         close conn)
  end.

(** ** DELETE /api/machines/<id> *)

(** [SELECT COUNT( * ) FROM tasks WHERE required_machine_id = m] *)
Definition sql_count_tasks_on (db : DB) (m : Z) : Z :=
  Z.of_nat
    (List.length (filter (fun t => required_machine_id t =? m) (tasks db))).

(** Number of rows a [WHERE machine_id = m] clause matches *)
Definition machine_rowcount (db : DB) (m : Z) : Z :=
  Z.of_nat
    (List.length (filter (fun row => machine_id row =? m) (machines db))).

(** [DELETE FROM machines WHERE machine_id = m] *)
Definition sql_delete_machine (db : DB) (m : Z) : DB :=
  {| machines := filter (fun row => negb (machine_id row =? m)) (machines db);
     tasks := tasks db; precedences := precedences db |}.

(** [delete_machine(machine_id)] *)
Definition delete_machine (env : Env) (db : DB) (m : Z) : Response * DB :=
  match get_db_connection env db with
  | None => (flask_internal_error, db)
  | Some conn =>
      let task_count := sql_count_tasks_on (pending conn) m in
      if 0 <? task_count then
        (message
           [Lit "Cannot delete machine ID "; ValZ m;
            Lit ". It is currently required by "; ValZ task_count;
            Lit " task(s)."] 409,
         close conn)
      else
        let n := machine_rowcount (pending conn) m in
        let conn := with_pending conn (sql_delete_machine (pending conn) m) in
        if n =? 0 then
          (message [Lit "Machine with ID "; ValZ m; Lit " not found."] 404,
           close conn)
        else
          let conn := commit conn in
          (message [Lit "Machine ID "; ValZ m; Lit " successfully deleted."]
             200,
           close conn)
  end.

(** ** POST /machines *)

(** [data.get(key, default)]: the default stands for an absent key only. *)
Definition get_default (data : body) (key : string) (default : json) : json :=
  if has_key data key then get data key else default.

(** [INSERT INTO machines (name, capacity) VALUES (n, c)
    RETURNING machine_id] *)
Definition sql_insert_machine (db : DB) (row : MachineRow) : DB :=
  {| machines := (machines db ++ [row])%list;
     tasks := tasks db; precedences := precedences db |}.

(** [add_machine()]; [fresh_id] is the value the [machine_id] sequence
    hands out.  The source shows no constraint of the table, and none is
    modelled. *)
Definition add_machine (env : Env) (fresh_id : Z) (db : DB)
  (request : option body) : Response * DB :=
  match
    (data <- request_object request ;;
     let name_ := get data "name" in
     let capacity_ := get_default data "capacity" (JNum 1) in
     if negb (truthy name_) then
       Ok (message [Lit "Missing required field: name"] 400, db)
     else
       conn <- cursor (get_db_connection env db) ;;
       machine_name_ <-
         match text_param env name_ with
         | Some s => Ok s
         | None => Raise (DatabaseError "column name")
         end ;;
       capacity_ <-
         match integer_param env capacity_ with
         | Some c => Ok c
         | None => Raise (DatabaseError "column capacity")
         end ;;
       let conn :=
         with_pending conn
           (sql_insert_machine (pending conn)
              {| machine_id := fresh_id; machine_name := machine_name_;
                 capacity := capacity_ |}) in
       let conn := commit conn in
       Ok (message
             [Lit "Machine '"; ValJ name_; Lit "' added with ID ";
              ValZ fresh_id; Lit "."] 201,
           close conn))
  with
  | Ok r => r
  | Raise e => (message [Lit "An internal error occurred: "; ValE e] 500, db)
  end.

(** ** The listing endpoints *)

(** A row of the join of [get_schedule] *)
Record ScheduleRow : Type := mkScheduleRow {
  sr_task_id : Z;
  sr_job_id : Z;
  sr_task_name : string;
  sr_duration_hours : Q;
  sr_machine_name : string;
  sr_status : string;
  sr_start_time : option Z;
  sr_end_time : option Z
}.

Definition schedule_row (t : TaskRow) (m : MachineRow) : ScheduleRow :=
  {| sr_task_id := task_id t; sr_job_id := job_id t; sr_task_name := name t;
     sr_duration_hours := duration_hours t;
     sr_machine_name := machine_name m;
     sr_status := status t;
     sr_start_time := start_time t; sr_end_time := end_time t |}.

(** [SELECT ... FROM tasks t JOIN machines m
    ON t.required_machine_id = m.machine_id ORDER BY t.task_id] *)
Definition sql_schedule (db : DB) : list ScheduleRow :=
  order_by sr_task_id
    (flat_map
       (fun t =>
          map (schedule_row t)
              (filter (fun m => required_machine_id t =? machine_id m)
                      (machines db)))
       (tasks db)).

(** [get_schedule()]: the error response, or the array answered with 200 *)
Definition get_schedule (env : Env) (db : DB) : Response + list ScheduleRow :=
  match get_db_connection env db with
  | None =>
      inl (error
             [Lit "Could not connect to database. Check DB credentials."] 500)
  | Some conn => inr (sql_schedule (pending conn))
  end.

(** [get_machines()] *)
Definition get_machines (env : Env) (db : DB) : Response + list MachineRow :=
  match get_db_connection env db with
  | None => inl (error [Lit "Could not connect to database."] 500)
  | Some conn => inr (order_by machine_id (machines (pending conn)))
  end.

(** [get_all_tasks()]: the pairs of [task_id] and [name] *)
Definition get_all_tasks (env : Env) (db : DB)
  : Response + list (Z * string) :=
  match get_db_connection env db with
  | None => inl (error [Lit "Could not connect to database"] 500)
  | Some conn =>
      inr (map (fun t => (task_id t, name t))
               (order_by task_id (tasks (pending conn))))
  end.

(** ** POST /api/production_log *)

(** A row of [production_logs] *)
Record LogRow : Type := mkLogRow {
  log_task_id : Z;
  log_resource_used : json;
  log_product_count : Z
}.

(** What [int(x)] does with a value of the request *)
Inductive conversion : Type :=
| Converted (z : Z)
| ValueError
| OtherError.

(** [int(x)]: a number is truncated, a boolean is 0 or 1, text is parsed
    by [int_of_text], whose [None] is [ValueError]; [int(None)] is a
    [TypeError]. *)
Definition int_ (int_of_text : string -> option Z) (x : json) : conversion :=
  match x with
  | JNum q => Converted (py_int q)
  | JBool b => Converted (if b then 1 else 0)
  | JStr s =>
      match int_of_text s with
      | Some z => Converted z
      | None => ValueError
      end
  | JNull => OtherError
  end.

(** [log_production()] on the rows of [production_logs].  The request
    object is read before any [try]: without one the exception leaves the
    handler.  The source shows no constraint of the table, and none is
    modelled. *)
Definition log_production (env : Env) (int_of_text : string -> option Z)
  (logs : list LogRow) (request : option body) : Response * list LogRow :=
  match request with
  | None => (flask_internal_error, logs)
  | Some data =>
      let task_id_ := get data "task_id" in
      let resource_used_ := get data "resource_used" in
      let product_count_ := get data "product_count" in
      if negb (forallb truthy [task_id_; resource_used_; product_count_])
      then
        (error [Lit "Missing task_id, resource_used, or product_count"] 400,
         logs)
      else
        match int_ int_of_text task_id_ with
        | OtherError => (flask_internal_error, logs)
        | ValueError =>
            (error [Lit "Product count or task_id must be a valid integer"]
               400, logs)
        | Converted id =>
            match int_ int_of_text product_count_ with
            | OtherError => (flask_internal_error, logs)
            | ValueError =>
                (error
                   [Lit "Product count or task_id must be a valid integer"]
                   400, logs)
            | Converted count =>
                if count <? 0 then
                  (error
                     [Lit "Product count or task_id must be a valid integer"]
                     400, logs)
                else if db_up env then
                  (message
                     [Lit "Production log saved successfully for Task ID ";
                      ValZ id; Lit "."] 201,
                   (logs ++ [{| log_task_id := id;
                                log_resource_used := resource_used_;
                                log_product_count := count |}])%list)
                else (error [Lit "Could not connect to database"] 500, logs)
            end
        end
  end.

(** ** More notions the properties are stated with *)

(** Two rows are the same task: what neither the optimizer nor the status
    update may change. *)
Definition same_identity (r r' : TaskRow) : Prop :=
  task_id r' = task_id r /\ job_id r' = job_id r /\ name r' = name r
  /\ duration_hours r' = duration_hours r
  /\ required_machine_id r' = required_machine_id r.

(** Every task requires a machine of the store. *)
Definition references_ok (db : DB) : Prop :=
  forall t, In t (tasks db) ->
            exists m, In m (machines db)
                      /\ machine_id m = required_machine_id t.

(** The response of a run that saved a schedule *)
Definition saved (r : Response) : Prop :=
  In ("status", Text [Lit "OPTIMAL"]) (payload r).

(** ** A second shop floor, with a task that was scheduled before *)

Module Floor.

Definition db : DB :=
  {| machines := [mkMachine 1 "Mill" 1; mkMachine 2 "Lathe" 3];
     tasks :=
       [mkTask 1 1 "cut" 2 1 "Pending" None None;
        mkTask 2 1 "drill" (3 # 2) 1 "Pending" None None;
        mkTask 3 2 "turn" 1 2 "Scheduled"
          (Some 1700000040000000) (Some 1700003640000000)];
     precedences := [(1, 2); (3, 1)] |}.

(** The text of an integer in the requests of the examples *)
Definition int_of_text (s : string) : option Z :=
  if String.eqb s "12" then Some 12
  else if String.eqb s "3" then Some 3 else None.


(** A task of 2000 hours, which is 120000 minutes *)
Definition oversized_db : DB :=
  {| machines := [mkMachine 1 "Mill" 1];
     tasks := [mkTask 1 1 "cast" 2000 1 "Pending" None None];
     precedences := [] |}.

Definition timed_request : body :=
  [("start_time", JStr "2024-01-01T10:00:05.123Z")].

(** A start time with a space where the format has its T *)
Definition untimed_request : body :=
  [("start_time", JStr "2024-01-01 10:00:05")].

(** Half a piece, logged for task 12 *)
Definition log_request : body :=
  [("task_id", JStr "12"); ("resource_used", JNum (7 # 2));
   ("product_count", JNum (1 # 2))].

End Floor.

(** * Lemmas *)

(** ** Dictionaries *)

Section Dict.
Context {V : Type}.
Implicit Types (d : dict V) (k : Z) (v : V).

Lemma dict_get_In d k v : dict_get d k = Some v -> In (k, v) d.
Proof.
  induction d as [|[k' v'] d IH]; simpl; [discriminate|].
  destruct (Z.eqb_spec k' k) as [->|Hne]; intros H.
  - injection H as ->. now left.
  - right. now apply IH.
Qed.

Lemma dict_mem_keys d k : dict_mem d k = true <-> In k (keys d).
Proof.
  unfold dict_mem, keys.
  induction d as [|[k' v'] d IH]; simpl.
  - split; [discriminate|tauto].
  - destruct (Z.eqb_spec k' k) as [->|Hne].
    + split; auto.
    + rewrite IH. split; [auto|]. intros [H|H]; [contradiction|exact H].
Qed.

Lemma dict_mem_false d k : dict_mem d k = false <-> ~ In k (keys d).
Proof.
  rewrite <- dict_mem_keys. destruct (dict_mem d k); split; intros H;
    try reflexivity; try discriminate; try (intros H'; discriminate).
  exfalso. now apply H.
Qed.

Lemma dict_get_unique d k v :
  NoDup (keys d) -> In (k, v) d -> dict_get d k = Some v.
Proof.
  unfold keys.
  induction d as [|[k' v'] d IH]; simpl; intros Hnd Hin; [contradiction|].
  inversion Hnd as [|? ? Hnotin Hnd']; subst.
  destruct Hin as [Heq|Hin].
  - injection Heq as -> ->. now rewrite Z.eqb_refl.
  - destruct (Z.eqb_spec k' k) as [->|Hne]; [|now apply IH].
    exfalso. apply Hnotin. change k with (fst (k, v)). now apply in_map.
Qed.

Lemma dict_set_fresh d k v :
  dict_mem d k = false -> dict_set d k v = (d ++ [(k, v)])%list.
Proof.
  unfold dict_mem.
  induction d as [|[k' v'] d IH]; simpl; [reflexivity|].
  destruct (k' =? k); [discriminate|].
  intros H. now rewrite IH.
Qed.

Lemma keys_dict_set d k v x :
  In x (keys (dict_set d k v)) <-> x = k \/ In x (keys d).
Proof.
  unfold keys.
  induction d as [|[k' v'] d IH]; simpl.
  - intuition.
  - destruct (Z.eqb_spec k' k) as [->|Hne]; simpl.
    + intuition.
    + rewrite IH. intuition.
Qed.

Lemma NoDup_dict_set d k v : NoDup (keys d) -> NoDup (keys (dict_set d k v)).
Proof.
  unfold keys.
  induction d as [|[k' v'] d IH]; simpl; intros Hnd.
  - constructor; [intros []|constructor].
  - inversion Hnd as [|? ? Hnotin Hnd']; subst.
    destruct (Z.eqb_spec k' k) as [->|Hne]; simpl.
    + now constructor.
    + constructor; [|now apply IH].
      intros Hin. apply (keys_dict_set d k v k') in Hin.
      destruct Hin as [->|Hin]; [now apply Hne|now apply Hnotin].
Qed.
End Dict.

Section DictOfRows.
Context {R V : Type} (key : R -> Z) (val : R -> V).

Lemma fold_dict_set_keys (rows : list R) (d : dict V) x :
  In x (keys (fold_left (fun d row => dict_set d (key row) (val row)) rows d))
  <-> In x (keys d) \/ exists r, In r rows /\ key r = x.
Proof.
  revert d. induction rows as [|r rows IH]; simpl; intros d.
  - split; [auto|]. intros [H|[r [[] _]]]. exact H.
  - rewrite IH, keys_dict_set. split.
    + intros [[->|H]|[r' [Hin Hk]]]; eauto.
    + intros [H|[r' [[->|Hin] Hk]]]; eauto.
Qed.

Lemma fold_dict_set_NoDup (rows : list R) (d : dict V) :
  NoDup (keys d) ->
  NoDup (keys (fold_left (fun d row => dict_set d (key row) (val row)) rows d)).
Proof.
  revert d. induction rows as [|r rows IH]; simpl; intros d Hnd; [exact Hnd|].
  apply IH. now apply NoDup_dict_set.
Qed.

Lemma dict_of_rows_keys (rows : list R) x :
  In x (keys (dict_of_rows key val rows)) <-> exists r, In r rows /\ key r = x.
Proof.
  unfold dict_of_rows. rewrite fold_dict_set_keys. simpl. tauto.
Qed.

Lemma dict_of_rows_NoDup (rows : list R) :
  NoDup (keys (dict_of_rows key val rows)).
Proof. apply fold_dict_set_NoDup. constructor. Qed.

Lemma fold_dict_set_fresh (rows : list R) (d : dict V) :
  NoDup (map key rows) ->
  (forall r, In r rows -> ~ In (key r) (keys d)) ->
  fold_left (fun d row => dict_set d (key row) (val row)) rows d
  = (d ++ map (fun r => (key r, val r)) rows)%list.
Proof.
  revert d. induction rows as [|r rows IH]; simpl; intros d Hnd Hfresh.
  - now rewrite app_nil_r.
  - inversion Hnd as [|? ? Hnotin Hnd']; subst.
    rewrite dict_set_fresh by (apply dict_mem_false; apply Hfresh; now left).
    rewrite IH; [now rewrite <- app_assoc|exact Hnd'|].
    intros r' Hin. unfold keys. rewrite map_app, in_app_iff. simpl.
    intros [H|[H|[]]].
    + apply (Hfresh r'); [now right|exact H].
    + apply Hnotin. rewrite H. now apply in_map.
Qed.

Lemma dict_of_rows_unique (rows : list R) :
  NoDup (map key rows) ->
  dict_of_rows key val rows = map (fun r => (key r, val r)) rows.
Proof.
  intros Hnd. unfold dict_of_rows.
  rewrite fold_dict_set_fresh; [reflexivity|exact Hnd|].
  intros r _ [].
Qed.
End DictOfRows.

(** ** [ORDER BY] *)

Lemma insert_by_perm {R} (key : R -> Z) x l :
  Permutation (insert_by key x l) (x :: l).
Proof.
  induction l as [|y l IH]; simpl; [reflexivity|].
  destruct (key x <? key y); [reflexivity|].
  rewrite IH. apply perm_swap.
Qed.

Lemma order_by_perm {R} (key : R -> Z) l : Permutation (order_by key l) l.
Proof.
  induction l as [|x l IH]; simpl; [reflexivity|].
  rewrite insert_by_perm. now constructor.
Qed.

Lemma order_by_In {R} (key : R -> Z) l x : In x (order_by key l) <-> In x l.
Proof.
  split; apply Permutation_in; [|symmetry]; apply order_by_perm.
Qed.

(** ** The model in closed form *)

Lemma keys_task_vars_of ts : keys (task_vars_of ts) = keys ts.
Proof.
  unfold keys, task_vars_of. rewrite map_map. reflexivity.
Qed.

Lemma dict_get_task_vars_of ts k :
  dict_get (task_vars_of ts) k
  = option_map
      (fun data =>
         {| tv_start := start_ k; tv_end := end_ k;
            tv_interval := interval_of k data;
            tv_machine_id := td_machine_id data;
            tv_duration_minutes := duration_minutes_of (td_duration data) |})
      (dict_get ts k).
Proof.
  induction ts as [|[k' data] ts IH]; simpl; [reflexivity|].
  destruct (Z.eqb_spec k' k) as [->|Hne]; [reflexivity|exact IH].
Qed.

Lemma dict_mem_task_vars_of ts k :
  dict_mem (task_vars_of ts) k = dict_mem ts k.
Proof.
  unfold dict_mem. rewrite dict_get_task_vars_of.
  now destruct (dict_get ts k).
Qed.

Lemma create_task_vars_fold ts : forall model tv,
  NoDup (keys ts) ->
  (forall k, In k (keys ts) -> ~ In k (keys tv)) ->
  fold_left create_task_vars ts (model, tv)
  = ({| int_vars := (int_vars model ++ task_int_vars ts)%list;
        constraints := (constraints model ++ interval_constraints ts)%list;
        objective := objective model |},
     (tv ++ task_vars_of ts)%list).
Proof.
  induction ts as [|[id data] ts IH]; intros model tv Hnd Hfresh; simpl.
  - rewrite !app_nil_r. now destruct model.
  - inversion Hnd as [|? ? Hnotin Hnd']; subst.
    rewrite dict_set_fresh
      by (apply dict_mem_false; apply Hfresh; now left).
    unfold keys in *. simpl in *.
    rewrite IH; [|exact Hnd'|].
    + simpl. rewrite <- !app_assoc. reflexivity.
    + intros k Hk. rewrite map_app, in_app_iff. simpl.
      intros [H|[H|[]]].
      * apply (Hfresh k); [now right|exact H].
      * subst. now apply Hnotin.
Qed.

Lemma precedence_fold ts ps : forall model,
  fold_left (add_precedence_constraint (task_vars_of ts)) ps (Ok model)
  = Ok {| int_vars := int_vars model;
          constraints :=
            (constraints model ++ precedence_constraints ts ps)%list;
          objective := objective model |}.
Proof.
  induction ps as [|[p s] ps IH]; intros model; simpl.
  - rewrite app_nil_r. now destruct model.
  - rewrite !dict_mem_task_vars_of.
    unfold dict_index. rewrite !dict_get_task_vars_of.
    unfold dict_mem.
    destruct (dict_get ts p) as [dp|]; simpl;
      [destruct (dict_get ts s) as [ds|]; simpl|].
    + rewrite IH. simpl. now rewrite <- app_assoc.
    + now rewrite IH.
    + now rewrite IH.
Qed.

(** Appending to the list of a key that occurs once *)
Lemma dict_append_unique {V} (d : dict (list V)) k v :
  NoDup (keys d) ->
  dict_append d k v
  = map (fun item =>
           (fst item, if fst item =? k then (snd item ++ [v])%list
                      else snd item)) d.
Proof.
  unfold keys.
  induction d as [|[k' l] d IH]; simpl; intros Hnd; [reflexivity|].
  inversion Hnd as [|? ? Hnotin Hnd']; subst.
  destruct (Z.eqb_spec k' k) as [->|Hne].
  - f_equal. clear IH Hnd Hnd'.
    induction d as [|[k'' l''] d IH']; simpl; [reflexivity|].
    simpl in Hnotin.
    destruct (Z.eqb_spec k'' k) as [->|Hne]; [exfalso; apply Hnotin; now left|].
    f_equal. apply IH'. intros H. apply Hnotin. now right.
  - f_equal. now apply IH.
Qed.

Lemma collect_interval_unique (d : dict (list IntervalVar)) t :
  NoDup (keys d) ->
  collect_interval d t
  = map (fun item =>
           (fst item,
            if fst item =? tv_machine_id t
            then (snd item ++ [tv_interval t])%list else snd item)) d.
Proof.
  intros Hnd. unfold collect_interval.
  destruct (dict_mem d (tv_machine_id t)) eqn:Hmem.
  - now apply dict_append_unique.
  - apply dict_mem_false in Hmem.
    clear Hnd. unfold keys in Hmem.
    induction d as [|[k l] d IH]; simpl; [reflexivity|].
    simpl in Hmem.
    destruct (Z.eqb_spec k (tv_machine_id t)) as [Heq|Hne];
      [exfalso; apply Hmem; now left|].
    f_equal. apply IH. intros H. apply Hmem. now right.
Qed.

Lemma collect_interval_fold ts : forall d,
  NoDup (keys d) ->
  fold_left collect_interval (values (task_vars_of ts)) d
  = map (fun item => (fst item, (snd item ++ intervals_on ts (fst item))%list)) d.
Proof.
  induction ts as [|[id data] ts IH]; intros d Hnd; simpl.
  - unfold intervals_on. simpl.
    rewrite <- (map_id d) at 1. apply map_ext.
    intros [k l]. simpl. now rewrite app_nil_r.
  - rewrite collect_interval_unique by exact Hnd. simpl.
    unfold values in IH. rewrite IH.
    + rewrite map_map. apply map_ext. intros [k l]. simpl.
      unfold intervals_on. simpl. rewrite (Z.eqb_sym k).
      destruct (td_machine_id data =? k); simpl;
        [now rewrite <- app_assoc|reflexivity].
    + unfold keys in *. rewrite map_map. simpl. exact Hnd.
Qed.

Lemma capacity_fold ms ts l : forall model,
  NoDup (keys ms) ->
  incl l ms ->
  fold_left (add_capacity_constraint ms)
    (map (fun item => (fst item, intervals_on ts (fst item))) l) (Ok model)
  = Ok {| int_vars := int_vars model;
          constraints :=
            (constraints model ++ capacity_constraints l ts)%list;
          objective := objective model |}.
Proof.
  induction l as [|[m cap] l IH]; intros model Hnd Hincl; simpl.
  - rewrite app_nil_r. now destruct model.
  - unfold dict_index.
    rewrite (dict_get_unique ms m cap Hnd) by (apply Hincl; now left).
    simpl.
    assert (Hincl' : incl l ms) by (intros x Hx; apply Hincl; now right).
    destruct (cap =? 1); rewrite IH by assumption; simpl.
    + now rewrite <- app_assoc.
    + reflexivity.
Qed.

Theorem build_model_closed_form ms ts ps :
  NoDup (keys ms) -> NoDup (keys ts) ->
  build_model ms ts ps = Ok (model_of ms ts ps, task_vars_of ts).
Proof.
  intros Hms Hts. unfold build_model.
  rewrite create_task_vars_fold by (auto; intros k _ []).
  simpl. rewrite precedence_fold. simpl.
  replace (map (fun m_id : Z => (m_id, @nil IntervalVar)) (keys ms))
    with (map (fun item : Z * Z => (fst item, @nil IntervalVar)) ms)
    by (unfold keys; now rewrite map_map).
  rewrite collect_interval_fold
    by (unfold keys; rewrite map_map; exact Hms).
  rewrite map_map. simpl.
  rewrite (capacity_fold ms ts ms) by (auto; apply incl_refl).
  simpl. unfold values. rewrite map_map.
  destruct ts as [|[id data] ts]; simpl; [reflexivity|].
  unfold model_of, AddMaxEquality, Minimize, Add, NewIntVar. simpl.
  unfold task_vars_of, keys. rewrite !map_map. simpl.
  rewrite <- !app_assoc. reflexivity.
Qed.

(** ** The problem assembler *)

Lemma unresolved_spec t :
  unresolved t = true
  <-> status t <> "Completed" /\ status t <> "Scheduled".
Proof.
  unfold unresolved. rewrite andb_true_iff, !negb_true_iff.
  now rewrite !String.eqb_neq.
Qed.

Lemma fetch_machines_NoDup conn :
  NoDup (keys (fst (fst (fetch_scheduling_data conn)))).
Proof. apply dict_of_rows_NoDup. Qed.

Lemma fetch_tasks_NoDup conn :
  NoDup (keys (snd (fst (fetch_scheduling_data conn)))).
Proof. apply dict_of_rows_NoDup. Qed.

Lemma fetch_tasks_mem conn id :
  dict_mem (snd (fst (fetch_scheduling_data conn))) id = true
  <-> exists t, In t (tasks (pending conn)) /\ task_id t = id
                /\ unresolved t = true.
Proof.
  rewrite dict_mem_keys. simpl. rewrite dict_of_rows_keys.
  split; intros [t [Hin Hid]].
  - apply order_by_In, filter_In in Hin. exists t. tauto.
  - exists t. split; [|tauto]. apply order_by_In, filter_In. tauto.
Qed.

Lemma fetch_machines_mem conn id :
  dict_mem (fst (fst (fetch_scheduling_data conn))) id = true
  <-> exists m, In m (machines (pending conn)) /\ machine_id m = id.
Proof.
  rewrite dict_mem_keys. simpl. rewrite dict_of_rows_keys.
  split; intros [m [Hin Hid]]; exists m; split; auto.
  - now apply order_by_In in Hin.
  - now apply order_by_In.
Qed.

(** With [task_id] a key of the table, the assembled entry of a task
    holds that task's own columns. *)
Lemma fetch_tasks_get conn t :
  NoDup (map task_id (tasks (pending conn))) ->
  In t (tasks (pending conn)) -> unresolved t = true ->
  dict_get (snd (fst (fetch_scheduling_data conn))) (task_id t)
  = Some {| td_job_id := job_id t; td_duration := duration_hours t;
            td_machine_id := required_machine_id t |}.
Proof.
  intros Hnd Hin Hun. simpl.
  assert (Hnd' : NoDup (map task_id
                          (order_by task_id
                             (filter unresolved (tasks (pending conn)))))).
  { eapply Permutation_NoDup.
    - apply Permutation_map. symmetry. apply order_by_perm.
    - clear Hin. induction (tasks (pending conn)) as [|x l IH];
        simpl; [constructor|].
      inversion Hnd as [|? ? Hnotin Hnd']; subst.
      destruct (unresolved x); simpl; [|now apply IH].
      constructor; [|now apply IH].
      intros H. apply Hnotin. apply in_map_iff in H.
      destruct H as [y [Hy Hiny]]. apply filter_In in Hiny.
      rewrite <- Hy. apply in_map. tauto. }
  rewrite dict_of_rows_unique by exact Hnd'.
  apply dict_get_unique.
  - unfold keys. rewrite map_map. exact Hnd'.
  - apply in_map_iff. exists t. split; [reflexivity|].
    apply order_by_In, filter_In. tauto.
Qed.

(** ** The solution materializer *)

Lemma save_schedule_ok env solver anchor items : forall i conn,
  NoDup (keys items) ->
  (forall k tv, In (k, tv) items -> tv_start tv = start_ k /\ tv_end tv = end_ k) ->
  match failing_update env with
  | Some k => (k < i \/ i + List.length items <= k)%nat
  | None => True
  end ->
  save_schedule env solver anchor items i conn
  = Ok (with_pending conn
          (materialized solver anchor (dict_mem items) (pending conn))).
Proof.
  induction items as [|[id tv] items IH]; intros i conn Hnd Hvars Hfault; simpl.
  - unfold materialized, with_pending, set_tasks. simpl.
    rewrite map_id. now destruct conn as [c [? ? ?]].
  - unfold keys in Hnd. simpl in Hnd.
    inversion Hnd as [|? ? Hnotin Hnd']; subst.
    assert (Hnofail : match failing_update env with
                      | Some k => Nat.eqb k i
                      | None => false
                      end = false).
    { destruct (failing_update env) as [k|]; [|reflexivity].
      apply Nat.eqb_neq. simpl in Hfault. lia. }
    rewrite Hnofail.
    rewrite IH; [|exact Hnd'|intros; apply Hvars; now right|].
    + f_equal. unfold with_pending, materialized, sql_update_schedule,
        set_tasks. simpl. f_equal. f_equal.
      rewrite map_map. apply map_ext. intros row.
      destruct (Hvars id tv (or_introl eq_refl)) as [Hs He].
      unfold dict_mem at 2. simpl.
      destruct (Z.eqb_spec (task_id row) id) as [Heq|Hne]; simpl.
      * rewrite (Z.eqb_sym id), (proj2 (Z.eqb_eq _ _) Heq).
        assert (Hmem : dict_mem items (task_id row) = false).
        { apply dict_mem_false. now rewrite Heq. }
        rewrite Hmem. unfold scheduled, timedelta_minutes.
        now rewrite Hs, He, Heq.
      * rewrite (Z.eqb_sym id), (proj2 (Z.eqb_neq _ _) Hne).
        reflexivity.
    + destruct (failing_update env) as [k|]; [|exact I].
      simpl in Hfault. lia.
Qed.

Lemma save_schedule_fails env solver anchor items : forall i conn k,
  failing_update env = Some k ->
  (i <= k < i + List.length items)%nat ->
  save_schedule env solver anchor items i conn
  = Raise (DatabaseError "UPDATE tasks").
Proof.
  induction items as [|[id tv] items IH]; intros i conn k Hk Hrange;
    simpl in *; [lia|].
  rewrite Hk. destruct (Nat.eqb_spec k i) as [->|Hne]; [reflexivity|].
  apply (IH _ _ k Hk). lia.
Qed.

Lemma task_vars_of_vars ts k tv :
  In (k, tv) (task_vars_of ts) -> tv_start tv = start_ k /\ tv_end tv = end_ k.
Proof.
  unfold task_vars_of. rewrite in_map_iff.
  intros [[k' data] [Heq _]]. simpl in Heq. injection Heq as <- <-.
  now split.
Qed.

(** ** [run_optimization], case by case *)

Lemma run_optimization_eq env db request :
  run_optimization env db request
  = if db_up env then
      match parse_start_time env (json_or_empty request) with
      | Raise e =>
          (error [Lit "An internal error occurred: "; ValE e] 500, db)
      | Ok None =>
          (message
             [Lit "Invalid start time format. Please select a valid time."]
             400, db)
      | Ok (Some start) =>
          let '(machines, tasks, precedences) :=
            fetch_scheduling_data (connect db) in
          match tasks with
          | [] =>
              (message
                 [Lit "Optimization successful. No pending tasks found to schedule."]
                 200, db)
          | _ :: _ =>
              let solver := Solve env (model_of machines tasks precedences) in
              if usable (solver_status solver) then
                if no_failing_update env (List.length tasks) then
                  (saved_response solver,
                   materialized solver (replace_second0 start)
                     (dict_mem tasks) db)
                else
                  (error [Lit "An internal error occurred: ";
                          ValE (DatabaseError "UPDATE tasks")] 500, db)
              else (infeasible_response, db)
          end
      end
    else (error [Lit "Could not connect to database"] 500, db).
Proof.
  unfold run_optimization, get_db_connection.
  destruct (db_up env); [|reflexivity].
  unfold run_optimization_try.
  pose proof (fetch_machines_NoDup (connect db)) as Hms.
  pose proof (fetch_tasks_NoDup (connect db)) as Hts.
  destruct (fetch_scheduling_data (connect db)) as [[ms ts] ps].
  simpl in Hms, Hts.
  destruct (parse_start_time env (json_or_empty request)) as [[start|]|e];
    simpl; try reflexivity.
  destruct ts as [|item ts']; [reflexivity|].
  set (ts := item :: ts') in *.
  rewrite build_model_closed_form by assumption.
  cbn [bind].
  set (solver := Solve env (model_of ms ts ps)).
  destruct (usable (solver_status solver)); [|reflexivity].
  destruct (no_failing_update env (List.length ts)) eqn:Hfault.
  - rewrite save_schedule_ok.
    + cbn [bind]. unfold close, commit, with_pending. simpl.
      f_equal. unfold materialized. f_equal. apply map_ext.
      intros row.
      change (dict_mem _ (task_id row))
        with (dict_mem (task_vars_of ts) (task_id row)) at 1.
      now rewrite dict_mem_task_vars_of.
    + now rewrite keys_task_vars_of.
    + apply task_vars_of_vars.
    + unfold no_failing_update in Hfault.
      destruct (failing_update env) as [k|]; [|exact I].
      apply Nat.leb_le in Hfault. right.
      unfold task_vars_of. rewrite length_map. simpl. exact Hfault.
  - unfold no_failing_update in Hfault.
    destruct (failing_update env) as [k|] eqn:Hk; [|discriminate].
    apply Nat.leb_gt in Hfault.
    rewrite (save_schedule_fails env solver _ _ 0%nat (connect db) k Hk).
    + reflexivity.
    + unfold task_vars_of. rewrite length_map. lia.
Qed.

(** ** Constraints of the model *)

Lemma precedence_constraints_In ts ps c :
  In c (precedence_constraints ts ps)
  <-> exists p s, In (p, s) ps /\ dict_mem ts p = true
                  /\ dict_mem ts s = true
                  /\ c = GreaterOrEqual (start_ s) (end_ p).
Proof.
  unfold precedence_constraints. rewrite in_flat_map. split.
  - intros [[p s] [Hin Hc]]. simpl in Hc.
    destruct (dict_mem ts p) eqn:Hp; [|destruct Hc].
    destruct (dict_mem ts s) eqn:Hs; [|destruct Hc].
    destruct Hc as [<-|[]]. exists p, s. auto.
  - intros [p [s [Hin [Hp [Hs ->]]]]]. exists (p, s). split; [exact Hin|].
    simpl. rewrite Hp, Hs. now left.
Qed.

Lemma capacity_constraints_In ms ts c :
  In c (capacity_constraints ms ts)
  <-> exists m, In (m, 1) ms /\ c = NoOverlap (intervals_on ts m).
Proof.
  unfold capacity_constraints. rewrite in_flat_map. split.
  - intros [[m cap] [Hin Hc]]. simpl in Hc.
    destruct (Z.eqb_spec cap 1) as [->|Hne]; [|destruct Hc].
    destruct Hc as [<-|[]]. eauto.
  - intros [m [Hin ->]]. exists (m, 1). split; [exact Hin|]. now left.
Qed.

Lemma model_of_constraints_In ms ts ps c :
  In c (constraints (model_of ms ts ps))
  <-> In c (interval_constraints ts)
      \/ In c (precedence_constraints ts ps)
      \/ In c (capacity_constraints ms ts)
      \/ (ts <> [] /\ c = MaxEquality max_end_time (map end_ (keys ts))).
Proof.
  destruct ts as [|item ts]; simpl.
  - rewrite in_app_iff. split; [tauto|].
    intros [[]|[H|[H|[H _]]]]; auto. now destruct H.
  - rewrite !in_app_iff. simpl. split.
    + intros [H|[H|[H|[H|[H|[]]]]]]; auto.
      right. right. right. split; [discriminate|now symmetry].
    + intros [[H|H]|[H|[H|[_ H]]]]; auto.
      right. right. right. right. left. now symmetry.
Qed.

Lemma model_of_ge_In ms ts ps a b :
  In (GreaterOrEqual a b) (constraints (model_of ms ts ps))
  <-> exists p s, In (p, s) ps /\ dict_mem ts p = true
                  /\ dict_mem ts s = true /\ a = start_ s /\ b = end_ p.
Proof.
  rewrite model_of_constraints_In, precedence_constraints_In. split.
  - intros [H|[H|[H|[_ H]]]]; try discriminate.
    + unfold interval_constraints in H. apply in_map_iff in H.
      destruct H as [x [Hx _]]. discriminate.
    + destruct H as [p [s [? [? [? Heq]]]]]. injection Heq as -> ->.
      exists p, s. auto.
    + apply capacity_constraints_In in H. destruct H as [m [_ H]].
      discriminate.
  - intros [p [s [? [? [? [-> ->]]]]]]. right. left. exists p, s. auto.
Qed.

Lemma satisfies_holds model asg c :
  satisfies model asg = true -> In c (constraints model) ->
  holds asg c = true.
Proof.
  unfold satisfies. rewrite andb_true_iff. intros [_ H] Hin.
  rewrite forallb_forall in H. now apply H.
Qed.

Lemma pairwise_In {A} (R : A -> A -> bool) l x y :
  pairwise R l = true -> In x l -> In y l -> x <> y ->
  R x y = true \/ R y x = true.
Proof.
  induction l as [|z l IH]; simpl; [tauto|].
  rewrite andb_true_iff, forallb_forall. intros [Hz Hl] Hx Hy Hne.
  destruct Hx as [->|Hx], Hy as [->|Hy].
  - now contradiction Hne.
  - left. now apply Hz.
  - right. now apply Hz.
  - now apply IH.
Qed.

(** C7: the optimization run assembles exactly the tasks whose status is
    neither Completed nor Scheduled, with all machines and all precedence
    edges; building the model raises no error, and a precedence constraint
    is emitted exactly for the edges whose two endpoints are both in the
    selected task set. *)
Theorem assembler_selects_backlog (conn : Conn) ms ts ps :
  fetch_scheduling_data conn = (ms, ts, ps) ->
  (forall id,
      dict_mem ts id = true
      <-> exists t, In t (tasks (pending conn)) /\ task_id t = id
                    /\ status t <> "Completed" /\ status t <> "Scheduled")
  /\ (forall id,
         dict_mem ms id = true
         <-> exists m, In m (machines (pending conn)) /\ machine_id m = id)
  /\ ps = precedences (pending conn)
  /\ exists model task_vars,
       build_model ms ts ps = Ok (model, task_vars)
       /\ forall a b,
            In (GreaterOrEqual a b) (constraints model)
            <-> exists p s, In (p, s) ps /\ dict_mem ts p = true
                            /\ dict_mem ts s = true
                            /\ a = start_ s /\ b = end_ p.
Proof.
  intros Hfetch.
  pose proof (fetch_tasks_mem conn) as Hts.
  pose proof (fetch_machines_mem conn) as Hms.
  pose proof (fetch_machines_NoDup conn) as Hnms.
  pose proof (fetch_tasks_NoDup conn) as Hnts.
  rewrite Hfetch in Hts, Hms, Hnms, Hnts. simpl in Hts, Hms, Hnms, Hnts.
  split; [|split; [|split]].
  - intros id. rewrite Hts. split; intros [t [? [? Hun]]]; exists t.
    + apply unresolved_spec in Hun. tauto.
    + rewrite unresolved_spec. tauto.
  - exact Hms.
  - unfold fetch_scheduling_data in Hfetch. now injection Hfetch.
  - exists (model_of ms ts ps), (task_vars_of ts). split.
    + now apply build_model_closed_form.
    + intros a b. apply model_of_ge_In.
Qed.

(** C1: for every precedence edge whose two endpoints are in the assembled
    task set, the model holds the constraint start(succ) >= end(pred), every
    solution of the model satisfies it, and after a run that saved a schedule
    the stored start of the successor is not before the stored end of the
    predecessor. *)
Theorem precedence_is_enforced (env : Env) (db : DB) (request : option body)
  ms ts ps p s :
  fetch_scheduling_data (connect db) = (ms, ts, ps) ->
  In (p, s) ps -> dict_mem ts p = true -> dict_mem ts s = true ->
  exists model task_vars,
    build_model ms ts ps = Ok (model, task_vars)
    /\ In (GreaterOrEqual (start_ s) (end_ p)) (constraints model)
    /\ (forall asg, satisfies model asg = true ->
                    asg (start_ s) >= asg (end_ p))
    /\ (solver_contract env db = true ->
        code (fst (run_optimization env db request)) = 200 ->
        forall rp rs,
          In rp (tasks (snd (run_optimization env db request))) ->
          In rs (tasks (snd (run_optimization env db request))) ->
          task_id rp = p -> task_id rs = s ->
          exists e st, end_time rp = Some e /\ start_time rs = Some st
                       /\ st >= e).
Proof.
  intros Hfetch Hin Hp Hs.
  pose proof (fetch_machines_NoDup (connect db)) as Hnms.
  pose proof (fetch_tasks_NoDup (connect db)) as Hnts.
  rewrite Hfetch in Hnms, Hnts. simpl in Hnms, Hnts.
  assert (Hc : In (GreaterOrEqual (start_ s) (end_ p))
                  (constraints (model_of ms ts ps))).
  { apply model_of_ge_In. exists p, s. auto. }
  assert (Hsol : forall asg, satisfies (model_of ms ts ps) asg = true ->
                             asg (start_ s) >= asg (end_ p)).
  { intros asg Hsat. pose proof (satisfies_holds _ _ _ Hsat Hc) as H.
    simpl in H. apply Z.leb_le in H. lia. }
  exists (model_of ms ts ps), (task_vars_of ts).
  split; [now apply build_model_closed_form|].
  split; [exact Hc|]. split; [exact Hsol|].
  unfold solver_contract. rewrite Hfetch.
  rewrite build_model_closed_form by assumption.
  rewrite run_optimization_eq, Hfetch.
  destruct (db_up env); [|discriminate].
  destruct (parse_start_time env (json_or_empty request)) as [[start|]|e];
    try discriminate.
  destruct ts as [|item ts']; [discriminate|].
  set (tsk := item :: ts') in *.
  cbv zeta.
  destruct (usable (solver_status (Solve env (model_of ms tsk ps))));
    [|discriminate].
  simpl implb. intros Hsat.
  destruct (no_failing_update env (Datatypes.length tsk)); [|discriminate].
  intros _ rp rs Hrp Hrs Hidp Hids. simpl in Hrp, Hrs.
  apply in_map_iff in Hrp. destruct Hrp as [rp0 [Hrp _]].
  apply in_map_iff in Hrs. destruct Hrs as [rs0 [Hrs _]].
  assert (Hp0 : task_id rp0 = p).
  { rewrite <- Hidp, <- Hrp.
    destruct (dict_mem tsk (task_id rp0)); reflexivity. }
  assert (Hs0 : task_id rs0 = s).
  { rewrite <- Hids, <- Hrs.
    destruct (dict_mem tsk (task_id rs0)); reflexivity. }
  rewrite Hp0, Hp in Hrp. rewrite Hs0, Hs in Hrs.
  subst rp rs. simpl. rewrite Hp0, Hs0.
  eexists. eexists. split; [reflexivity|]. split; [reflexivity|].
  specialize (Hsol _ Hsat). unfold MINUTE_US. lia.
Qed.

Lemma filter_no_overlap_model ms ts ps :
  filter is_no_overlap (constraints (model_of ms ts ps))
  = map (fun item => NoOverlap (intervals_on ts (fst item)))
        (filter (fun item => snd item =? 1) ms).
Proof.
  assert (Hi : forall l, filter is_no_overlap (interval_constraints l) = []).
  { induction l as [|x l IH]; simpl; auto. }
  assert (Hp : filter is_no_overlap (precedence_constraints ts ps) = []).
  { unfold precedence_constraints.
    induction ps as [|[p s] ps IH]; simpl; [reflexivity|].
    destruct (dict_mem ts p && dict_mem ts s); simpl; exact IH. }
  assert (Hc : filter is_no_overlap (capacity_constraints ms ts)
               = map (fun item => NoOverlap (intervals_on ts (fst item)))
                     (filter (fun item => snd item =? 1) ms)).
  { unfold capacity_constraints.
    induction ms as [|[m cap] ms IH]; simpl; [reflexivity|].
    destruct (cap =? 1); simpl; now rewrite IH. }
  destruct ts as [|item ts]; unfold model_of; cbn [constraints].
  - rewrite filter_app, Hp, Hc. reflexivity.
  - rewrite !filter_app, Hi, Hp, Hc. simpl. now rewrite app_nil_r.
Qed.

(** C2: in the model built by /api/optimize the exclusivity constraints
    are, in order, one no-overlap constraint per machine of capacity 1, over
    all the intervals of the tasks that require that machine, and nothing for
    a machine of any other capacity; hence in every solution two distinct
    tasks that share a machine of capacity 1 do not overlap. *)
Theorem exclusivity_on_capacity_one (conn : Conn) ms ts ps :
  fetch_scheduling_data conn = (ms, ts, ps) ->
  exists model task_vars,
    build_model ms ts ps = Ok (model, task_vars)
    /\ filter is_no_overlap (constraints model)
       = map (fun item => NoOverlap (intervals_on ts (fst item)))
             (filter (fun item => snd item =? 1) ms)
    /\ (forall m, dict_get ms m = Some 1 ->
                  In (NoOverlap (intervals_on ts m)) (constraints model))
    /\ (forall l, In (NoOverlap l) (constraints model) ->
                  exists m, dict_get ms m = Some 1 /\ l = intervals_on ts m)
    /\ (forall asg m i j di dj,
           satisfies model asg = true ->
           dict_get ms m = Some 1 ->
           dict_get ts i = Some di -> td_machine_id di = m ->
           dict_get ts j = Some dj -> td_machine_id dj = m ->
           i <> j ->
           asg (end_ i) <= asg (start_ j) \/ asg (end_ j) <= asg (start_ i)).
Proof.
  intros Hfetch.
  pose proof (fetch_machines_NoDup conn) as Hnms.
  pose proof (fetch_tasks_NoDup conn) as Hnts.
  rewrite Hfetch in Hnms, Hnts. simpl in Hnms, Hnts.
  assert (Hone : forall m, dict_get ms m = Some 1 ->
                 In (NoOverlap (intervals_on ts m))
                    (constraints (model_of ms ts ps))).
  { intros m Hm. apply model_of_constraints_In. right. right. left.
    apply capacity_constraints_In. exists m. split; [|reflexivity].
    now apply dict_get_In. }
  exists (model_of ms ts ps), (task_vars_of ts).
  split; [now apply build_model_closed_form|].
  split; [apply filter_no_overlap_model|].
  split; [exact Hone|]. split.
  - intros l Hl. apply model_of_constraints_In in Hl.
    destruct Hl as [H|[H|[H|[_ H]]]]; try discriminate.
    + unfold interval_constraints in H. apply in_map_iff in H.
      destruct H as [x [Hx _]]. discriminate.
    + apply precedence_constraints_In in H.
      destruct H as [p [s [_ [_ [_ H]]]]]. discriminate.
    + apply capacity_constraints_In in H. destruct H as [m [Hm Heq]].
      injection Heq as ->. exists m. split; [|reflexivity].
      now apply dict_get_unique.
  - intros asg m i j di dj Hsat Hm Hi Hmi Hj Hmj Hne.
    pose proof (satisfies_holds _ _ _ Hsat (Hone m Hm)) as Hno.
    simpl in Hno.
    assert (Hin : forall k d, dict_get ts k = Some d -> td_machine_id d = m ->
                              In (interval_of k d) (intervals_on ts m)).
    { intros k d Hk Hd. unfold intervals_on. apply in_map_iff.
      exists (k, d). split; [reflexivity|]. apply filter_In.
      split; [now apply dict_get_In|]. simpl. now apply Z.eqb_eq. }
    destruct (pairwise_In _ _ (interval_of i di) (interval_of j dj) Hno)
      as [H|H]; auto.
    + intros Heq. apply Hne. now injection Heq.
    + unfold disjoint in H. simpl in H. apply orb_true_iff in H.
      rewrite !Z.leb_le in H. exact H.
    + unfold disjoint in H. simpl in H. apply orb_true_iff in H.
      rewrite !Z.leb_le in H. tauto.
Qed.

Lemma scheduled_fields solver anchor row :
  task_id (scheduled solver anchor row) = task_id row
  /\ status (scheduled solver anchor row) = "Scheduled"
  /\ start_time (scheduled solver anchor row)
     = Some (anchor + Value solver (start_ (task_id row)) * MINUTE_US)
  /\ end_time (scheduled solver anchor row)
     = Some (anchor + Value solver (end_ (task_id row)) * MINUTE_US).
Proof. repeat split. Qed.

Lemma materialized_row solver anchor assigned db row' :
  In row' (tasks (materialized solver anchor assigned db)) ->
  exists row, In row (tasks db) /\ task_id row' = task_id row
              /\ row' = (if assigned (task_id row)
                         then scheduled solver anchor row else row).
Proof.
  simpl. rewrite in_map_iff. intros [row [Heq Hin]]. exists row.
  split; [exact Hin|]. split; [|now symmetry].
  rewrite <- Heq. now destruct (assigned (task_id row)).
Qed.


(** C9: when the backlog is not empty and the solver reports Optimal or
    Feasible, and the batch is accepted, the handler saves the schedule and
    its response carries the status text OPTIMAL with code 200, whichever of
    the two the solver reported; and whenever a run changes the store at all,
    its response carries the status text OPTIMAL. *)
Theorem saved_schedule_reports_optimal (env : Env) (db : DB)
  (request : option body) start ms ts ps :
  db_up env = true ->
  parse_start_time env (json_or_empty request) = Ok (Some start) ->
  fetch_scheduling_data (connect db) = (ms, ts, ps) ->
  ts <> [] ->
  no_failing_update env (List.length ts) = true ->
  exists model task_vars,
    build_model ms ts ps = Ok (model, task_vars)
    /\ let solver := Solve env model in
       let r := run_optimization env db request in
       (solver_status solver = OPTIMAL \/ solver_status solver = FEASIBLE ->
        fst r = saved_response solver
        /\ code (fst r) = 200
        /\ In ("status", Text [Lit "OPTIMAL"]) (payload (fst r))
        /\ snd r = materialized solver (replace_second0 start)
                     (dict_mem ts) db)
       /\ (snd r <> db ->
           In ("status", Text [Lit "OPTIMAL"]) (payload (fst r))).
Proof.
  intros Hup Hparse Hfetch Hne Hfault.
  pose proof (fetch_machines_NoDup (connect db)) as Hnms.
  pose proof (fetch_tasks_NoDup (connect db)) as Hnts.
  rewrite Hfetch in Hnms, Hnts. simpl in Hnms, Hnts.
  exists (model_of ms ts ps), (task_vars_of ts).
  split; [now apply build_model_closed_form|].
  cbv zeta. rewrite run_optimization_eq, Hup, Hparse, Hfetch.
  destruct ts as [|item ts']; [now contradiction Hne|].
  set (tsk := item :: ts') in *.
  cbv zeta. rewrite Hfault.
  destruct (solver_status (Solve env (model_of ms tsk ps))) eqn:Hst;
    simpl; split;
    try (intros [H|H]; discriminate H);
    try (intros H; now contradiction H);
    intros _; repeat split; auto.
Qed.

(** C10: a task whose status is Canceled or In Progress is in the
    assembled task set and has its variables and interval in the model;
    when the run saves a schedule, every row of that task is left with
    status Scheduled and the start and end computed from the solver's
    values. *)
Theorem canceled_and_in_progress_are_rescheduled (env : Env) (db : DB)
  (request : option body) start ms ts ps t :
  db_up env = true ->
  parse_start_time env (json_or_empty request) = Ok (Some start) ->
  fetch_scheduling_data (connect db) = (ms, ts, ps) ->
  In t (tasks db) ->
  status t = "Canceled" \/ status t = "In Progress" ->
  dict_mem ts (task_id t) = true
  /\ exists model task_vars,
       build_model ms ts ps = Ok (model, task_vars)
       /\ dict_mem task_vars (task_id t) = true
       /\ In (start_ (task_id t), (0, horizon)) (int_vars model)
       /\ In (end_ (task_id t), (0, horizon)) (int_vars model)
       /\ let solver := Solve env model in
          let anchor := replace_second0 start in
          let r := run_optimization env db request in
          (usable (solver_status solver) = true ->
           no_failing_update env (List.length ts) = true ->
           code (fst r) = 200
           /\ In (scheduled solver anchor t) (tasks (snd r))
           /\ forall row, In row (tasks (snd r)) ->
                          task_id row = task_id t ->
                          status row = "Scheduled"
                          /\ start_time row
                             = Some (anchor
                                     + Value solver (start_ (task_id t))
                                       * MINUTE_US)
                          /\ end_time row
                             = Some (anchor
                                     + Value solver (end_ (task_id t))
                                       * MINUTE_US)).
Proof.
  intros Hup Hparse Hfetch Hin Hst.
  pose proof (fetch_machines_NoDup (connect db)) as Hnms.
  pose proof (fetch_tasks_NoDup (connect db)) as Hnts.
  pose proof (fetch_tasks_mem (connect db) (task_id t)) as Hmem.
  rewrite Hfetch in Hnms, Hnts, Hmem. simpl in Hnms, Hnts, Hmem.
  assert (Ht : dict_mem ts (task_id t) = true).
  { apply Hmem. exists t. split; [exact Hin|]. split; [reflexivity|].
    apply unresolved_spec. destruct Hst as [-> | ->]; split; discriminate. }
  split; [exact Ht|].
  exists (model_of ms ts ps), (task_vars_of ts).
  split; [now apply build_model_closed_form|].
  split; [now rewrite dict_mem_task_vars_of|].
  assert (Hkey : exists data, In (task_id t, data) ts).
  { unfold dict_mem in Ht. destruct (dict_get ts (task_id t)) as [d|] eqn:Hd;
      [|discriminate]. exists d. now apply dict_get_In. }
  destruct Hkey as [data Hdata].
  destruct ts as [|item ts']; [destruct Hdata|].
  set (tsk := item :: ts') in *.
  assert (Hv : forall v, In v [(start_ (task_id t), (0, horizon));
                               (end_ (task_id t), (0, horizon))] ->
                         In v (int_vars (model_of ms tsk ps))).
  { intros v Hv. unfold model_of, tsk. cbn [int_vars].
    apply in_or_app. left. unfold task_int_vars. apply in_flat_map.
    exists (task_id t, data). split; [exact Hdata|exact Hv]. }
  split; [apply Hv; now left|]. split; [apply Hv; right; now left|].
  cbv zeta. rewrite run_optimization_eq, Hup, Hparse, Hfetch.
  fold tsk. cbv zeta.
  intros Hus Hfault. rewrite Hus, Hfault.
  split; [reflexivity|]. split.
  - cbn [snd]. unfold materialized. cbn [tasks set_tasks].
    apply in_map_iff. exists t. now rewrite Ht.
  - intros row Hrow Hid. cbn [snd] in Hrow.
    apply materialized_row in Hrow. destruct Hrow as [row0 [_ [Hid0 Heq]]].
    rewrite Hid in Hid0. rewrite <- Hid0, Ht in Heq.
    rewrite Heq. simpl. rewrite <- Hid0. auto.
Qed.

(** ** POST /precedences *)

Lemma add_precedence_eq env db data :
  add_precedence env db (Some data)
  = if negb (truthy (get data "predecessor_id"))
       || negb (truthy (get data "successor_id"))
    then
      (message
         [Lit "Missing required fields (predecessor_id, successor_id)"] 400,
       db)
    else
      (message
         [Lit "An internal error occurred: ";
          ValE (if db_up env
                then TypeError "invalid keyword argument for this function"
                else AttributeError "cursor")] 500,
       db).
Proof.
  unfold add_precedence, add_precedence_try, get_db_connection. simpl.
  destruct (negb (truthy (get data "predecessor_id"))
            || negb (truthy (get data "successor_id"))); [reflexivity|].
  now destruct (db_up env).
Qed.

(** C3 (the code departs from it): whatever the request, [add_precedence]
    leaves the precedences store as it was and never answers 201; when
    both fields are present and truthy it answers 500, because the statement
    is executed with a keyword argument the cursor does not have; when a
    field is missing it answers 400. *)
Theorem add_precedence_never_inserts (env : Env) (db : DB)
  (request : option body) :
  snd (add_precedence env db request) = db
  /\ code (fst (add_precedence env db request)) <> 201
  /\ (forall data,
         request = Some data ->
         truthy (get data "predecessor_id") = true ->
         truthy (get data "successor_id") = true ->
         code (fst (add_precedence env db request)) = 500)
  /\ (forall data,
         request = Some data ->
         get data "predecessor_id" = JNull
         \/ get data "successor_id" = JNull ->
         code (fst (add_precedence env db request)) = 400).
Proof.
  destruct request as [data|].
  - rewrite add_precedence_eq.
    split; [|split; [|split]].
    + now destruct (negb _ || negb _).
    + now destruct (negb _ || negb _).
    + intros d Hd Hp Hs. injection Hd as <-. now rewrite Hp, Hs.
    + intros d Hd H. injection Hd as <-.
      destruct H as [H|H]; rewrite H; simpl; [reflexivity|].
      now rewrite orb_true_r.
  - simpl. repeat split; try discriminate.
Qed.

(** The request of the failing case, evaluated. *)
Lemma add_precedence_fails_on_valid_request :
  add_precedence Example.env Example.db
    (Some [("predecessor_id", JNum 1); ("successor_id", JNum 4)])
  = (message
       [Lit "An internal error occurred: ";
        ValE (TypeError "invalid keyword argument for this function")] 500,
     Example.db).
Proof. reflexivity. Qed.

(** ** Truncation to whole minutes *)

Lemma py_int_close (x : Q) : (Qabs (inject_Z (py_int x) - x) < 1)%Q.
Proof.
  apply Qabs_Qlt_condition.
  destruct x as [n d]. unfold py_int, Qlt, Qminus, Qplus, Qopp, inject_Z.
  simpl.
  pose proof (Z.quot_rem' n (Zpos d)) as Hqr.
  pose proof (Pos2Z.is_pos d) as Hd.
  assert (Hrem : Z.abs (Z.rem n (Zpos d)) < Zpos d).
  { pose proof (Z.rem_bound_abs n (Zpos d)). lia. }
  rewrite ?Pos2Z.inj_mul. nia.
Qed.

(** *** Rounding to binary64 *)

Lemma round_half_even_close (y : Q) :
  (Qabs (inject_Z (round_half_even y) - y) <= 1 # 2)%Q.
Proof.
  apply Qabs_Qle_condition.
  destruct y as [n d]. unfold round_half_even. cbn [Qnum Qden].
  pose proof (Z.div_mod n (Zpos d) ltac:(lia)) as Hdm.
  pose proof (Z.mod_pos_bound n (Zpos d) ltac:(lia)) as Hb.
  set (f := n / Zpos d) in *. set (r := n mod Zpos d) in *.
  assert (Hcase : forall z,
             (z = f /\ 2 * r <= Zpos d) \/ (z = f + 1 /\ Zpos d <= 2 * r) ->
             (- (1 # 2) <= inject_Z z - (n # d))%Q
             /\ (inject_Z z - (n # d) <= 1 # 2)%Q).
  { intros z Hz. unfold Qle, Qminus, Qplus, Qopp, inject_Z. cbn [Qnum Qden].
    destruct Hz as [[-> H]|[-> H]]; split; nia. }
  apply Hcase.
  destruct (2 * r <? Zpos d) eqn:H1; [left; split; [reflexivity|lia]|].
  destruct (Zpos d <? 2 * r) eqn:H2; [right; split; [reflexivity|lia]|].
  destruct (Z.even f); [left|right]; split; try reflexivity; lia.
Qed.

Lemma pow2_pos e : (0 < 2 ^ e)%Q.
Proof. apply Qpower_0_lt. reflexivity. Qed.

Lemma ilog2_le q : (0 < q)%Q -> (2 ^ ilog2 q <= q)%Q.
Proof.
  intros Hq. unfold ilog2.
  set (c := Z.log2 (Qnum q) - Z.log2 (Z.pos (Qden q))).
  destruct (Qle_bool (2 ^ c) q) eqn:H; [apply Qle_bool_iff; exact H|].
  destruct q as [n d]. cbn [Qnum Qden] in *.
  assert (Hn : 0 < n) by (unfold Qlt in Hq; cbn in Hq; lia).
  pose proof (Z.log2_spec n Hn) as [Hn1 _].
  pose proof (Z.log2_spec (Zpos d) ltac:(lia)) as [_ Hd2].
  pose proof (Z.log2_nonneg n) as Ha.
  pose proof (Z.log2_nonneg (Zpos d)) as Hb.
  set (a := Z.log2 n) in *. set (b := Z.log2 (Zpos d)) in *.
  replace (c - 1) with (a + - (Z.succ b)) by (unfold c; lia).
  rewrite Qpower_plus by discriminate.
  rewrite Qpower_opp.
  rewrite <- (Zpower_Qpower 2 a) by lia.
  rewrite <- (Zpower_Qpower 2 (Z.succ b)) by lia.
  assert (H2b : 0 < 2 ^ Z.succ b) by (apply Z.pow_pos_nonneg; lia).
  assert (Hinv : (0 < / inject_Z (2 ^ Z.succ b))%Q).
  { apply Qinv_lt_0_compat. rewrite <- (Zlt_Qlt 0). exact H2b. }
  apply Qle_trans with (inject_Z n * / inject_Z (2 ^ Z.succ b))%Q.
  - apply Qmult_le_compat_r; [|apply Qlt_le_weak; exact Hinv].
    rewrite <- Zle_Qle. exact Hn1.
  - apply Qle_shift_div_r; [rewrite <- (Zlt_Qlt 0); exact H2b|].
    unfold Qle, Qmult, inject_Z. cbn [Qnum Qden]. nia.
Qed.

Lemma round64_pos_close q :
  (0 < q)%Q -> (Qabs (round64_pos q - q) <= q * EPS64 + TINY64)%Q.
Proof.
  intros Hq. unfold round64_pos.
  set (e := Z.max (ilog2 q - 52) (-1074)).
  pose proof (pow2_pos e) as Hp.
  pose proof (round_half_even_close (q / 2 ^ e)) as Hr.
  set (m := inject_Z (round_half_even (q / 2 ^ e))) in *.
  assert (Hhalf : (Qabs (m * 2 ^ e - q) <= (1 # 2) * 2 ^ e)%Q).
  { assert (Heq : (m * 2 ^ e - q == (m - q / 2 ^ e) * 2 ^ e)%Q).
    { field. intros H0. rewrite H0 in Hp. discriminate. }
    rewrite Heq, Qabs_Qmult, (Qabs_pos (2 ^ e))
      by (apply Qlt_le_weak; exact Hp).
    apply Qmult_le_compat_r; [exact Hr|apply Qlt_le_weak; exact Hp]. }
  apply Qle_trans with (1 := Hhalf).
  assert (Htiny : (0 < TINY64)%Q) by apply pow2_pos.
  destruct (Z.max_spec (ilog2 q - 52) (-1074)) as [[_ He]|[_ He]];
    fold e in He; rewrite He.
  - assert (Hv : ((1 # 2) * 2 ^ (-1074) == TINY64)%Q).
    { unfold TINY64. replace (-1075) with (-1 + -1074) by lia.
      rewrite Qpower_plus by discriminate. reflexivity. }
    rewrite Hv.
    assert (0 <= q * EPS64)%Q
      by (apply Qmult_le_0_compat; [apply Qlt_le_weak; exact Hq|discriminate]).
    lra.
  - pose proof (ilog2_le q Hq) as Hl.
    replace (ilog2 q - 52) with (ilog2 q + -52) by lia.
    rewrite Qpower_plus by discriminate.
    assert (H52 : ((1 # 2) * 2 ^ (-52) == EPS64)%Q) by reflexivity.
    setoid_replace ((1 # 2) * (2 ^ ilog2 q * 2 ^ (-52)))%Q
      with (2 ^ ilog2 q * EPS64)%Q by (rewrite <- H52; ring).
    assert (2 ^ ilog2 q * EPS64 <= q * EPS64)%Q
      by (apply Qmult_le_compat_r; [exact Hl|discriminate]).
    lra.
Qed.

Lemma float_close q :
  (Qabs (float_ q - q) <= Qabs q * EPS64 + TINY64)%Q.
Proof.
  assert (Htiny : (0 < TINY64)%Q) by apply pow2_pos.
  destruct q as [n d]. unfold float_. cbn [Qnum].
  destruct n as [|n|n].
  - assert (E : (Qabs (0 - (0 # d)) == 0)%Q) by reflexivity.
    rewrite E.
    assert (0 <= Qabs (0 # d) * EPS64)%Q
      by (apply Qmult_le_0_compat; [apply Qabs_nonneg|discriminate]).
    lra.
  - rewrite (Qabs_pos (Zpos n # d)) by (unfold Qle; cbn; lia).
    apply round64_pos_close. reflexivity.
  - assert (Hneg : (Zneg n # d == - (Zpos n # d))%Q) by reflexivity.
    assert (Habs : (Qabs (Zneg n # d) == (Zpos n # d))%Q) by reflexivity.
    rewrite Habs.
    assert (Hop : (- (Zneg n # d) == Zpos n # d)%Q) by reflexivity.
    pose proof (round64_pos_close (- (Zneg n # d)) ltac:(reflexivity)) as H.
    rewrite Hop in H at 2 3.
    assert (E : (- round64_pos (- (Zneg n # d)) - (Zneg n # d)
                 == - (round64_pos (- (Zneg n # d)) - (Zpos n # d)))%Q).
    { rewrite Hneg at 2. ring. }
    rewrite E, Qabs_opp. exact H.
Qed.

(** 4.1 hours come to 245 minutes, not 246: the product of the two
    doubles is just below 246. *)
Lemma duration_minutes_of_truncates :
  duration_minutes_of (41 # 10) = 245 /\ duration_minutes_of 2 = 120.
Proof. split; vm_compute; reflexivity. Qed.

Lemma TINY64_small : (TINY64 <= 1 # 1000000000000000000)%Q.
Proof. apply Qle_bool_iff. vm_compute. reflexivity. Qed.

Lemma Qabs_sub_triangle (x y z : Q) :
  (Qabs (x - z) <= Qabs (x - y) + Qabs (y - z))%Q.
Proof.
  setoid_replace (x - z)%Q with ((x - y) + (y - z))%Q by ring.
  apply Qabs_triangle.
Qed.

Lemma Qabs_le_add (x y : Q) : (Qabs x <= Qabs y + Qabs (y - x))%Q.
Proof.
  setoid_replace x with (y + (x - y))%Q at 1 by ring.
  setoid_replace (y - x)%Q with (- (x - y))%Q by ring.
  rewrite Qabs_opp. apply Qabs_triangle.
Qed.

Lemma duration_minutes_close d :
  0 <= duration_minutes_of d <= horizon ->
  (Qabs (inject_Z (duration_minutes_of d) - d * inject_Z 60)
   <= 1 + (1 # 60000000))%Q.
Proof.
  intros [Hlo Hhi]. unfold duration_minutes_of in *.
  set (A := float_ d) in *. set (P := (A * inject_Z 60)%Q) in *.
  set (B := float_ P) in *. set (m := py_int B) in *.
  pose proof (py_int_close B) as HmB. fold m in HmB.
  pose proof (float_close P) as HBP. fold B in HBP.
  pose proof (float_close d) as HAd. fold A in HAd.
  pose proof TINY64_small as Hv.
  assert (Hv0 : (0 < TINY64)%Q) by apply pow2_pos.
  assert (Hm : (Qabs (inject_Z m) <= 100000)%Q).
  { apply Qabs_Qle_condition. unfold horizon in Hhi. split.
    - apply Qle_trans with 0%Q; [discriminate|].
      rewrite <- (Zle_Qle 0). exact Hlo.
    - change (100000%Q) with (inject_Z 100000). rewrite <- Zle_Qle.
      exact Hhi. }
  pose proof (Qabs_le_add B (inject_Z m)) as HB.
  pose proof (Qabs_le_add P B) as HP.
  assert (HPA : (Qabs P == 60 * Qabs A)%Q).
  { unfold P. rewrite Qabs_Qmult. change (Qabs (inject_Z 60)) with 60%Q.
    ring. }
  pose proof (Qabs_le_add d A) as Hd.
  assert (HPd : (Qabs (P - d * inject_Z 60) == 60 * Qabs (A - d))%Q).
  { unfold P. setoid_replace (A * inject_Z 60 - d * inject_Z 60)%Q
      with ((A - d) * inject_Z 60)%Q by ring.
    rewrite Qabs_Qmult. change (Qabs (inject_Z 60)) with 60%Q. ring. }
  pose proof (Qabs_sub_triangle (inject_Z m) B (d * inject_Z 60)) as T1.
  pose proof (Qabs_sub_triangle B P (d * inject_Z 60)) as T2.
  rewrite HPd in T2.
  pose proof (Qabs_nonneg A) as NA. pose proof (Qabs_nonneg d) as Nd.
  pose proof (Qabs_nonneg (A - d)) as NAd.
  pose proof (Qabs_nonneg (B - P)) as NBP.
  unfold EPS64 in *.
  generalize dependent (Qabs (inject_Z m - d * inject_Z 60)).
  generalize dependent (Qabs (B - d * inject_Z 60)).
  generalize dependent (Qabs (inject_Z m - B)).
  generalize dependent (Qabs (B - P)).
  generalize dependent (Qabs (A - d)).
  generalize dependent (Qabs (inject_Z m)).
  generalize dependent (Qabs B).
  generalize dependent (Qabs P).
  generalize dependent (Qabs A).
  generalize dependent (Qabs d).
  generalize dependent TINY64.
  intros. lra.
Qed.

Lemma within_a_minute_minutes d :
  0 <= duration_minutes_of d <= horizon ->
  within_a_minute (duration_minutes_of d * MINUTE_US) d.
Proof.
  intros H. apply duration_minutes_close in H. unfold within_a_minute.
  assert (E : (inject_Z (duration_minutes_of d * MINUTE_US)
               - d * inject_Z HOUR_US
               == (inject_Z (duration_minutes_of d) - d * inject_Z 60)
                  * inject_Z MINUTE_US)%Q).
  { rewrite inject_Z_mult.
    change (inject_Z HOUR_US) with (inject_Z 60 * inject_Z MINUTE_US)%Q.
    ring. }
  rewrite E, Qabs_Qmult.
  change (Qabs (inject_Z MINUTE_US)) with (inject_Z MINUTE_US).
  apply Qle_trans with ((1 + (1 # 60000000)) * inject_Z MINUTE_US)%Q.
  - apply Qmult_le_compat_r; [exact H|discriminate].
  - apply Qle_bool_iff. reflexivity.
Qed.

(** ** PATCH /tasks/<id>/status *)

Lemma in_valid_statuses_spec st :
  in_valid_statuses (JStr st) = true <-> In st valid_statuses.
Proof.
  unfold in_valid_statuses. rewrite existsb_exists. split.
  - intros [x [Hin Heq]]. apply String.eqb_eq in Heq. now subst.
  - intros Hin. exists st. split; [exact Hin|apply String.eqb_refl].
Qed.

Lemma valid_statuses_spelled_out st :
  In st valid_statuses
  <-> st = "Pending" \/ st = "Scheduled" \/ st = "In Progress"
      \/ st = "Completed" \/ st = "Canceled".
Proof.
  unfold valid_statuses. simpl. split.
  - intros [H|[H|[H|[H|[H|[]]]]]]; symmetry in H; tauto.
  - intros [H|[H|[H|[H|H]]]]; symmetry in H; tauto.
Qed.

Lemma rowcount_zero db id :
  rowcount db id = 0 <-> ~ exists t, In t (tasks db) /\ task_id t = id.
Proof.
  unfold rowcount.
  induction (tasks db) as [|x l IH]; simpl.
  - split; [intros _ [t [[] _]]|reflexivity].
  - destruct (Z.eqb_spec (task_id x) id) as [Heq|Hne]; simpl.
    + split; [lia|]. intros H. exfalso. apply H. exists x. auto.
    + rewrite IH. split; intros H [t [Hin Hid]]; apply H; exists t.
      * destruct Hin as [->|Hin]; [contradiction|auto].
      * auto.
Qed.

Lemma update_task_status_eq env db id data st :
  get data "status" = JStr st ->
  update_task_status env db id (Some data)
  = if negb (in_valid_statuses (JStr st)) then
      (if String.eqb st "" then
         message [Lit "Missing required field: status"] 400
       else
         message
           [Lit "Invalid status: "; ValJ (JStr st);
            Lit ". Must be one of "; ValL valid_statuses] 400, db)
    else if db_up env then
      if rowcount db id =? 0 then
        (message [Lit "Task with ID "; ValZ id; Lit " not found."] 404, db)
      else
        (message
           [Lit "Task "; ValZ id; Lit " status updated to '";
            ValJ (JStr st); Lit "'. RUN OPTIMIZER NOW."] 200,
         sql_update_status db st id)
    else
      (error [Lit "An internal error occurred: ";
              ValE (AttributeError "cursor")] 500, db).
Proof.
  intros Hget.
  unfold update_task_status, update_task_status_try, get_db_connection.
  cbn [request_object bind]. rewrite Hget. cbn [truthy].
  destruct (String.eqb_spec st "") as [->|Hne]; [reflexivity|].
  cbn [negb].
  destruct (in_valid_statuses (JStr st)); [|reflexivity].
  cbn [negb]. destruct (db_up env); [|reflexivity].
  cbn [cursor bind connect pending].
  now destruct (rowcount db id =? 0).
Qed.

(** C8, as the code has it: with a reachable store, PATCH
    /tasks/<id>/status accepts exactly the five texts Pending, Scheduled,
    In Progress (two words), Completed and Canceled.  For such a text it
    answers 200 when a task has the id, and every task with the id then
    has that status and is otherwise as before, every other row of the
    store being untouched; it answers 404, with the store unchanged, when
    no task has the id.  For any other status text it answers 400 and
    leaves the store unchanged. *)
Theorem status_update_validation (env : Env) (db : DB) (id : Z)
  (data : body) (st : string) :
  db_up env = true ->
  get data "status" = JStr st ->
  let r := update_task_status env db id (Some data) in
  let accepted :=
    st = "Pending" \/ st = "Scheduled" \/ st = "In Progress"
    \/ st = "Completed" \/ st = "Canceled" in
  (accepted ->
   (exists t, In t (tasks db) /\ task_id t = id) ->
   code (fst r) = 200
   /\ tasks (snd r)
      = map (fun row =>
               if task_id row =? id
               then {| task_id := task_id row; job_id := job_id row;
                       name := name row;
                       duration_hours := duration_hours row;
                       required_machine_id := required_machine_id row;
                       status := st;
                       start_time := start_time row;
                       end_time := end_time row |}
               else row)
            (tasks db)
   /\ machines (snd r) = machines db
   /\ precedences (snd r) = precedences db)
  /\ (accepted ->
      ~ (exists t, In t (tasks db) /\ task_id t = id) ->
      code (fst r) = 404 /\ snd r = db)
  /\ (~ accepted -> code (fst r) = 400 /\ snd r = db).
Proof.
  intros Hup Hget. cbv zeta.
  rewrite (update_task_status_eq env db id data st Hget), Hup.
  rewrite <- valid_statuses_spelled_out.
  destruct (in_valid_statuses (JStr st)) eqn:Hv.
  - apply in_valid_statuses_spec in Hv. cbn [negb].
    destruct (Z.eqb_spec (rowcount db id) 0) as [H0|H0];
      rewrite rowcount_zero in H0.
    + split; [intros _ H; contradiction|].
      split; [auto|]. intros H; contradiction.
    + split.
      * intros _ _. cbn [fst snd code message]. repeat split.
      * split; [intros _ H; contradiction|]. intros H; contradiction.
  - assert (Hnv : ~ In st valid_statuses).
    { intros H. apply in_valid_statuses_spec in H. congruence. }
    cbn [negb].
    split; [intros H; contradiction|].
    split; [intros H; contradiction|].
    intros _. now destruct (String.eqb st "").
Qed.

(** C8, as stated, fails on the text of the third status: the
    specification writes it InProgress, which the handler answers with 400
    although a task has the id; the text the handler accepts is In
    Progress. *)
Lemma status_update_rejects_InProgress :
  In "InProgress" claimed_statuses
  /\ (exists t, In t (tasks Example.db) /\ task_id t = 1)
  /\ code (fst (update_task_status Example.env Example.db 1
                  (Some [("status", JStr "InProgress")]))) = 400
  /\ snd (update_task_status Example.env Example.db 1
            (Some [("status", JStr "InProgress")])) = Example.db
  /\ ~ In "In Progress" claimed_statuses
  /\ code (fst (update_task_status Example.env Example.db 1
                  (Some [("status", JStr "In Progress")]))) = 200.
Proof.
  split; [simpl; tauto|]. split.
  - exists (mkTask 1 1 "cut" 2 1 "Pending" None None).
    split; [now left|reflexivity].
  - split; [reflexivity|]. split; [reflexivity|]. split; [|reflexivity].
    simpl. intros [H|[H|[H|[H|[H|[]]]]]]; discriminate H.
Qed.

(** ** The sequential estimator *)

Lemma sql_max_none col :
  sql_max col = None <-> forall x, In x col -> x = None.
Proof.
  induction col as [|[v|] col IH]; simpl.
  - split; [intros _ x []|reflexivity].
  - split.
    + destruct (sql_max col); discriminate.
    + intros H. specialize (H (Some v) (or_introl eq_refl)). discriminate.
  - rewrite IH. split.
    + intros H x [<-|Hx]; auto.
    + intros H x Hx. apply H. now right.
Qed.

Lemma sql_max_some col T :
  sql_max col = Some T ->
  In (Some T) col /\ forall T', In (Some T') col -> T' <= T.
Proof.
  revert T. induction col as [|[v|] col IH]; simpl; intros T H.
  - discriminate.
  - destruct (sql_max col) as [w|] eqn:Hw.
    + injection H as <-. destruct (IH w eq_refl) as [Hin Hle].
      split.
      * destruct (Z.max_spec v w) as [[_ ->]|[_ ->]]; auto.
      * intros T' [Heq|HT']; [injection Heq as <-; lia|].
        specialize (Hle T' HT'). lia.
    + injection H as <-. split; [now left|].
      intros T' [Heq|HT']; [injection Heq as <-; lia|].
      rewrite sql_max_none in Hw. specialize (Hw _ HT'). discriminate.
  - destruct (IH T H) as [Hin Hle]. split; [now right|].
    intros T' [Heq|HT']; [discriminate|auto].
Qed.

Lemma latest_end_is_sql_max db m anchor env :
  anchor_of env db m anchor ->
  match sql_max (map end_time
                   (filter (fun t => required_machine_id t =? m) (tasks db)))
  with
  | Some latest => latest
  | None => now env
  end = anchor.
Proof.
  set (col := map end_time _).
  assert (Hcol : forall x, In x col
                 <-> exists t, In t (tasks db) /\ required_machine_id t = m
                               /\ end_time t = x).
  { intros x. unfold col. rewrite in_map_iff. split.
    - intros [t [Hx Hin]]. apply filter_In in Hin. exists t.
      rewrite Z.eqb_eq in Hin. tauto.
    - intros [t [Hin [Hm Hx]]]. exists t. split; [exact Hx|].
      apply filter_In. rewrite Z.eqb_eq. tauto. }
  intros [T [[t [Hin [Hm Ht]]] Hmax]|Hnone].
  - destruct (sql_max col) as [T0|] eqn:Hsql.
    + apply sql_max_some in Hsql. destruct Hsql as [HT0 Hle].
      apply Hcol in HT0. destruct HT0 as [t0 [Hin0 [Hm0 Ht0]]].
      specialize (Hmax t0 T0 Hin0 Hm0 Ht0).
      assert (T <= T0) by (apply Hle, Hcol; eauto). lia.
    + rewrite sql_max_none in Hsql.
      assert (Some T = None) by (apply Hsql, Hcol; eauto). discriminate.
  - assert (Hsql : sql_max col = None).
    { apply sql_max_none. intros x Hx. apply Hcol in Hx.
      destruct Hx as [t [Hin [Hm <-]]]. now apply Hnone. }
    now rewrite Hsql.
Qed.

Lemma anchor_exists env db m : exists anchor, anchor_of env db m anchor.
Proof.
  set (col := filter (fun t => required_machine_id t =? m) (tasks db)).
  destruct (sql_max (map end_time col)) as [T|] eqn:Hsql.
  - exists T. apply anchor_latest. apply sql_max_some in Hsql.
    destruct Hsql as [Hin Hle]. split.
    + apply in_map_iff in Hin. destruct Hin as [t [Ht Hin]].
      apply filter_In in Hin. rewrite Z.eqb_eq in Hin. exists t. tauto.
    + intros t T' Hint Hm Ht. apply Hle. rewrite <- Ht. apply in_map.
      apply filter_In. rewrite Z.eqb_eq. tauto.
  - exists (now env). apply anchor_now. intros t Hin Hm.
    rewrite sql_max_none in Hsql. apply Hsql. apply in_map.
    apply filter_In. rewrite Z.eqb_eq. tauto.
Qed.

Lemma replace_second0_floor t :
  replace_second0 t mod MINUTE_US = 0
  /\ replace_second0 t <= t < replace_second0 t + MINUTE_US.
Proof.
  unfold replace_second0, MINUTE_US.
  pose proof (Z.mod_pos_bound t 60000000 ltac:(lia)) as Hb.
  split; [|lia].
  rewrite <- Zminus_mod_idemp_l, Z.sub_diag. reflexivity.
Qed.

Lemma round_half_even_integer q k :
  (q == inject_Z k)%Q -> round_half_even q = k.
Proof.
  destruct q as [n d]. unfold Qeq, inject_Z, round_half_even.
  cbn [Qnum Qden]. intros H. rewrite Z.mul_1_r in H. subst n.
  rewrite Z.div_mul, Z.mod_mul by lia. cbn [Z.mul].
  now destruct (Z.ltb_spec 0 (Zpos d)); [|lia].
Qed.

Lemma py_int_integer q k : (q == inject_Z k)%Q -> py_int q = k.
Proof.
  destruct q as [n d]. unfold Qeq, inject_Z, py_int.
  cbn [Qnum Qden]. intros H. rewrite Z.mul_1_r in H. subst n.
  apply Z.quot_mul. lia.
Qed.

Lemma float_zero q : (q == 0)%Q -> float_ q = 0%Q.
Proof.
  destruct q as [n d]. unfold Qeq, float_. cbn [Qnum Qden].
  intros H. rewrite Z.mul_1_r in H. cbn in H. now subst n.
Qed.

(** [timedelta(hours=d)] is [d] hours to the nearest microsecond, up to
    the rounding of the two floating-point operations: half a microsecond,
    and half a microsecond more for each million hours. *)
Lemma timedelta_hours_close d :
  (Qabs (inject_Z (timedelta_hours d) - d * inject_Z HOUR_US)
   <= (1 # 2) + (Qabs d + 1) * (1 # 2000000))%Q.
Proof.
  unfold timedelta_hours.
  set (x := float_ d). set (ip := py_int x).
  set (fp := (x - inject_Z ip)%Q). set (H := inject_Z HOUR_US).
  set (y := float_ (fp * H)). set (r := round_half_even y).
  pose proof (float_close d) as Hx. fold x in Hx.
  pose proof (py_int_close x) as Hfp. fold ip in Hfp.
  pose proof (float_close (fp * H)) as Hy. fold y in Hy.
  pose proof (round_half_even_close y) as Hr. fold r in Hr.
  pose proof TINY64_small as Hv.
  assert (Hv0 : (0 < TINY64)%Q) by apply pow2_pos.
  assert (HfpH : (Qabs (fp * H) <= 3600000000)%Q).
  { rewrite Qabs_Qmult. change (Qabs H) with H.
    setoid_replace (3600000000%Q) with (1 * H)%Q by reflexivity.
    apply Qmult_le_compat_r; [|discriminate].
    unfold fp. setoid_replace (x - inject_Z ip)%Q
      with (- (inject_Z ip - x))%Q by ring.
    rewrite Qabs_opp. apply Qlt_le_weak. exact Hfp. }
  assert (E : (inject_Z (ip * HOUR_US + r) - d * H
               == (inject_Z r - y) + (y - fp * H) + (x - d) * H)%Q).
  { rewrite inject_Z_plus, inject_Z_mult. unfold fp. fold H. ring. }
  rewrite E.
  pose proof (Qabs_triangle ((inject_Z r - y) + (y - fp * H)) ((x - d) * H))
    as T1.
  pose proof (Qabs_triangle (inject_Z r - y) (y - fp * H)) as T2.
  assert (T3 : (Qabs ((x - d) * H) == Qabs (x - d) * 3600000000)%Q).
  { rewrite Qabs_Qmult. reflexivity. }
  rewrite T3 in T1.
  pose proof (Qabs_nonneg d) as Nd.
  unfold EPS64 in *.
  generalize dependent (Qabs (inject_Z r - y + (y - fp * H) + (x - d) * H)).
  generalize dependent (Qabs (inject_Z r - y + (y - fp * H))).
  generalize dependent (Qabs (inject_Z r - y)).
  generalize dependent (Qabs (y - fp * H)).
  generalize dependent (Qabs (fp * H)).
  generalize dependent (Qabs (x - d)).
  generalize dependent (Qabs d).
  generalize dependent TINY64.
  intros. lra.
Qed.

Lemma round64_pos_integer h :
  0 < h < 2 ^ 53 -> (round64_pos (inject_Z h) == inject_Z h)%Q.
Proof.
  intros [Hpos Hlt]. unfold round64_pos.
  pose proof (Z.log2_spec h Hpos) as [Hlo Hhi].
  pose proof (Z.log2_nonneg h) as HL.
  assert (HL52 : Z.log2 h < 53).
  { apply Z.log2_lt_pow2; [exact Hpos|exact Hlt]. }
  assert (Hil : ilog2 (inject_Z h) = Z.log2 h).
  { unfold ilog2, inject_Z. cbn [Qnum Qden]. change (Z.log2 1) with 0.
    rewrite Z.sub_0_r.
    assert (Hle : Qle_bool (2 ^ Z.log2 h) (h # 1) = true).
    { apply Qle_bool_iff. rewrite <- (Zpower_Qpower 2 (Z.log2 h)) by lia.
      change (h # 1) with (inject_Z h). rewrite <- Zle_Qle. exact Hlo. }
    now rewrite Hle. }
  rewrite Hil. rewrite Z.max_l by lia.
  set (k := 52 - Z.log2 h).
  replace (Z.log2 h - 52) with (- k) by (unfold k; lia).
  assert (Hk : 0 <= k) by (unfold k; lia).
  assert (Hp : (2 ^ (- k) == / inject_Z (2 ^ k))%Q).
  { rewrite Qpower_opp, <- (Zpower_Qpower 2 k) by lia. reflexivity. }
  assert (H2k : 0 < 2 ^ k) by (apply Z.pow_pos_nonneg; lia).
  assert (Hnz : ~ (inject_Z (2 ^ k) == 0)%Q).
  { intros H0.
    assert (H : (0 < inject_Z (2 ^ k))%Q)
      by (rewrite <- (Zlt_Qlt 0); exact H2k).
    rewrite H0 in H. discriminate H. }
  assert (Hq : (inject_Z h / 2 ^ (- k) == inject_Z (h * 2 ^ k))%Q).
  { rewrite Hp, inject_Z_mult. field. exact Hnz. }
  rewrite (round_half_even_integer _ _ Hq).
  rewrite Hp, inject_Z_mult. field. exact Hnz.
Qed.

Lemma float_integer h :
  Z.abs h < 2 ^ 53 -> (float_ (inject_Z h) == inject_Z h)%Q.
Proof.
  intros Hh. destruct h as [|p|p].
  - reflexivity.
  - change (float_ (inject_Z (Z.pos p)))
      with (round64_pos (inject_Z (Z.pos p))).
    apply round64_pos_integer. lia.
  - change (float_ (inject_Z (Z.neg p)))
      with (- round64_pos (inject_Z (Z.pos p)))%Q.
    rewrite (round64_pos_integer (Z.pos p)) by lia. reflexivity.
Qed.

(** A whole number of hours below 2^53 is multiplied exactly. *)
Lemma timedelta_hours_integer h :
  Z.abs h < 2 ^ 53 -> timedelta_hours (inject_Z h) = h * HOUR_US.
Proof.
  intros Hh. unfold timedelta_hours.
  pose proof (float_integer h Hh) as Hx.
  rewrite (py_int_integer _ _ Hx).
  rewrite float_zero; [change (round_half_even 0) with 0; lia|].
  rewrite Hx. ring.
Qed.

Lemma calculate_sequential_schedule_eq env db m d :
  calculate_sequential_schedule env (connect db) m d
  = let start :=
      replace_second0
        match sql_max (map end_time
                         (filter (fun t => required_machine_id t =? m)
                                 (tasks db)))
        with
        | Some latest => latest
        | None => now env
        end in
    if negb (timedelta_in_range (timedelta_hours d)) then
      Raise (OverflowError "days; must have magnitude <= 999999999")
    else if negb (datetime_in_range (start + timedelta_hours d)) then
      Raise (OverflowError "date value out of range")
    else Ok (start, start + timedelta_hours d).
Proof. reflexivity. Qed.

Lemma calculate_sequential_schedule_inv env db m d s e :
  calculate_sequential_schedule env (connect db) m d = Ok (s, e) ->
  s mod MINUTE_US = 0 /\ e = s + timedelta_hours d
  /\ timedelta_in_range (timedelta_hours d) = true
  /\ datetime_in_range e = true
  /\ exists anchor, anchor_of env db m anchor /\ s = replace_second0 anchor.
Proof.
  rewrite calculate_sequential_schedule_eq. cbv zeta.
  destruct (timedelta_in_range (timedelta_hours d)); [|discriminate].
  cbn [negb].
  destruct (datetime_in_range _) eqn:Hr; [|discriminate].
  cbn [negb]. intros H. injection H as <- <-.
  split; [apply replace_second0_floor|]. split; [reflexivity|].
  split; [reflexivity|]. split; [exact Hr|].
  destruct (anchor_exists env db m) as [anchor Ha]. exists anchor.
  split; [exact Ha|]. now rewrite (latest_end_is_sql_max db m anchor env Ha).
Qed.

Lemma add_task_eq env db data n d mn m s e :
  db_up env = true ->
  get data "name" = JStr n -> n <> "" ->
  get data "duration_hours" = JNum d -> Qeq_bool d 0 = false ->
  get data "machine_name" = JStr mn -> mn <> "" ->
  sql_machine_by_name db mn = Some m ->
  calculate_sequential_schedule env (connect db) m d = Ok (s, e) ->
  add_task env db (Some data)
  = (message
       [Lit "Task '"; ValJ (JStr n); Lit "' added with ID ";
        ValZ (nextval_task_id env);
        Lit ". Run optimizer for true schedule."] 201,
     sql_insert_task db
       {| task_id := nextval_task_id env; job_id := sql_next_job_id db;
          name := n; duration_hours := d; required_machine_id := m;
          status := "Pending";
          start_time := Some s; end_time := Some e |}).
Proof.
  intros Hup Hn Hne Hd Hd0 Hmn Hmne Hm Hcalc.
  unfold add_task, add_task_try, get_db_connection.
  cbn [request_object]. rewrite Hup, Hn, Hd, Hmn. cbn [truthy].
  apply String.eqb_neq in Hne, Hmne. rewrite Hne, Hmne, Hd0.
  cbn [negb orb cursor bind connect pending lookup_machine].
  rewrite Hm. cbn [bind timedelta_arg]. fold (connect db).
  rewrite Hcalc. reflexivity.
Qed.

Lemma add_task_overflow env db data n d mn m x :
  db_up env = true ->
  get data "name" = JStr n -> n <> "" ->
  get data "duration_hours" = JNum d -> Qeq_bool d 0 = false ->
  get data "machine_name" = JStr mn -> mn <> "" ->
  sql_machine_by_name db mn = Some m ->
  calculate_sequential_schedule env (connect db) m d = Raise x ->
  add_task env db (Some data)
  = (message [Lit "An internal error occurred: "; ValE x] 500, db).
Proof.
  intros Hup Hn Hne Hd Hd0 Hmn Hmne Hm Hcalc.
  unfold add_task, add_task_try, get_db_connection.
  cbn [request_object]. rewrite Hup, Hn, Hd, Hmn. cbn [truthy].
  apply String.eqb_neq in Hne, Hmne. rewrite Hne, Hmne, Hd0.
  cbn [negb orb cursor bind connect pending lookup_machine].
  rewrite Hm. cbn [bind timedelta_arg]. fold (connect db).
  rewrite Hcalc. reflexivity.
Qed.

(** C6: the estimator starts from the latest end timestamp among the
    tasks bound to the machine, whatever their status, or from the current
    instant when no such task has an end timestamp; the start it returns is
    that instant rounded down to the minute and the end is the start plus
    [timedelta(hours=duration)].  That span is the duration rounded to a
    whole microsecond, after the floating-point rounding of the duration
    (together at most half a microsecond, and half a microsecond more for
    each million hours), and it is the duration itself for a whole number of
    hours.  This is what the estimator returns whenever the span is within
    the range of [timedelta] and the end within that of [datetime]; beyond
    them it raises [OverflowError].  In particular, when the machine has
    one task, ending at T within two hours of which [datetime] does not
    end, the estimate for a 2-hour task is T rounded down to the minute and
    two hours later, and POST /tasks answers 201 and appends to the store
    one task, Pending, with these two timestamps. *)
Theorem sequential_estimator_contract (env : Env) (db : DB) (m : Z) (d : Q) :
  (forall anchor,
      anchor_of env db m anchor ->
      (timedelta_in_range (timedelta_hours d) = true ->
       datetime_in_range (replace_second0 anchor + timedelta_hours d) = true ->
       calculate_sequential_schedule env (connect db) m d
       = Ok (replace_second0 anchor,
             replace_second0 anchor + timedelta_hours d))
      /\ (timedelta_in_range (timedelta_hours d) = false
          \/ datetime_in_range (replace_second0 anchor + timedelta_hours d)
             = false ->
          exists what,
            calculate_sequential_schedule env (connect db) m d
            = Raise (OverflowError what))
      /\ replace_second0 anchor mod MINUTE_US = 0
      /\ replace_second0 anchor <= anchor < replace_second0 anchor + MINUTE_US)
  /\ (exists anchor, anchor_of env db m anchor)
  /\ (Qabs (inject_Z (timedelta_hours d) - d * inject_Z HOUR_US)
      <= (1 # 2) + (Qabs d + 1) * (1 # 2000000))%Q
  /\ (forall h, Z.abs h < 2 ^ 53 ->
                timedelta_hours (inject_Z h) = h * HOUR_US)
  /\ (forall t T,
         filter (fun t => required_machine_id t =? m) (tasks db) = [t] ->
         end_time t = Some T ->
         datetime_in_range (replace_second0 T + 2 * HOUR_US) = true ->
         calculate_sequential_schedule env (connect db) m 2
         = Ok (replace_second0 T, replace_second0 T + 2 * HOUR_US)
         /\ forall data n mn,
              db_up env = true ->
              get data "name" = JStr n -> n <> "" ->
              get data "duration_hours" = JNum 2 ->
              get data "machine_name" = JStr mn -> mn <> "" ->
              sql_machine_by_name db mn = Some m ->
              code (fst (add_task env db (Some data))) = 201
              /\ tasks (snd (add_task env db (Some data)))
                 = (tasks db
                    ++ [{| task_id := nextval_task_id env;
                           job_id := sql_next_job_id db;
                           name := n; duration_hours := 2;
                           required_machine_id := m;
                           status := "Pending";
                           start_time := Some (replace_second0 T);
                           end_time :=
                             Some (replace_second0 T + 2 * HOUR_US) |}])%list
              /\ machines (snd (add_task env db (Some data))) = machines db
              /\ precedences (snd (add_task env db (Some data)))
                 = precedences db).
Proof.
  split; [|split; [|split; [|split]]].
  - intros anchor Hanchor.
    rewrite calculate_sequential_schedule_eq. cbv zeta.
    rewrite (latest_end_is_sql_max db m anchor env Hanchor).
    split; [|split; [|apply replace_second0_floor]].
    + intros -> ->. reflexivity.
    + intros [-> | H].
      * cbn [negb]. eexists. reflexivity.
      * destruct (timedelta_in_range (timedelta_hours d)); cbn [negb];
          [rewrite H; cbn [negb]|]; eexists; reflexivity.
  - apply anchor_exists.
  - apply timedelta_hours_close.
  - apply timedelta_hours_integer.
  - intros t T Hfilter Hend Hrange.
    assert (Hcalc : calculate_sequential_schedule env (connect db) m 2
                    = Ok (replace_second0 T, replace_second0 T + 2 * HOUR_US)).
    { rewrite calculate_sequential_schedule_eq. cbv zeta.
      rewrite Hfilter. simpl map. simpl sql_max. rewrite Hend.
      change (timedelta_hours 2) with (timedelta_hours (inject_Z 2)).
      rewrite timedelta_hours_integer by reflexivity.
      rewrite Hrange. reflexivity. }
    split; [exact Hcalc|].
    intros data n mn Hup Hn Hne Hd Hmn Hmne Hm.
    rewrite (add_task_eq env db data n 2 mn m _ _) by eauto.
    repeat split.
Qed.

(** ** The task invariant *)

Lemma timed_set_status row st : timed row -> timed (set_status row st).
Proof. intros [s [e H]]. exists s, e. exact H. Qed.

Lemma sql_update_details_rows_inv env updates id rows : forall rows',
  sql_update_details_rows env rows updates id = Ok rows' ->
  forall r', In r' rows' -> In r' rows \/ status r' = "Pending".
Proof.
  induction rows as [|row rows IH]; simpl; intros rows' H r' Hin.
  - injection H as <-. destruct Hin.
  - destruct (sql_update_details_rows env rows updates id) as [rest|e];
      [|discriminate].
    cbn [bind] in H.
    destruct (task_id row =? id).
    + destruct (fold_left (apply_update env) updates (Ok row)) as [row1|e];
        [|discriminate].
      cbn [bind] in H. injection H as <-.
      destruct Hin as [<-|Hin]; [now right|].
      destruct (IH rest eq_refl r' Hin); auto.
    + injection H as <-.
      destruct Hin as [<-|Hin]; [auto|].
      destruct (IH rest eq_refl r' Hin); auto.
Qed.

Lemma edit_task_details_store env db id request :
  snd (edit_task_details env db id request) = db
  \/ exists updates rows,
       sql_update_details_rows env (tasks db) updates id = Ok rows
       /\ snd (edit_task_details env db id request) = set_tasks db rows.
Proof.
  unfold edit_task_details, get_db_connection.
  destruct request as [data|]; cbn [request_object]; [|now left].
  unfold edit_task_details_try.
  destruct (negb (existsb (has_key data)
                    ["name"; "duration_hours"; "machine_name"]));
    [now left|].
  destruct (db_up env); [|now left].
  cbn [cursor bind connect pending].
  destruct (if has_key data "machine_name"
            then machine_result <- lookup_machine db (get data "machine_name") ;;
                 match machine_result with
                 | Some m_id => Ok (inr [set_required_machine_id m_id])
                 | None => Ok (inl tt)
                 end
            else Ok (inr [])) as [[u|mu]|e]; cbn [bind]; try now left.
  unfold sql_update_details.
  destruct (forallb (well_typed_update env) _); [|now left].
  destruct (sql_update_details_rows env (tasks db) _ id) as [rows|e]
    eqn:Hrows;
    cbn [bind]; [|now left].
  destruct (rowcount db id =? 0); [now left|].
  right. eauto.
Qed.

Lemma NoDup_map_eq {A B} (f : A -> B) l x y :
  NoDup (map f l) -> In x l -> In y l -> f x = f y -> x = y.
Proof.
  induction l as [|z l IH]; simpl; intros Hnd Hx Hy Heq; [destruct Hx|].
  inversion Hnd as [|? ? Hnotin Hnd']; subst.
  destruct Hx as [->|Hx], Hy as [->|Hy]; auto.
  - exfalso. apply Hnotin. rewrite Heq. now apply in_map.
  - exfalso. apply Hnotin. rewrite <- Heq. now apply in_map.
Qed.

Lemma satisfies_domain model asg v lb ub :
  satisfies model asg = true -> In (v, (lb, ub)) (int_vars model) ->
  lb <= asg v <= ub.
Proof.
  unfold satisfies. rewrite andb_true_iff. intros [H _] Hin.
  rewrite forallb_forall in H. specialize (H _ Hin). simpl in H.
  apply andb_true_iff in H. rewrite !Z.leb_le in H. exact H.
Qed.

Lemma model_of_task_vars ms ts ps id data :
  In (id, data) ts ->
  In (start_ id, (0, horizon)) (int_vars (model_of ms ts ps))
  /\ In (end_ id, (0, horizon)) (int_vars (model_of ms ts ps))
  /\ In (Interval (interval_of id data)) (constraints (model_of ms ts ps)).
Proof.
  intros Hin.
  assert (Hv : forall v, In v [(start_ id, (0, horizon));
                               (end_ id, (0, horizon))] ->
                         In v (int_vars (model_of ms ts ps))).
  { intros v Hv. destruct ts as [|item ts']; [destruct Hin|].
    unfold model_of. cbn [int_vars]. apply in_or_app. left.
    unfold task_int_vars. apply in_flat_map. exists (id, data). auto. }
  split; [apply Hv; now left|]. split; [apply Hv; right; now left|].
  apply model_of_constraints_In. left. unfold interval_constraints.
  apply in_map_iff. exists (id, data). auto.
Qed.

Lemma scheduled_is_timed db ms ts ps solver anchor row :
  fetch_scheduling_data (connect db) = (ms, ts, ps) ->
  NoDup (map task_id (tasks db)) ->
  satisfies (model_of ms ts ps) (Value solver) = true ->
  In row (tasks db) -> dict_mem ts (task_id row) = true ->
  timed (scheduled solver anchor row).
Proof.
  intros Hfetch Hnd Hsat Hin Hmem.
  pose proof (fetch_tasks_mem (connect db) (task_id row)) as Hm.
  rewrite Hfetch in Hm. cbn [fst snd connect pending] in Hm.
  apply Hm in Hmem. destruct Hmem as [t [Ht [Hid Hun]]].
  assert (t = row) by (apply (NoDup_map_eq task_id (tasks db)); auto).
  subst t.
  pose proof (fetch_tasks_get (connect db) row Hnd Hin Hun) as Hget.
  rewrite Hfetch in Hget. cbn [fst snd] in Hget.
  apply dict_get_In in Hget.
  set (data := {| td_job_id := job_id row;
                  td_duration := duration_hours row;
                  td_machine_id := required_machine_id row |}) in *.
  destruct (model_of_task_vars ms ts ps _ _ Hget) as [Hvs [Hve Hc]].
  pose proof (satisfies_domain _ _ _ _ _ Hsat Hvs) as Hds.
  pose proof (satisfies_domain _ _ _ _ _ Hsat Hve) as Hde.
  pose proof (satisfies_holds _ _ _ Hsat Hc) as Hh.
  cbn [holds interval_of iv_size iv_start iv_end] in Hh.
  apply andb_true_iff in Hh. destruct Hh as [H0 Hh].
  apply Z.leb_le in H0. apply Z.eqb_eq in Hh.
  cbn [td_duration data] in H0, Hh.
  exists (anchor + Value solver (start_ (task_id row)) * MINUTE_US),
         (anchor + Value solver (end_ (task_id row)) * MINUTE_US).
  split; [reflexivity|]. split; [reflexivity|].
  cbn [scheduled duration_hours].
  replace (anchor + Value solver (end_ (task_id row)) * MINUTE_US
           - (anchor + Value solver (start_ (task_id row)) * MINUTE_US))
    with (duration_minutes_of (duration_hours row) * MINUTE_US) by lia.
  apply within_a_minute_minutes. lia.
Qed.

(** C5, as the code has it: the task edit and the full solve preserve the
    invariant (a task with status Scheduled or Completed has both timestamps
    set, end - start equal to its duration to within a minute: the solve
    stores the whole minutes of [int(float(duration_hours) * 60)], which
    are at most a minute and a microsecond away from the duration), the
    solve when [task_id] is a key of the table and the solver's values are a
    solution of the model; the status update writes the status only, and
    preserves the invariant when the requested status is neither Scheduled
    nor Completed or the tasks it addresses already have both timestamps set,
    a duration apart. *)
Theorem invariant_preservation (env : Env) (db : DB) :
  db_invariant db ->
  (forall id request,
      db_invariant (snd (edit_task_details env db id request)))
  /\ (forall request,
         NoDup (map task_id (tasks db)) ->
         solver_contract env db = true ->
         db_invariant (snd (run_optimization env db request)))
  /\ (forall id request,
         (forall data,
             request = Some data ->
             get data "status" = JStr "Scheduled"
             \/ get data "status" = JStr "Completed" ->
             forall t, In t (tasks db) -> task_id t = id -> timed t) ->
         db_invariant (snd (update_task_status env db id request))).
Proof.
  intros Hinv. split; [|split].
  - intros id request.
    destruct (edit_task_details_store env db id request)
      as [-> | [updates [rows [Hrows ->]]]]; [exact Hinv|].
    intros r' Hin. cbn [tasks set_tasks] in Hin.
    destruct (sql_update_details_rows_inv _ _ _ _ _ Hrows r' Hin) as [H|H].
    + now apply Hinv.
    + intros [Hs|Hs]; rewrite H in Hs; discriminate.
  - intros request Hnd Hcontract.
    rewrite run_optimization_eq.
    unfold solver_contract in Hcontract.
    pose proof (fetch_machines_NoDup (connect db)) as Hnms.
    pose proof (fetch_tasks_NoDup (connect db)) as Hnts.
    destruct (fetch_scheduling_data (connect db)) as [[ms ts] ps] eqn:Hfetch.
    cbn [fst snd] in Hnms, Hnts.
    rewrite build_model_closed_form in Hcontract by assumption.
    destruct (db_up env); [|exact Hinv].
    destruct (parse_start_time env (json_or_empty request)) as [[start|]|e];
      try exact Hinv.
    destruct ts as [|item ts']; [exact Hinv|].
    set (tsk := item :: ts') in *.
    cbv zeta in Hcontract |- *.
    destruct (usable (solver_status (Solve env (model_of ms tsk ps))));
      [|exact Hinv].
    cbn [implb] in Hcontract.
    destruct (no_failing_update env (Datatypes.length tsk)); [|exact Hinv].
    cbn [snd]. intros r' Hin.
    apply materialized_row in Hin. destruct Hin as [row [Hrow [_ ->]]].
    destruct (dict_mem tsk (task_id row)) eqn:Hmem; [|now apply Hinv].
    intros _.
    now apply (scheduled_is_timed db ms tsk ps).
  - intros id request Hreq.
    destruct request as [data|]; [|exact Hinv].
    unfold update_task_status, update_task_status_try, get_db_connection.
    cbn [request_object bind].
    destruct (negb (truthy (get data "status"))); [exact Hinv|].
    destruct (get data "status") as [| b | q | st] eqn:Hget;
      try exact Hinv.
    destruct (negb (in_valid_statuses (JStr st))); [exact Hinv|].
    destruct (db_up env); [|exact Hinv].
    cbn [cursor bind connect pending].
    destruct (rowcount db id =? 0); [exact Hinv|].
    cbn [snd close commit with_pending committed pending].
    intros r' Hin. cbn [tasks sql_update_status set_tasks] in Hin.
    apply in_map_iff in Hin. destruct Hin as [row [Hr' Hrow]].
    destruct (Z.eqb_spec (task_id row) id) as [Hid|Hid];
      [|subst r'; now apply Hinv].
    subst r'. intros Hst. cbn [status set_status] in Hst.
    apply timed_set_status.
    apply (Hreq data eq_refl); auto.
    destruct Hst as [-> | ->]; auto.
Qed.

(** C5, as stated, fails on the status update: a Pending task without
    timestamps (a task that has just been edited) becomes Completed and
    still has no timestamps. *)
Lemma status_update_breaks_invariant :
  db_invariant Example.edited_db
  /\ ~ db_invariant
         (snd (update_task_status Example.env Example.edited_db 1
                 (Some [("status", JStr "Completed")]))).
Proof.
  split.
  - intros t [<-|[]] [H|H]; discriminate H.
  - intros H.
    destruct (H (mkTask 1 1 "cut" 2 1 "Completed" None None))
      as [s [e [Hs _]]].
    + now left.
    + now right.
    + discriminate Hs.
Qed.

(** ** The theorems at the example shop floor *)

Lemma assembler_selects_backlog_witness :
  fetch_scheduling_data (connect Example.db)
  = (Example.machines_, Example.tasks_, precedences Example.db)
  /\ exists model task_vars,
       build_model Example.machines_ Example.tasks_ (precedences Example.db)
       = Ok (model, task_vars)
       /\ forall a b,
            In (GreaterOrEqual a b) (constraints model)
            <-> exists p s, In (p, s) (precedences Example.db)
                            /\ dict_mem Example.tasks_ p = true
                            /\ dict_mem Example.tasks_ s = true
                            /\ a = start_ s /\ b = end_ p.
Proof.
  split; [reflexivity|].
  destruct (assembler_selects_backlog (connect Example.db)
              Example.machines_ Example.tasks_ (precedences Example.db)
              eq_refl) as [_ [_ [_ H]]].
  exact H.
Defined.

Lemma precedence_is_enforced_witness :
  In (1, 2) (precedences Example.db)
  /\ solver_contract Example.env Example.db = true
  /\ code (fst (run_optimization Example.env Example.db None)) = 200
  /\ forall rp rs,
       In rp (tasks (snd (run_optimization Example.env Example.db None))) ->
       In rs (tasks (snd (run_optimization Example.env Example.db None))) ->
       task_id rp = 1 -> task_id rs = 2 ->
       exists e st, end_time rp = Some e /\ start_time rs = Some st
                    /\ st >= e.
Proof.
  split; [now left|]. split; [reflexivity|]. split; [reflexivity|].
  destruct (precedence_is_enforced Example.env Example.db None
              Example.machines_ Example.tasks_ (precedences Example.db) 1 2)
    as [model [task_vars [_ [_ [_ H]]]]].
  - reflexivity.
  - now left.
  - reflexivity.
  - reflexivity.
  - apply H; reflexivity.
Defined.

Lemma exclusivity_on_capacity_one_witness :
  fetch_scheduling_data (connect Example.db)
  = (Example.machines_, Example.tasks_, precedences Example.db)
  /\ exists model task_vars,
       build_model Example.machines_ Example.tasks_ (precedences Example.db)
       = Ok (model, task_vars)
       /\ filter is_no_overlap (constraints model)
          = [NoOverlap (intervals_on Example.tasks_ 1)]
       /\ (satisfies model Example.values_ = true ->
           Example.values_ (end_ 1) <= Example.values_ (start_ 2)
           \/ Example.values_ (end_ 2) <= Example.values_ (start_ 1)).
Proof.
  split; [reflexivity|].
  destruct (exclusivity_on_capacity_one (connect Example.db)
              Example.machines_ Example.tasks_ (precedences Example.db)
              eq_refl) as [model [task_vars [Hb [Hf [_ [_ Hd]]]]]].
  exists model, task_vars. split; [exact Hb|]. split; [exact Hf|].
  intros Hsat.
  apply (Hd Example.values_ 1 1 2
           {| td_job_id := 1; td_duration := 2; td_machine_id := 1 |}
           {| td_job_id := 1; td_duration := 3 # 2; td_machine_id := 1 |});
    try reflexivity; [exact Hsat|discriminate].
Defined.


Lemma saved_schedule_reports_optimal_witness :
  solver_status (Example.solver FEASIBLE) = FEASIBLE
  /\ no_failing_update Example.env (List.length Example.tasks_) = true
  /\ code (fst (run_optimization Example.env Example.db None)) = 200
  /\ In ("status", Text [Lit "OPTIMAL"])
        (payload (fst (run_optimization Example.env Example.db None))).
Proof.
  split; [reflexivity|]. split; [reflexivity|].
  destruct (saved_schedule_reports_optimal Example.env Example.db None
              1699999980000000 Example.machines_ Example.tasks_
              (precedences Example.db))
    as [model [task_vars [_ [H _]]]];
    try reflexivity; [discriminate|].
  destruct H as [_ [Hc [Hs _]]]; [now right|].
  split; [exact Hc|exact Hs].
Defined.

Lemma canceled_and_in_progress_are_rescheduled_witness :
  status (mkTask 2 1 "drill" (3 # 2) 1 "Canceled"
            (Some 1700000000000000) (Some 1700005400000000)) = "Canceled"
  /\ dict_mem Example.tasks_ 2 = true
  /\ In (mkTask 2 1 "drill" (3 # 2) 1 "Scheduled"
           (Some 1700007180000000) (Some 1700012580000000))
        (tasks (snd (run_optimization Example.env Example.db None))).
Proof.
  split; [reflexivity|].
  destruct (canceled_and_in_progress_are_rescheduled Example.env Example.db
              None 1699999980000000 Example.machines_ Example.tasks_
              (precedences Example.db)
              (mkTask 2 1 "drill" (3 # 2) 1 "Canceled"
                 (Some 1700000000000000) (Some 1700005400000000)))
    as [Hmem [model [task_vars [_ [_ [_ [_ H]]]]]]];
    try reflexivity.
  - right. now left.
  - now left.
  - split; [exact Hmem|].
    destruct H as [_ [Hin _]]; try reflexivity. exact Hin.
Defined.

Lemma add_precedence_never_inserts_witness :
  truthy (JNum 1) = true /\ truthy (JNum 4) = true
  /\ code (fst (add_precedence Example.env Example.db
                  (Some [("predecessor_id", JNum 1);
                         ("successor_id", JNum 4)]))) = 500
  /\ snd (add_precedence Example.env Example.db
            (Some [("predecessor_id", JNum 1); ("successor_id", JNum 4)]))
     = Example.db.
Proof.
  split; [reflexivity|]. split; [reflexivity|].
  destruct (add_precedence_never_inserts Example.env Example.db
              (Some [("predecessor_id", JNum 1); ("successor_id", JNum 4)]))
    as [Hs [_ [H _]]].
  split; [|exact Hs].
  apply (H [("predecessor_id", JNum 1); ("successor_id", JNum 4)]);
    reflexivity.
Defined.

Lemma status_update_validation_witness :
  db_up Example.env = true
  /\ get [("status", JStr "In Progress")] "status" = JStr "In Progress"
  /\ code (fst (update_task_status Example.env Example.db 1
                  (Some [("status", JStr "In Progress")]))) = 200
  /\ tasks (snd (update_task_status Example.env Example.db 1
                   (Some [("status", JStr "In Progress")])))
     = [mkTask 1 1 "cut" 2 1 "In Progress" None None;
        mkTask 2 1 "drill" (3 # 2) 1 "Canceled"
          (Some 1700000000000000) (Some 1700005400000000);
        mkTask 3 2 "turn" 1 2 "Scheduled"
          (Some 1700000040000000) (Some 1700003640000000);
        mkTask 4 2 "polish" 1 2 "In Progress" None None]
  /\ code (fst (update_task_status Example.env Example.db 7
                  (Some [("status", JStr "Completed")]))) = 404
  /\ code (fst (update_task_status Example.env Example.db 1
                  (Some [("status", JStr "Done")]))) = 400.
Proof.
  split; [reflexivity|]. split; [reflexivity|].
  assert (H1 : exists t, In t (tasks Example.db) /\ task_id t = 1).
  { exists (mkTask 1 1 "cut" 2 1 "Pending" None None).
    split; [now left|reflexivity]. }
  destruct (status_update_validation Example.env Example.db 1
              [("status", JStr "In Progress")] "In Progress" eq_refl eq_refl)
    as [H _].
  destruct (H (or_intror (or_intror (or_introl eq_refl))) H1)
    as [Hcode [Htasks _]].
  split; [exact Hcode|]. split; [exact Htasks|]. split.
  - destruct (status_update_validation Example.env Example.db 7
                [("status", JStr "Completed")] "Completed" eq_refl eq_refl)
      as [_ [H404 _]].
    apply H404.
    + right. right. right. now left.
    + intros [t [Hin Hid]]. simpl in Hin.
      destruct Hin as [<-|[<-|[<-|[<-|[]]]]]; discriminate Hid.
  - destruct (status_update_validation Example.env Example.db 1
                [("status", JStr "Done")] "Done" eq_refl eq_refl)
      as [_ [_ H400]].
    apply H400.
    intros [H0|[H0|[H0|[H0|H0]]]]; discriminate H0.
Defined.

Lemma sequential_estimator_contract_witness :
  filter (fun t => required_machine_id t =? 2) (tasks Example.scenario_db)
  = [mkTask 3 2 "turn" 1 2 "Scheduled"
       (Some 1700000052000000) (Some 1700003652000000)]
  /\ datetime_in_range (replace_second0 1700003652000000 + 2 * HOUR_US) = true
  /\ calculate_sequential_schedule Example.env (connect Example.scenario_db)
       2 2
     = Ok (1700003640000000, 1700010840000000)
  /\ tasks (snd (add_task Example.env Example.scenario_db
                   (Some Example.new_task)))
     = [mkTask 1 1 "cut" 2 1 "Pending" None None;
        mkTask 3 2 "turn" 1 2 "Scheduled"
          (Some 1700000052000000) (Some 1700003652000000);
        mkTask 5 3 "deburr" 2 2 "Pending"
          (Some 1700003640000000) (Some 1700010840000000)].
Proof.
  split; [reflexivity|]. split; [reflexivity|].
  destruct (sequential_estimator_contract Example.env Example.scenario_db
              2 2) as [_ [_ [_ [_ H]]]].
  destruct (H (mkTask 3 2 "turn" 1 2 "Scheduled"
                 (Some 1700000052000000) (Some 1700003652000000))
              1700003652000000 eq_refl eq_refl eq_refl) as [Hcalc Hadd].
  split; [exact Hcalc|].
  assert (Hname : "deburr" <> "") by discriminate.
  assert (Hmachine : "Lathe" <> "") by discriminate.
  destruct (Hadd Example.new_task "deburr" "Lathe"
              eq_refl eq_refl Hname eq_refl eq_refl Hmachine eq_refl)
    as [_ [Hs _]].
  exact Hs.
Defined.

Lemma invariant_preservation_witness :
  db_invariant Example.db
  /\ db_invariant
       (snd (edit_task_details Example.env Example.db 3
               (Some [("duration_hours", JNum 4)])))
  /\ db_invariant (snd (run_optimization Example.env Example.db None))
  /\ db_invariant
       (snd (update_task_status Example.env Example.db 3
               (Some [("status", JStr "Completed")]))).
Proof.
  assert (Htimed : timed (mkTask 3 2 "turn" 1 2 "Scheduled"
                            (Some 1700000040000000)
                            (Some 1700003640000000))).
  { exists 1700000040000000, 1700003640000000.
    split; [reflexivity|]. split; [reflexivity|].
    apply Qle_bool_iff. reflexivity. }
  assert (Hinv : db_invariant Example.db).
  { intros t [<-|[<-|[<-|[<-|[]]]]] [H|H]; try discriminate H.
    exact Htimed. }
  split; [exact Hinv|].
  destruct (invariant_preservation Example.env Example.db Hinv)
    as [Hedit [Hsolve Hstatus]].
  split; [apply Hedit|]. split.
  - apply Hsolve; [|reflexivity].
    repeat (constructor;
            [simpl; intros H;
             repeat (destruct H as [H|H]; [discriminate H|]); exact H|]).
    constructor.
  - apply Hstatus. intros data _ _ t Hin Hid. simpl in Hin.
    destruct Hin as [<-|[<-|[<-|[<-|[]]]]]; try discriminate Hid.
    exact Htimed.
Defined.

(** * Further properties of the handlers *)

(** ** Lists related position by position *)

Lemma Forall2_In_l {A B} (R : A -> B -> Prop) l l' x :
  Forall2 R l l' -> In x l -> exists y, In y l' /\ R x y.
Proof.
  induction 1 as [|a b l l' Hab _ IH]; simpl; [intros []|].
  intros [<-|Hx]; [eauto|].
  destruct (IH Hx) as [y [Hy Hxy]]. eauto.
Qed.

Lemma Forall2_In_r {A B} (R : A -> B -> Prop) l l' y :
  Forall2 R l l' -> In y l' -> exists x, In x l /\ R x y.
Proof.
  induction 1 as [|a b l l' Hab _ IH]; simpl; [intros []|].
  intros [<-|Hy]; [eauto|].
  destruct (IH Hy) as [x [Hx Hxy]]. eauto.
Qed.

(** ** The optimizer, run by run *)

Lemma run_optimization_saved_inv env db request :
  saved (fst (run_optimization env db request)) ->
  exists start ms ts ps,
    db_up env = true
    /\ parse_start_time env (json_or_empty request) = Ok (Some start)
    /\ fetch_scheduling_data (connect db) = (ms, ts, ps)
    /\ ts <> []
    /\ usable (solver_status (Solve env (model_of ms ts ps))) = true
    /\ no_failing_update env (List.length ts) = true
    /\ run_optimization env db request
       = (saved_response (Solve env (model_of ms ts ps)),
          materialized (Solve env (model_of ms ts ps))
            (replace_second0 start) (dict_mem ts) db).
Proof.
  rewrite run_optimization_eq. unfold saved.
  destruct (db_up env);
    [|simpl; intros [H|[]]; discriminate H].
  destruct (parse_start_time env (json_or_empty request)) as [[start|]|e];
    try (simpl; intros [H|[]]; discriminate H).
  destruct (fetch_scheduling_data (connect db)) as [[ms ts] ps].
  destruct ts as [|item ts'];
    [simpl; intros [H|[]]; discriminate H|].
  set (tsk := item :: ts') in *. cbv zeta.
  destruct (usable (solver_status (Solve env (model_of ms tsk ps)))) eqn:Hus;
    [|simpl; intros [H|[H|[]]]; discriminate H].
  destruct (no_failing_update env (Datatypes.length tsk)) eqn:Hf;
    [|simpl; intros [H|[]]; discriminate H].
  intros _. exists start, ms, tsk, ps.
  repeat split; auto. discriminate.
Qed.

Lemma run_optimization_unsaved env db request :
  ~ saved (fst (run_optimization env db request)) ->
  snd (run_optimization env db request) = db.
Proof.
  rewrite run_optimization_eq. unfold saved.
  destruct (db_up env); [|reflexivity].
  destruct (parse_start_time env (json_or_empty request)) as [[start|]|e];
    try reflexivity.
  destruct (fetch_scheduling_data (connect db)) as [[ms ts] ps].
  destruct ts as [|item ts']; [reflexivity|].
  cbv zeta.
  destruct (usable _); [|reflexivity].
  destruct (no_failing_update _ _); [|reflexivity].
  intros H. exfalso. apply H. simpl. auto.
Qed.

Lemma saved_dec (r : Response) : saved r \/ ~ saved r.
Proof.
  unfold saved.
  assert (Hdec : forall a b : string * out, {a = b} + {a <> b}).
  { assert (Hz : forall a b : Z, {a = b} + {a <> b}) by apply Z.eq_dec.
    assert (Hp : forall a b : positive, {a = b} + {a <> b})
      by apply Pos.eq_dec.
    assert (Hq : forall a b : Q, {a = b} + {a <> b}) by (decide equality).
    assert (Hs : forall a b : string, {a = b} + {a <> b})
      by apply string_dec.
    assert (Hj : forall a b : json, {a = b} + {a <> b})
      by (decide equality; apply bool_dec).
    assert (He : forall a b : exn, {a = b} + {a <> b}) by (decide equality).
    assert (Hl : forall a b : list string, {a = b} + {a <> b})
      by (apply list_eq_dec; exact Hs).
    assert (Hpc : forall a b : piece, {a = b} + {a <> b})
      by (decide equality).
    assert (Hlp : forall a b : list piece, {a = b} + {a <> b})
      by (apply list_eq_dec; exact Hpc).
    assert (Ho : forall a b : out, {a = b} + {a <> b}) by (decide equality).
    decide equality. }
  destruct (in_dec Hdec ("status", Text [Lit "OPTIMAL"]) (payload r)); auto.
Qed.

(** Whatever the request and the solver, a run of the optimizer
    leaves the machines and the precedence edges as they are and keeps,
    position by position, the id, job, name, duration and machine of every
    task; with [task_id] a key of the table, a task that is Completed or
    Scheduled is left exactly as it was. *)
Lemma run_optimization_keeps_identity (env : Env) (db : DB)
  (request : option body) :
  machines (snd (run_optimization env db request)) = machines db
  /\ precedences (snd (run_optimization env db request)) = precedences db
  /\ Forall2 (fun r r' =>
                same_identity r r'
                /\ (NoDup (map task_id (tasks db)) ->
                    unresolved r = false -> r' = r))
       (tasks db) (tasks (snd (run_optimization env db request))).
Proof.
  assert (Hrefl : Forall2 (fun r r' =>
                             same_identity r r'
                             /\ (NoDup (map task_id (tasks db)) ->
                                 unresolved r = false -> r' = r))
                    (tasks db) (tasks db)).
  { generalize (NoDup (map task_id (tasks db))). intros P.
    induction (tasks db) as [|r l IH]; constructor; [|exact IH].
    split; [|reflexivity]. unfold same_identity. auto. }
  destruct (saved_dec (fst (run_optimization env db request))) as [Hs|Hs].
  - apply run_optimization_saved_inv in Hs.
    destruct Hs as [start [ms [ts [ps [_ [_ [Hfetch [_ [_ [_ ->]]]]]]]]]].
    cbn [snd]. split; [reflexivity|]. split; [reflexivity|].
    cbn [materialized tasks set_tasks].
    pose proof (fetch_tasks_mem (connect db)) as Hmem.
    rewrite Hfetch in Hmem. cbn [fst snd connect pending] in Hmem.
    assert (Hall : forall r, In r (tasks db) ->
                     NoDup (map task_id (tasks db)) ->
                     unresolved r = false -> dict_mem ts (task_id r) = false).
    { intros r Hr Hnd Hun. destruct (dict_mem ts (task_id r)) eqn:Hm;
        [|reflexivity].
      apply Hmem in Hm. destruct Hm as [t [Ht [Hid Hunt]]].
      assert (t = r) by (apply (NoDup_map_eq task_id (tasks db)); auto).
      subst t. congruence. }
    clear Hrefl Hmem. revert Hall.
    generalize (NoDup (map task_id (tasks db))). intros P.
    induction (tasks db) as [|r l IH]; simpl; intros Hall; constructor.
    + split.
      * destruct (dict_mem ts (task_id r)); unfold same_identity; auto.
      * intros Hnd Hun. now rewrite (Hall r (or_introl eq_refl) Hnd Hun).
    + apply IH. intros r' Hr'. apply Hall. now right.
  - rewrite (run_optimization_unsaved _ _ _ Hs). auto.
Qed.

(** X1: whatever the request and the solver, a run of the optimizer
    leaves the machines and the precedence edges as they are, adds and
    removes no task and keeps, position by position, the id, job, name,
    duration and machine of every task; with [task_id] a key of the table, a
    task that is Completed or Scheduled is left exactly as it was. *)
Theorem run_optimization_frame (env : Env) (db : DB)
  (request : option body) :
  machines (snd (run_optimization env db request)) = machines db
  /\ precedences (snd (run_optimization env db request)) = precedences db
  /\ List.length (tasks (snd (run_optimization env db request)))
     = List.length (tasks db)
  /\ Forall2 same_identity
       (tasks db) (tasks (snd (run_optimization env db request)))
  /\ (NoDup (map task_id (tasks db)) ->
      forall t, In t (tasks db) -> unresolved t = false ->
                In t (tasks (snd (run_optimization env db request)))).
Proof.
  destruct (run_optimization_keeps_identity env db request)
    as [Hm [Hp Hall]].
  split; [exact Hm|]. split; [exact Hp|].
  split; [symmetry; exact (Forall2_length Hall)|]. split.
  - eapply Forall2_impl; [|exact Hall]. intros r r' [H _]. exact H.
  - intros Hnd t Hin Hun.
    destruct (Forall2_In_l _ _ _ t Hall Hin) as [t' [Hin' [_ Heq]]].
    now rewrite <- (Heq Hnd Hun).
Qed.

Lemma materialized_resolves solver anchor db ms ts ps :
  fetch_scheduling_data (connect db) = (ms, ts, ps) ->
  forall r', In r' (tasks (materialized solver anchor (dict_mem ts) db)) ->
             unresolved r' = false.
Proof.
  intros Hfetch r' Hin.
  pose proof (fetch_tasks_mem (connect db)) as Hmem.
  rewrite Hfetch in Hmem. cbn [fst snd connect pending] in Hmem.
  apply materialized_row in Hin. destruct Hin as [r [Hr [_ ->]]].
  destruct (dict_mem ts (task_id r)) eqn:Hm; [reflexivity|].
  destruct (unresolved r) eqn:Hun; [|reflexivity].
  assert (dict_mem ts (task_id r) = true) by (apply Hmem; eauto).
  congruence.
Qed.

Lemma filter_none {A} (f : A -> bool) l :
  (forall x, In x l -> f x = false) -> filter f l = [].
Proof.
  induction l as [|x l IH]; simpl; intros H; [reflexivity|].
  rewrite (H x (or_introl eq_refl)). apply IH. intros y Hy. apply H.
  now right.
Qed.

(** X2: once a run has saved a schedule the backlog is empty: a second
    run, with any solver, clock and anchor, answers 200 and leaves the
    store exactly as the first run left it. *)
Theorem run_optimization_twice (env env' : Env) (db : DB)
  (request request' : option body) start' :
  saved (fst (run_optimization env db request)) ->
  db_up env' = true ->
  parse_start_time env' (json_or_empty request') = Ok (Some start') ->
  run_optimization env' (snd (run_optimization env db request)) request'
  = (message
       [Lit "Optimization successful. No pending tasks found to schedule."]
       200,
     snd (run_optimization env db request)).
Proof.
  intros Hs Hup Hparse.
  apply run_optimization_saved_inv in Hs.
  destruct Hs as [start [ms [ts [ps [_ [_ [Hfetch [_ [_ [_ ->]]]]]]]]]].
  cbn [snd]. rewrite run_optimization_eq, Hup, Hparse.
  unfold fetch_scheduling_data at 1. cbn [connect pending].
  rewrite (filter_none unresolved).
  - reflexivity.
  - now apply (materialized_resolves _ _ db ms ts ps).
Qed.

(** ** What a saved schedule looks like *)

Lemma minute_multiple anchor k :
  anchor mod MINUTE_US = 0 -> (anchor + k * MINUTE_US) mod MINUTE_US = 0.
Proof.
  intros H. rewrite Z.mod_add by (unfold MINUTE_US; lia).
  exact H.
Qed.

(** X3: after a run that saved a schedule (the solver's values being a
    solution of the model, [task_id] a key of the table), every task of the
    backlog is stored as Scheduled with a start and an end that are whole
    minutes, lie between the anchor and the anchor plus the horizon of
    100000 minutes, and are exactly [int(float(duration_hours) * 60)]
    minutes apart, the product being the floating-point one (245 minutes
    for 4.1 hours). *)
Theorem stored_interval_is_exact (env : Env) (db : DB)
  (request : option body) (t : TaskRow) :
  NoDup (map task_id (tasks db)) ->
  solver_contract env db = true ->
  saved (fst (run_optimization env db request)) ->
  In t (tasks db) -> unresolved t = true ->
  exists start s e,
    parse_start_time env (json_or_empty request) = Ok (Some start)
    /\ In {| task_id := task_id t; job_id := job_id t; name := name t;
             duration_hours := duration_hours t;
             required_machine_id := required_machine_id t;
             status := "Scheduled";
             start_time := Some s; end_time := Some e |}
          (tasks (snd (run_optimization env db request)))
    /\ e - s = duration_minutes_of (duration_hours t) * MINUTE_US
    /\ replace_second0 start <= s
    /\ e <= replace_second0 start + horizon * MINUTE_US
    /\ s mod MINUTE_US = 0 /\ e mod MINUTE_US = 0.
Proof.
  intros Hnd Hcontract Hs Hin Hun.
  apply run_optimization_saved_inv in Hs.
  destruct Hs as [start [ms [ts [ps [_ [Hparse [Hfetch [_ [Hus [_ ->]]]]]]]]]].
  pose proof (fetch_machines_NoDup (connect db)) as Hnms.
  pose proof (fetch_tasks_NoDup (connect db)) as Hnts.
  pose proof (fetch_tasks_get (connect db) t Hnd Hin Hun) as Hget.
  rewrite Hfetch in Hnms, Hnts, Hget. cbn [fst snd] in Hnms, Hnts, Hget.
  unfold solver_contract in Hcontract. rewrite Hfetch in Hcontract.
  rewrite build_model_closed_form in Hcontract by assumption.
  rewrite Hus in Hcontract. cbn [implb] in Hcontract.
  set (solver := Solve env (model_of ms ts ps)) in *.
  set (data := {| td_job_id := job_id t; td_duration := duration_hours t;
                  td_machine_id := required_machine_id t |}) in *.
  assert (Hmem : dict_mem ts (task_id t) = true)
    by (unfold dict_mem; now rewrite Hget).
  apply dict_get_In in Hget.
  destruct (model_of_task_vars ms ts ps _ _ Hget) as [Hvs [Hve Hc]].
  pose proof (satisfies_domain _ _ _ _ _ Hcontract Hvs) as Hds.
  pose proof (satisfies_domain _ _ _ _ _ Hcontract Hve) as Hde.
  pose proof (satisfies_holds _ _ _ Hcontract Hc) as Hh.
  cbn [holds interval_of iv_size iv_start iv_end td_duration data] in Hh.
  apply andb_true_iff in Hh. destruct Hh as [_ Hh]. apply Z.eqb_eq in Hh.
  destruct (replace_second0_floor start) as [Hal _].
  exists start,
    (replace_second0 start + Value solver (start_ (task_id t)) * MINUTE_US),
    (replace_second0 start + Value solver (end_ (task_id t)) * MINUTE_US).
  split; [exact Hparse|]. split.
  - cbn [snd materialized tasks set_tasks]. apply in_map_iff. exists t.
    rewrite Hmem. split; [reflexivity|exact Hin].
  - unfold horizon, MINUTE_US in *. repeat split; try lia.
    + apply (minute_multiple _ _ Hal).
    + apply (minute_multiple _ _ Hal).
Qed.

(** X4: after a run that saved a schedule (the solver's values being a
    solution of the model, [task_id] a key of the table), two different
    tasks of the backlog that require the same machine of capacity 1 are
    stored with intervals that do not overlap: one ends at or before the
    start of the other. *)
Theorem stored_intervals_do_not_overlap (env : Env) (db : DB)
  (request : option body) ms ts ps (t1 t2 r1 r2 : TaskRow) (m : Z) :
  NoDup (map task_id (tasks db)) ->
  solver_contract env db = true ->
  saved (fst (run_optimization env db request)) ->
  fetch_scheduling_data (connect db) = (ms, ts, ps) ->
  dict_get ms m = Some 1 ->
  In t1 (tasks db) -> unresolved t1 = true -> required_machine_id t1 = m ->
  In t2 (tasks db) -> unresolved t2 = true -> required_machine_id t2 = m ->
  task_id t1 <> task_id t2 ->
  In r1 (tasks (snd (run_optimization env db request))) ->
  task_id r1 = task_id t1 ->
  In r2 (tasks (snd (run_optimization env db request))) ->
  task_id r2 = task_id t2 ->
  exists s1 e1 s2 e2,
    start_time r1 = Some s1 /\ end_time r1 = Some e1
    /\ start_time r2 = Some s2 /\ end_time r2 = Some e2
    /\ (e1 <= s2 \/ e2 <= s1).
Proof.
  intros Hnd Hcontract Hs Hfetch Hcap Hin1 Hun1 Hm1 Hin2 Hun2 Hm2 Hne
         Hr1 Hid1 Hr2 Hid2.
  apply run_optimization_saved_inv in Hs.
  destruct Hs as [start [ms' [ts' [ps' [_ [_ [Hfetch' [_ [Hus [_ Hrun]]]]]]]]]].
  rewrite Hfetch in Hfetch'. injection Hfetch' as <- <- <-.
  rewrite Hrun in Hr1, Hr2. cbn [snd] in Hr1, Hr2.
  pose proof (fetch_machines_NoDup (connect db)) as Hnms.
  pose proof (fetch_tasks_NoDup (connect db)) as Hnts.
  pose proof (fetch_tasks_get (connect db) t1 Hnd Hin1 Hun1) as Hget1.
  pose proof (fetch_tasks_get (connect db) t2 Hnd Hin2 Hun2) as Hget2.
  rewrite Hfetch in Hnms, Hnts, Hget1, Hget2.
  cbn [fst snd] in Hnms, Hnts, Hget1, Hget2.
  unfold solver_contract in Hcontract. rewrite Hfetch in Hcontract.
  rewrite build_model_closed_form in Hcontract by assumption.
  rewrite Hus in Hcontract. cbn [implb] in Hcontract.
  set (solver := Solve env (model_of ms ts ps)) in *.
  assert (Hc : In (NoOverlap (intervals_on ts m))
                  (constraints (model_of ms ts ps))).
  { apply model_of_constraints_In. right. right. left.
    apply capacity_constraints_In. exists m. split; [|reflexivity].
    now apply dict_get_In. }
  pose proof (satisfies_holds _ _ _ Hcontract Hc) as Hno. cbn [holds] in Hno.
  assert (Hiv : forall t, In t (tasks db) -> required_machine_id t = m ->
                  dict_get ts (task_id t)
                  = Some {| td_job_id := job_id t;
                            td_duration := duration_hours t;
                            td_machine_id := required_machine_id t |} ->
                  In (interval_of (task_id t)
                        {| td_job_id := job_id t;
                           td_duration := duration_hours t;
                           td_machine_id := required_machine_id t |})
                     (intervals_on ts m)).
  { intros t _ Hm Hget. unfold intervals_on. apply in_map_iff.
    eexists (task_id t, _). split; [reflexivity|]. apply filter_In.
    split; [now apply dict_get_In|]. simpl. now apply Z.eqb_eq. }
  assert (Hstored : forall t r, dict_get ts (task_id t) <> None ->
            In r (tasks (materialized solver (replace_second0 start)
                           (dict_mem ts) db)) ->
            task_id r = task_id t ->
            start_time r
            = Some (replace_second0 start
                    + Value solver (start_ (task_id t)) * MINUTE_US)
            /\ end_time r
               = Some (replace_second0 start
                       + Value solver (end_ (task_id t)) * MINUTE_US)).
  { intros t r Hget Hr Hid. apply materialized_row in Hr.
    destruct Hr as [r0 [_ [Hid0 ->]]]. rewrite Hid in Hid0.
    unfold dict_mem. rewrite <- Hid0.
    destruct (dict_get ts (task_id t)); [|now contradiction Hget].
    simpl. now rewrite <- Hid0. }
  destruct (Hstored t1 r1) as [Hs1 He1]; auto; [now rewrite Hget1|].
  destruct (Hstored t2 r2) as [Hs2 He2]; auto; [now rewrite Hget2|].
  do 4 eexists. split; [exact Hs1|]. split; [exact He1|].
  split; [exact Hs2|]. split; [exact He2|].
  destruct (pairwise_In _ _ _ _ Hno (Hiv t1 Hin1 Hm1 Hget1)
              (Hiv t2 Hin2 Hm2 Hget2)) as [H|H].
  - intros Heq. apply Hne. now injection Heq.
  - unfold disjoint in H. cbn [interval_of iv_start iv_end] in H.
    apply orb_true_iff in H. rewrite !Z.leb_le in H.
    unfold MINUTE_US. lia.
  - unfold disjoint in H. cbn [interval_of iv_start iv_end] in H.
    apply orb_true_iff in H. rewrite !Z.leb_le in H.
    unfold MINUTE_US. lia.
Qed.

(** ** Models without a solution *)

Lemma run_without_solution env db request start ms ts ps :
  db_up env = true ->
  parse_start_time env (json_or_empty request) = Ok (Some start) ->
  fetch_scheduling_data (connect db) = (ms, ts, ps) ->
  ts <> [] ->
  solver_contract env db = true ->
  (forall asg, satisfies (model_of ms ts ps) asg = false) ->
  run_optimization env db request = (infeasible_response, db).
Proof.
  intros Hup Hparse Hfetch Hne Hcontract Hunsat.
  pose proof (fetch_machines_NoDup (connect db)) as Hnms.
  pose proof (fetch_tasks_NoDup (connect db)) as Hnts.
  rewrite Hfetch in Hnms, Hnts. cbn [fst snd] in Hnms, Hnts.
  unfold solver_contract in Hcontract. rewrite Hfetch in Hcontract.
  rewrite build_model_closed_form in Hcontract by assumption.
  rewrite run_optimization_eq, Hup, Hparse, Hfetch.
  destruct ts as [|item ts']; [now contradiction Hne|].
  set (tsk := item :: ts') in *. cbv zeta.
  rewrite Hunsat in Hcontract.
  destruct (usable (solver_status (Solve env (model_of ms tsk ps))));
    [discriminate Hcontract|reflexivity].
Qed.


(** X6: a task of the backlog whose duration comes to more than the
    horizon of 100000 minutes, or to a negative number of minutes, the
    number being one the solver's interface takes (a 64-bit integer), leaves
    the model without a solution: no partial schedule is produced, and with
    a solver that only reports a usable status with a solution the handler
    answers 400 and leaves the store unchanged. *)
Theorem oversized_task_is_infeasible (env : Env) (db : DB)
  (request : option body) start ms ts ps id data :
  db_up env = true ->
  parse_start_time env (json_or_empty request) = Ok (Some start) ->
  fetch_scheduling_data (connect db) = (ms, ts, ps) ->
  dict_get ts id = Some data ->
  horizon < duration_minutes_of (td_duration data) <= INT64_MAX
  \/ INT64_MIN <= duration_minutes_of (td_duration data) < 0 ->
  exists model task_vars,
    build_model ms ts ps = Ok (model, task_vars)
    /\ (forall asg, satisfies model asg = false)
    /\ (solver_contract env db = true ->
        run_optimization env db request = (infeasible_response, db)).
Proof.
  intros Hup Hparse Hfetch Hget Hsize.
  pose proof (fetch_machines_NoDup (connect db)) as Hnms.
  pose proof (fetch_tasks_NoDup (connect db)) as Hnts.
  rewrite Hfetch in Hnms, Hnts. cbn [fst snd] in Hnms, Hnts.
  assert (Hmem : dict_mem ts id = true)
    by (unfold dict_mem; now rewrite Hget).
  assert (Hunsat : forall asg, satisfies (model_of ms ts ps) asg = false).
  { intros asg. destruct (satisfies (model_of ms ts ps) asg) eqn:Hsat;
      [|reflexivity]. exfalso.
    apply dict_get_In in Hget.
    destruct (model_of_task_vars ms ts ps _ _ Hget) as [Hvs [Hve Hc]].
    pose proof (satisfies_domain _ _ _ _ _ Hsat Hvs) as Hds.
    pose proof (satisfies_domain _ _ _ _ _ Hsat Hve) as Hde.
    pose proof (satisfies_holds _ _ _ Hsat Hc) as Hh.
    cbn [holds interval_of iv_size iv_start iv_end] in Hh.
    apply andb_true_iff in Hh. rewrite Z.leb_le, Z.eqb_eq in Hh.
    lia. }
  exists (model_of ms ts ps), (task_vars_of ts).
  split; [now apply build_model_closed_form|]. split; [exact Hunsat|].
  intros Hcontract.
  apply (run_without_solution env db request start ms ts ps); auto.
  intros ->. discriminate Hmem.
Qed.

(** ** The objective *)

Lemma maximum_spec l m :
  maximum l = Some m -> In m l /\ forall x, In x l -> x <= m.
Proof.
  revert m. induction l as [|y l IH]; simpl; intros m H; [discriminate|].
  destruct (maximum l) as [w|] eqn:Hw.
  - injection H as <-. destruct (IH w eq_refl) as [Hin Hle]. split.
    + destruct (Z.max_spec y w) as [[_ ->]|[_ ->]]; auto.
    + intros x [<-|Hx]; [lia|]. specialize (Hle x Hx). lia.
  - injection H as <-. split; [now left|].
    intros x [<-|Hx]; [lia|]. destruct l; [destruct Hx|].
    simpl in Hw. destruct (maximum l); discriminate.
Qed.

(** X7: when the backlog is not empty the model minimizes the variable
    max_end_time, and in every solution of the model that variable is the
    makespan: it equals the end of some task of the backlog, no task of the
    backlog ends later, and it lies within the horizon. *)
Theorem objective_is_the_makespan (conn : Conn) ms ts ps :
  fetch_scheduling_data conn = (ms, ts, ps) ->
  ts <> [] ->
  exists model task_vars,
    build_model ms ts ps = Ok (model, task_vars)
    /\ objective model = Some max_end_time
    /\ forall asg,
         satisfies model asg = true ->
         (forall id, dict_mem ts id = true ->
                     asg (end_ id) <= asg max_end_time)
         /\ (exists id, dict_mem ts id = true
                        /\ asg max_end_time = asg (end_ id))
         /\ 0 <= asg max_end_time <= horizon.
Proof.
  intros Hfetch Hne.
  pose proof (fetch_machines_NoDup conn) as Hnms.
  pose proof (fetch_tasks_NoDup conn) as Hnts.
  rewrite Hfetch in Hnms, Hnts. cbn [fst snd] in Hnms, Hnts.
  exists (model_of ms ts ps), (task_vars_of ts).
  split; [now apply build_model_closed_form|].
  split; [destruct ts; [now contradiction Hne|reflexivity]|].
  intros asg Hsat.
  assert (Hc : In (MaxEquality max_end_time (map end_ (keys ts)))
                  (constraints (model_of ms ts ps))).
  { apply model_of_constraints_In. auto. }
  pose proof (satisfies_holds _ _ _ Hsat Hc) as Hh. cbn [holds] in Hh.
  destruct (maximum (map asg (map end_ (keys ts)))) as [m|] eqn:Hmax;
    [|discriminate]. apply Z.eqb_eq in Hh.
  apply maximum_spec in Hmax. destruct Hmax as [Hin Hle].
  rewrite map_map in Hin, Hle.
  split; [|split].
  - intros id Hid. rewrite Hh. apply Hle. apply in_map_iff. exists id.
    split; [reflexivity|]. now apply dict_mem_keys.
  - apply in_map_iff in Hin. destruct Hin as [id [Hid Hk]]. exists id.
    split; [now apply dict_mem_keys|]. now rewrite Hh.
  - assert (Hv : In (max_end_time, (0, horizon))
                    (int_vars (model_of ms ts ps))).
    { destruct ts; [now contradiction Hne|]. unfold model_of.
      cbn [int_vars]. apply in_or_app. right. now left. }
    apply (satisfies_domain _ _ _ _ _ Hsat Hv).
Qed.

(** ** The anchor of a run *)

Lemma split_dot_head_no_dot s :
  (forall c, In c (list_ascii_of_string s) -> c <> "."%char) ->
  forall rest, split_dot_head (s ++ String "."%char rest) = s.
Proof.
  induction s as [|c s IH]; simpl; intros Hno rest; [reflexivity|].
  destruct (Ascii.eqb_spec c "."%char) as [->|Hne].
  - exfalso. apply (Hno "."%char); auto.
  - f_equal. apply IH. intros c' Hc'. apply Hno. now right.
Qed.

(** X8: a start_time text with a fractional part is parsed as the text
    before its first dot, so fractions of a second never reach the anchor;
    a start_time that is absent, null or empty makes the anchor the current
    instant rounded down to the minute; and a start_time that does not
    parse is answered with 400, the store unchanged. *)
Theorem start_time_fraction_is_dropped (env : Env) (data : body) :
  (forall s rest,
      (forall c, In c (list_ascii_of_string s) -> c <> "."%char) ->
      get data "start_time" = JStr (s ++ String "."%char rest) ->
      parse_start_time env data = Ok (strptime env s))
  /\ (get data "start_time" = JNull \/ get data "start_time" = JStr "" ->
      parse_start_time env data = Ok (Some (replace_second0 (now env))))
  /\ (forall db,
         db_up env = true -> parse_start_time env data = Ok None ->
         code (fst (run_optimization env db (Some data))) = 400
         /\ snd (run_optimization env db (Some data)) = db).
Proof.
  split; [|split].
  - intros s rest Hno Hget. unfold parse_start_time. rewrite Hget.
    rewrite split_dot_head_no_dot by exact Hno.
    cbn [truthy]. destruct s; reflexivity.
  - intros [H|H]; unfold parse_start_time; rewrite H; reflexivity.
  - intros db Hup Hparse. rewrite run_optimization_eq, Hup.
    cbn [json_or_empty]. rewrite Hparse. split; reflexivity.
Qed.

(** ** PATCH /tasks/<id> *)

Lemma sql_machine_by_name_In db mn m :
  sql_machine_by_name db mn = Some m ->
  exists row, In row (machines db) /\ machine_id row = m
              /\ machine_name row = mn.
Proof.
  unfold sql_machine_by_name.
  destruct (find (fun m => String.eqb (machine_name m) mn) (machines db))
    as [row|] eqn:Hf; [|discriminate].
  intros H. injection H as <-. apply find_some in Hf.
  rewrite String.eqb_eq in Hf. exists row. tauto.
Qed.

Lemma sql_update_details_rows_spec env updates id rows : forall rows',
  sql_update_details_rows env rows updates id = Ok rows' ->
  Forall2 (fun r r' =>
             if task_id r =? id
             then exists r1,
                    fold_left (apply_update env) updates (Ok r) = Ok r1
                             /\ r' = reset_to_pending r1
             else r' = r) rows rows'.
Proof.
  induction rows as [|row rows IH]; simpl; intros rows' H.
  - injection H as <-. constructor.
  - destruct (sql_update_details_rows env rows updates id) as [rest|e];
      [|discriminate].
    cbn [bind] in H.
    destruct (task_id row =? id) eqn:Hid.
    + destruct (fold_left (apply_update env) updates (Ok row))
        as [row1|e] eqn:Hf; [|discriminate].
      cbn [bind] in H. injection H as <-. constructor; [|now apply IH].
      rewrite Hid. eauto.
    + injection H as <-. constructor; [|now apply IH]. now rewrite Hid.
Qed.

Lemma rowcount_pos db id :
  (rowcount db id =? 0) = false -> exists t, In t (tasks db) /\ task_id t = id.
Proof.
  unfold rowcount. intros H.
  destruct (filter (fun row => task_id row =? id) (tasks db)) as [|t l]
    eqn:Hf; [discriminate H|].
  assert (Hin : In t (filter (fun row => task_id row =? id) (tasks db)))
    by (rewrite Hf; now left).
  apply filter_In in Hin. rewrite Z.eqb_eq in Hin. exists t. exact Hin.
Qed.

(** When PATCH /tasks/<id> answers 200, a task has the id, the
    machines and the edges are as before, every other task is untouched, and
    every task with the id is Pending with no start and no end, keeps its id
    and job, and has the name, duration and machine of the request where the
    request gives them (as the store reads them, the machine being the one
    of that name) and its own otherwise; with any other answer the store is
    unchanged. *)
Lemma edit_task_details_inv (env : Env) (db : DB) (id : Z)
  (request : option body) :
  (code (fst (edit_task_details env db id request)) = 200 ->
   exists data,
     request = Some data
     /\ machines (snd (edit_task_details env db id request)) = machines db
     /\ precedences (snd (edit_task_details env db id request))
        = precedences db
     /\ (exists t, In t (tasks db) /\ task_id t = id)
     /\ Forall2
          (fun r r' =>
             if task_id r =? id then
               task_id r' = id /\ job_id r' = job_id r
               /\ status r' = "Pending"
               /\ start_time r' = None /\ end_time r' = None
               /\ (if has_key data "name"
                   then text_param env (get data "name") = Some (name r')
                   else name r' = name r)
               /\ (if has_key data "duration_hours"
                   then numeric_param env (get data "duration_hours")
                        = Some (duration_hours r')
                   else duration_hours r' = duration_hours r)
               /\ (if has_key data "machine_name"
                   then exists mn,
                          get data "machine_name" = JStr mn
                          /\ sql_machine_by_name db mn
                             = Some (required_machine_id r')
                   else required_machine_id r' = required_machine_id r)
             else r' = r)
          (tasks db) (tasks (snd (edit_task_details env db id request))))
  /\ (code (fst (edit_task_details env db id request)) <> 200 ->
      snd (edit_task_details env db id request) = db).
Proof.
  unfold edit_task_details, get_db_connection.
  destruct request as [data|]; cbn [request_object];
    [|split; [discriminate|reflexivity]].
  unfold edit_task_details_try.
  destruct (negb (existsb (has_key data)
                    ["name"; "duration_hours"; "machine_name"]));
    [split; [discriminate|reflexivity]|].
  destruct (db_up env); [|split; [discriminate|reflexivity]].
  cbn [cursor bind connect pending].
  assert (Hmach :
    (if has_key data "machine_name"
     then machine_result <- lookup_machine db (get data "machine_name") ;;
          match machine_result with
          | Some m_id => Ok (inr [set_required_machine_id m_id])
          | None => Ok (inl tt)
          end
     else Ok (inr []))
    = (if has_key data "machine_name"
       then match get data "machine_name" with
            | JStr mn =>
                match sql_machine_by_name db mn with
                | Some m_id => Ok (inr [set_required_machine_id m_id])
                | None => Ok (inl tt)
                end
            | JNull => Ok (inl tt)
            | _ => Raise (DatabaseError "operator does not exist")
            end
       else Ok (inr []))).
  { destruct (has_key data "machine_name"); [|reflexivity].
    destruct (get data "machine_name"); reflexivity. }
  rewrite Hmach. clear Hmach.
  destruct (has_key data "name") eqn:Hkn;
    destruct (has_key data "duration_hours") eqn:Hkd;
    destruct (has_key data "machine_name") eqn:Hkm;
    try (destruct (get data "machine_name") as [| b | q | mn] eqn:Hgm;
         try (split; [discriminate|reflexivity]);
         destruct (sql_machine_by_name db mn) as [m_id|] eqn:Hm;
         try (split; [discriminate|reflexivity]));
    cbn [bind app];
    unfold sql_update_details;
    match goal with
    | |- context [forallb (well_typed_update env) ?u] =>
        destruct (forallb (well_typed_update env) u) eqn:Hwt
    end; try (split; [discriminate|reflexivity]);
    cbn [forallb well_typed_update andb] in Hwt;
    repeat match type of Hwt with
           | context [match text_param env ?j with _ => _ end] =>
               destruct (text_param env j) eqn:?; try discriminate Hwt
           | context [match numeric_param env ?j with _ => _ end] =>
               destruct (numeric_param env j) eqn:?; try discriminate Hwt
           end;
    match goal with
    | |- context [sql_update_details_rows env (tasks db) ?u id] =>
        destruct (sql_update_details_rows env (tasks db) u id) as [rows|e]
          eqn:Hrows
    end; try (split; [discriminate|reflexivity]);
    cbn [bind];
    destruct (rowcount db id =? 0) eqn:Hcount;
    try (split; [discriminate|reflexivity]);
    (split; [|intros H; now contradiction H]);
    intros _; exists data; rewrite ?Hkn, ?Hkd, ?Hkm;
    (split; [reflexivity|]); (split; [reflexivity|]);
    (split; [reflexivity|]);
    (split; [now apply rowcount_pos|]);
    cbn [snd close commit with_pending committed pending tasks set_tasks];
    apply sql_update_details_rows_spec in Hrows;
    (eapply Forall2_impl; [|exact Hrows]);
    intros r r' Hr; cbv beta in Hr |- *;
    destruct (Z.eqb_spec (task_id r) id) as [Hid|Hid]; try exact Hr;
    destruct Hr as [r1 [Hf ->]];
    cbn [fold_left apply_update bind] in Hf;
    repeat (match goal with
            | H : text_param env _ = Some _ |- _ => rewrite H in Hf
            | H : numeric_param env _ = Some _ |- _ => rewrite H in Hf
            end; cbn [fold_left apply_update bind] in Hf);
    injection Hf as <-;
    cbn [reset_to_pending task_id job_id name duration_hours
           required_machine_id status start_time end_time];
    repeat split; eauto.
Qed.

(** X9: when PATCH /tasks/<id> answers 200, a task has the id, the
    machines and the edges are as before, no task is added or removed, every
    task with another id is untouched, and every task with the id is Pending
    with no start and no end and keeps its id and job.  Such a task has the
    name and the duration of the request as the store reads them (a text
    and a number as they are, and what the store makes of a value of
    another type that is not null), and the machine that bears the
    requested name; what the request does not mention is as before.  With
    any other answer the store is unchanged. *)
Theorem edit_resets_task (env : Env) (db : DB) (id : Z) (data : body) :
  (code (fst (edit_task_details env db id (Some data))) = 200 ->
   machines (snd (edit_task_details env db id (Some data))) = machines db
   /\ precedences (snd (edit_task_details env db id (Some data)))
      = precedences db
   /\ (exists t, In t (tasks db) /\ task_id t = id)
   /\ List.length (tasks (snd (edit_task_details env db id (Some data))))
      = List.length (tasks db)
   /\ (forall t, task_id t <> id ->
                 (In t (tasks (snd (edit_task_details env db id (Some data))))
                  <-> In t (tasks db)))
   /\ Forall2
        (fun r r' =>
           if task_id r =? id then
             task_id r' = id /\ job_id r' = job_id r
             /\ status r' = "Pending"
             /\ start_time r' = None /\ end_time r' = None
             /\ (if has_key data "name"
                 then get data "name" <> JNull ->
                      text_param env (get data "name") = Some (name r')
                 else name r' = name r)
             /\ (if has_key data "duration_hours"
                 then get data "duration_hours" <> JNull ->
                      numeric_param env (get data "duration_hours")
                      = Some (duration_hours r')
                 else duration_hours r' = duration_hours r)
             /\ (if has_key data "machine_name"
                 then exists mn m,
                        get data "machine_name" = JStr mn
                        /\ In m (machines db)
                        /\ machine_name m = mn
                        /\ machine_id m = required_machine_id r'
                 else required_machine_id r' = required_machine_id r)
           else r' = r)
        (tasks db) (tasks (snd (edit_task_details env db id (Some data)))))
  /\ (code (fst (edit_task_details env db id (Some data))) <> 200 ->
      snd (edit_task_details env db id (Some data)) = db).
Proof.
  destruct (edit_task_details_inv env db id (Some data)) as [H200 Hother].
  split; [|exact Hother]. intros Hcode.
  destruct (H200 Hcode) as (data' & Hreq & Hm & Hp & Hex & Hall).
  injection Hreq as <-.
  split; [exact Hm|]. split; [exact Hp|]. split; [exact Hex|].
  split; [symmetry; exact (Forall2_length Hall)|].
  split.
  - intros t Hne. split; intros Hin.
    + destruct (Forall2_In_r _ _ _ t Hall Hin) as [r [Hr Hrel]].
      destruct (Z.eqb_spec (task_id r) id) as [Hid|Hid].
      * destruct Hrel as [Ht _]. contradiction.
      * now subst t.
    + destruct (Forall2_In_l _ _ _ t Hall Hin) as [r' [Hr' Hrel]].
      rewrite (proj2 (Z.eqb_neq _ _) Hne) in Hrel. now subst r'.
  - eapply Forall2_impl; [|exact Hall].
    intros r r' Hr. cbv beta in Hr |- *.
    destruct (task_id r =? id); [|exact Hr].
    destruct Hr as (Hid & Hjob & Hst & Hs & He & Hn & Hd & Hmn).
    split; [exact Hid|]. split; [exact Hjob|]. split; [exact Hst|].
    split; [exact Hs|]. split; [exact He|]. split; [|split].
    + destruct (has_key data "name"); [intros _|]; exact Hn.
    + destruct (has_key data "duration_hours"); [intros _|]; exact Hd.
    + destruct (has_key data "machine_name"); [|exact Hmn].
      destruct Hmn as [mn [Hget Hfind]].
      destruct (sql_machine_by_name_In db mn _ Hfind) as [m [Hin [Hmid Hnm]]].
      exists mn, m. auto.
Qed.

(** X10: a task that has just been edited with answer 200 is in the
    task set the optimizer assembles next, whatever its status was. *)
Theorem edited_task_returns_to_backlog (env : Env) (db : DB) (id : Z)
  (request : option body) :
  code (fst (edit_task_details env db id request)) = 200 ->
  dict_mem
    (snd (fst (fetch_scheduling_data
                 (connect (snd (edit_task_details env db id request))))))
    id = true.
Proof.
  intros Hcode.
  destruct (edit_task_details_inv env db id request) as [H _].
  destruct (H Hcode) as [data [_ [_ [_ [[t [Hin Hid]] Hall]]]]].
  destruct (Forall2_In_l _ _ _ _ Hall Hin) as [t' [Hin' Ht']].
  rewrite (proj2 (Z.eqb_eq _ _) Hid) in Ht'.
  destruct Ht' as [Hid' [_ [Hst _]]].
  apply fetch_tasks_mem. exists t'. cbn [connect pending].
  split; [exact Hin'|]. split; [exact Hid'|].
  unfold unresolved. now rewrite Hst.
Qed.

(** ** PATCH /tasks/<id>/status and the backlog *)

Lemma update_task_status_inv env db id request :
  snd (update_task_status env db id request) = db
  \/ exists data st,
       request = Some data /\ get data "status" = JStr st
       /\ snd (update_task_status env db id request)
          = sql_update_status db st id.
Proof.
  destruct request as [data|]; [|now left].
  destruct (get data "status") as [| b | q | st] eqn:Hget.
  - left. unfold update_task_status, update_task_status_try.
    cbn [request_object bind]. now rewrite Hget.
  - left. unfold update_task_status, update_task_status_try.
    cbn [request_object bind]. rewrite Hget. now destruct b.
  - left. unfold update_task_status, update_task_status_try.
    cbn [request_object bind]. rewrite Hget. cbn [truthy].
    now destruct (negb (negb (Qeq_bool q 0))).
  - rewrite (update_task_status_eq env db id data st Hget).
    destruct (negb (in_valid_statuses (JStr st))); [now left|].
    destruct (db_up env); [|now left].
    destruct (rowcount db id =? 0); [now left|].
    right. exists data, st. auto.
Qed.

(** X11: a status update answered with 200 changes the status of the
    tasks with the given id and nothing else: machines, edges, every other
    task, and the id, job, name, duration, machine, start and end of the
    addressed task are as before.  The task is in the task set the optimizer
    assembles next exactly when the new status is neither Completed nor
    Scheduled. *)
Theorem status_decides_backlog (env : Env) (db : DB) (id : Z)
  (data : body) (st : string) :
  db_up env = true ->
  get data "status" = JStr st ->
  In st valid_statuses ->
  (exists t, In t (tasks db) /\ task_id t = id) ->
  machines (snd (update_task_status env db id (Some data))) = machines db
  /\ precedences (snd (update_task_status env db id (Some data)))
     = precedences db
  /\ Forall2 (fun r r' =>
                same_identity r r'
                /\ start_time r' = start_time r /\ end_time r' = end_time r
                /\ (if task_id r =? id then status r' = st else r' = r))
       (tasks db) (tasks (snd (update_task_status env db id (Some data))))
  /\ (dict_mem
        (snd (fst (fetch_scheduling_data
                     (connect
                        (snd (update_task_status env db id (Some data)))))))
        id = true
      <-> st <> "Completed" /\ st <> "Scheduled").
Proof.
  intros Hup Hget Hvalid Hex.
  rewrite (update_task_status_eq env db id data st Hget), Hup.
  apply in_valid_statuses_spec in Hvalid. rewrite Hvalid. cbn [negb].
  destruct (Z.eqb_spec (rowcount db id) 0) as [H0|H0];
    [apply rowcount_zero in H0; contradiction|].
  cbn [snd]. split; [reflexivity|]. split; [reflexivity|]. split.
  - cbn [sql_update_status tasks set_tasks].
    clear Hex H0.
    induction (tasks db) as [|r l IH]; simpl; [constructor|].
    constructor; [|exact IH].
    destruct (task_id r =? id); unfold same_identity; simpl; auto 10.
  - rewrite fetch_tasks_mem. cbn [connect pending sql_update_status tasks
                                    set_tasks].
    destruct Hex as [t [Hin Hid]]. split.
    + intros [t' [Hin' [Hid' Hun]]]. apply in_map_iff in Hin'.
      destruct Hin' as [r [<- Hr]].
      destruct (Z.eqb_spec (task_id r) id) as [Hrid|Hrid].
      * apply unresolved_spec in Hun. exact Hun.
      * contradiction.
    + intros Hst. exists (set_status t st). split.
      * apply in_map_iff. exists t.
        now rewrite (proj2 (Z.eqb_eq _ _) Hid).
      * split; [exact Hid|]. apply unresolved_spec. exact Hst.
Qed.

(** ** POST /tasks *)

Lemma add_task_inv env db request :
  (code (fst (add_task env db request)) <> 201
   /\ snd (add_task env db request) = db)
  \/ exists data n d hours mn m s e,
       request = Some data
       /\ db_up env = true
       /\ text_param env (get data "name") = Some n
       /\ numeric_param env (get data "duration_hours") = Some d
       /\ timedelta_arg (get data "duration_hours") = Ok hours
       /\ get data "machine_name" = JStr mn
       /\ sql_machine_by_name db mn = Some m
       /\ calculate_sequential_schedule env (connect db) m hours = Ok (s, e)
       /\ code (fst (add_task env db request)) = 201
       /\ snd (add_task env db request)
          = sql_insert_task db
              {| task_id := nextval_task_id env;
                 job_id := sql_next_job_id db;
                 name := n; duration_hours := d; required_machine_id := m;
                 status := "Pending";
                 start_time := Some s; end_time := Some e |}.
Proof.
  destruct request as [data|];
    [|left; split; [discriminate|reflexivity]].
  unfold add_task, add_task_try, get_db_connection. cbn [request_object].
  destruct (negb (truthy (get data "name"))
            || negb (truthy (get data "duration_hours"))
            || negb (truthy (get data "machine_name")));
    [left; split; [discriminate|reflexivity]|].
  destruct (db_up env) eqn:Hup; cbn [cursor bind];
    [|left; split; [discriminate|reflexivity]].
  cbn [connect pending].
  destruct (get data "machine_name") as [| bm | qm | mn] eqn:Hmn;
    cbn [lookup_machine bind];
    try (left; split; [discriminate|reflexivity]).
  destruct (sql_machine_by_name db mn) as [m|] eqn:Hm;
    [|left; split; [discriminate|reflexivity]].
  destruct (timedelta_arg (get data "duration_hours")) as [hours|x] eqn:Hh;
    cbn [bind]; [|left; split; [discriminate|reflexivity]].
  fold (connect db).
  destruct (calculate_sequential_schedule env (connect db) m hours)
    as [[s e]|x] eqn:Hcalc;
    cbn [bind]; [|left; split; [discriminate|reflexivity]].
  destruct (text_param env (get data "name")) as [n|] eqn:Hn;
    cbn [bind]; [|left; split; [discriminate|reflexivity]].
  destruct (numeric_param env (get data "duration_hours")) as [d|] eqn:Hd;
    cbn [bind]; [|left; split; [discriminate|reflexivity]].
  right. exists data, n, d, hours, mn, m, s, e. repeat split; auto.
Qed.

Lemma sql_next_job_id_fresh db t :
  In t (tasks db) -> job_id t < sql_next_job_id db.
Proof.
  intros Hin. unfold sql_next_job_id.
  destruct (sql_max (map (fun t => Some (job_id t)) (tasks db))) as [m|]
    eqn:Hmax.
  - apply sql_max_some in Hmax. destruct Hmax as [_ Hle].
    assert (job_id t <= m); [|lia].
    apply Hle. apply in_map_iff. eauto.
  - rewrite sql_max_none in Hmax.
    assert (Some (job_id t) = None); [|discriminate].
    apply Hmax. apply in_map_iff. eauto.
Qed.

(** X12: POST /tasks either answers 201 and appends exactly one task to
    the store, every other row being as before, or gives another answer and
    leaves the store unchanged.  The appended task has the id handed out by
    the sequence, status Pending, a job id larger than every job id in the
    store, the machine that bears the requested name, and the name and the
    duration of the request when these are a text and a number.  Its start
    is the estimator's anchor for that machine rounded down to the minute,
    and its end is the start plus [timedelta(hours=duration)], within the
    range of [datetime]. *)
Theorem add_task_appends_one_pending_task (env : Env) (db : DB)
  (request : option body) :
  (code (fst (add_task env db request)) <> 201 ->
   snd (add_task env db request) = db)
  /\ (code (fst (add_task env db request)) = 201 ->
      exists row s hours,
        tasks (snd (add_task env db request)) = (tasks db ++ [row])%list
        /\ machines (snd (add_task env db request)) = machines db
        /\ precedences (snd (add_task env db request)) = precedences db
        /\ task_id row = nextval_task_id env
        /\ status row = "Pending"
        /\ (forall t, In t (tasks db) -> job_id t < job_id row)
        /\ (exists m, In m (machines db)
                      /\ machine_id m = required_machine_id row
                      /\ forall data, request = Some data ->
                           get data "machine_name" = JStr (machine_name m))
        /\ (forall data n, request = Some data ->
                           get data "name" = JStr n -> name row = n)
        /\ (forall data, request = Some data ->
                         timedelta_arg (get data "duration_hours") = Ok hours)
        /\ (forall data d, request = Some data ->
                           get data "duration_hours" = JNum d ->
                           duration_hours row = d /\ hours = d)
        /\ (exists anchor,
              anchor_of env db (required_machine_id row) anchor
              /\ s = replace_second0 anchor)
        /\ s mod MINUTE_US = 0
        /\ start_time row = Some s
        /\ end_time row = Some (s + timedelta_hours hours)
        /\ datetime_in_range (s + timedelta_hours hours) = true).
Proof.
  destruct (add_task_inv env db request) as [[Hc Hs]|H].
  2: destruct H as (data & n & d & hours & mn & m & s & e & -> & Hup & Hn
                    & Hd & Hh & Hmn & Hm & Hcalc & Hc & Hs).
  - split; [auto|]. intros H. contradiction.
  - split; [intros H; contradiction|]. intros _.
    apply calculate_sequential_schedule_inv in Hcalc.
    destruct Hcalc as (Hal & He & _ & Hrange & Hanchor). subst e.
    eexists. exists s, hours. rewrite Hs.
    cbn [sql_insert_task set_tasks tasks machines precedences task_id status
           job_id required_machine_id start_time end_time duration_hours
           name].
    split; [reflexivity|]. split; [reflexivity|]. split; [reflexivity|].
    split; [reflexivity|]. split; [reflexivity|].
    split; [apply sql_next_job_id_fresh|]. split.
    { destruct (sql_machine_by_name_In db mn m Hm) as [row [Hin [Hid Hnm]]].
      exists row. split; [exact Hin|]. split; [exact Hid|].
      intros data' Heq. injection Heq as <-.
      now rewrite Hnm. }
    split.
    { intros data' n' Heq Hget. injection Heq as <-.
      rewrite Hget in Hn. now injection Hn. }
    split; [intros data' Heq; injection Heq as <-; exact Hh|].
    split.
    { intros data' d' Heq Hget. injection Heq as <-.
      rewrite Hget in Hd, Hh. cbn in Hd, Hh.
      injection Hd as <-. injection Hh as <-. split; reflexivity. }
    split; [exact Hanchor|].
    split; [exact Hal|]. split; [reflexivity|].
    split; [reflexivity|exact Hrange].
Qed.

(** X13: POST /tasks answers 400, with the store unchanged, when the
    name, the duration or the machine name is missing, null, empty or zero
    (a duration of 0 hours counts as missing); with three usable fields and a
    reachable store it answers 404, with the store unchanged, when no machine
    bears the requested name. *)
Theorem add_task_rejections (env : Env) (db : DB) (data : body) :
  (truthy (get data "name") = false
   \/ truthy (get data "duration_hours") = false
   \/ truthy (get data "machine_name") = false ->
   code (fst (add_task env db (Some data))) = 400
   /\ snd (add_task env db (Some data)) = db)
  /\ (get data "duration_hours" = JNum 0 ->
      code (fst (add_task env db (Some data))) = 400)
  /\ (forall mn,
         db_up env = true ->
         truthy (get data "name") = true ->
         truthy (get data "duration_hours") = true ->
         get data "machine_name" = JStr mn -> mn <> "" ->
         (forall m, In m (machines db) -> machine_name m <> mn) ->
         code (fst (add_task env db (Some data))) = 404
         /\ snd (add_task env db (Some data)) = db).
Proof.
  assert (H400 : truthy (get data "name") = false
                 \/ truthy (get data "duration_hours") = false
                 \/ truthy (get data "machine_name") = false ->
                 code (fst (add_task env db (Some data))) = 400
                 /\ snd (add_task env db (Some data)) = db).
  { intros H. unfold add_task, add_task_try. cbn [request_object].
    assert (Hor : (negb (truthy (get data "name"))
                   || negb (truthy (get data "duration_hours"))
                   || negb (truthy (get data "machine_name"))) = true).
    { destruct H as [ -> | [ -> | -> ] ]; cbn [negb];
        rewrite ?orb_true_r; reflexivity. }
    rewrite Hor. split; reflexivity. }
  split; [exact H400|]. split.
  - intros Hd. apply H400. right. left. now rewrite Hd.
  - intros mn Hup Hn Hd Hmn Hmne Hnone.
    unfold add_task, add_task_try, get_db_connection. cbn [request_object].
    rewrite Hup, Hn, Hd, Hmn. cbn [truthy].
    apply String.eqb_neq in Hmne. rewrite Hmne.
    cbn [negb orb cursor bind connect pending lookup_machine].
    assert (Hm : sql_machine_by_name db mn = None).
    { unfold sql_machine_by_name.
      destruct (find (fun m => String.eqb (machine_name m) mn) (machines db))
        as [row|] eqn:Hf; [|reflexivity].
      apply find_some in Hf. rewrite String.eqb_eq in Hf.
      exfalso. apply (Hnone row); tauto. }
    rewrite Hm. split; reflexivity.
Qed.

(** X14: a task created by POST /tasks with answer 201 is in the task
    set the optimizer assembles next. *)
Theorem new_task_enters_backlog (env : Env) (db : DB)
  (request : option body) :
  code (fst (add_task env db request)) = 201 ->
  dict_mem
    (snd (fst (fetch_scheduling_data
                 (connect (snd (add_task env db request))))))
    (nextval_task_id env) = true.
Proof.
  intros Hcode.
  destruct (add_task_inv env db request) as [[Hc _]|H]; [contradiction|].
  destruct H as (data & n & d & hours & mn & m & s & e & _ & _ & _ & _ & _
                 & _ & _ & _ & _ & Hs).
  rewrite Hs. apply fetch_tasks_mem. eexists. split.
  - cbn [connect pending sql_insert_task tasks set_tasks].
    apply in_or_app. right. now left.
  - split; reflexivity.
Qed.

(** ** DELETE /tasks/<id> *)

Lemma delete_task_eq env db id :
  delete_task env db id
  = if db_up env then
      if rowcount db id =? 0 then
        (message [Lit "Task with ID "; ValZ id; Lit " not found."] 404, db)
      else
        (message
           [Lit "Task "; ValZ id;
            Lit " successfully deleted. Run optimizer to re-schedule remaining tasks."]
           200,
         sql_delete_task (sql_delete_precedences_of db id) id)
    else (flask_internal_error, db).
Proof.
  unfold delete_task, get_db_connection.
  destruct (db_up env); [|reflexivity].
  cbn [connect pending with_pending].
  change (rowcount (sql_delete_precedences_of db id) id)
    with (rowcount db id).
  now destruct (rowcount db id =? 0).
Qed.

(** X15: with a reachable store, deleting a task that exists answers
    200 and removes the tasks with that id together with every precedence
    edge that has the id as predecessor or as successor; all other tasks and
    edges stay, in their order, and the machines are untouched. *)
Theorem delete_task_cascades (env : Env) (db : DB) (id : Z) :
  db_up env = true ->
  (exists t, In t (tasks db) /\ task_id t = id) ->
  code (fst (delete_task env db id)) = 200
  /\ machines (snd (delete_task env db id)) = machines db
  /\ tasks (snd (delete_task env db id))
     = filter (fun t => negb (task_id t =? id)) (tasks db)
  /\ precedences (snd (delete_task env db id))
     = filter (fun e => negb ((fst e =? id) || (snd e =? id)))
              (precedences db)
  /\ (forall t, In t (tasks (snd (delete_task env db id)))
                <-> In t (tasks db) /\ task_id t <> id)
  /\ (forall p s, In (p, s) (precedences (snd (delete_task env db id)))
                  <-> In (p, s) (precedences db) /\ p <> id /\ s <> id).
Proof.
  intros Hup Hex. rewrite delete_task_eq, Hup.
  destruct (Z.eqb_spec (rowcount db id) 0) as [H0|H0];
    [apply rowcount_zero in H0; contradiction|].
  cbn [fst snd code sql_delete_task sql_delete_precedences_of set_tasks
         machines tasks precedences].
  split; [reflexivity|]. split; [reflexivity|]. split; [reflexivity|].
  split; [reflexivity|]. split.
  - intros t. rewrite filter_In, negb_true_iff, Z.eqb_neq. tauto.
  - intros p s. rewrite filter_In. cbn [fst snd].
    rewrite negb_true_iff, orb_false_iff, !Z.eqb_neq. tauto.
Qed.

(** X16: deleting a task id that no task has answers 404 and leaves the
    whole store as it was; in particular precedence edges that mention the
    id are still there, because their deletion is not committed. *)
Theorem delete_unknown_task_changes_nothing (env : Env) (db : DB) (id : Z) :
  db_up env = true ->
  ~ (exists t, In t (tasks db) /\ task_id t = id) ->
  code (fst (delete_task env db id)) = 404
  /\ snd (delete_task env db id) = db.
Proof.
  intros Hup Hex. rewrite delete_task_eq, Hup.
  apply rowcount_zero in Hex. rewrite Hex. split; reflexivity.
Qed.

Lemma filter_all {A} (f : A -> bool) l :
  (forall x, In x l -> f x = true) -> filter f l = l.
Proof.
  induction l as [|x l IH]; simpl; intros H; [reflexivity|].
  rewrite (H x (or_introl eq_refl)). f_equal. apply IH. intros y Hy.
  apply H. now right.
Qed.

(** X17: creating a task and deleting it again gives the store back:
    when the id handed out by the sequence is new (no task has it, no edge
    mentions it) and POST /tasks answered 201, DELETE /tasks/<that id> answers
    200 and leaves the store exactly as it was before the task was
    created. *)
Theorem add_then_delete_task (env : Env) (db : DB) (request : option body) :
  (forall t, In t (tasks db) -> task_id t <> nextval_task_id env) ->
  (forall p s, In (p, s) (precedences db) ->
               p <> nextval_task_id env /\ s <> nextval_task_id env) ->
  code (fst (add_task env db request)) = 201 ->
  delete_task env (snd (add_task env db request)) (nextval_task_id env)
  = (message
       [Lit "Task "; ValZ (nextval_task_id env);
        Lit " successfully deleted. Run optimizer to re-schedule remaining tasks."]
       200,
     db).
Proof.
  intros Hfresh Hedges Hcode.
  destruct (add_task_inv env db request) as [[Hc _]|H]; [contradiction|].
  destruct H as (data & n & d & hours & mn & m & s0 & e0 & _ & Hup & _ & _
                 & _ & _ & _ & _ & _ & Hs).
  rewrite Hs, delete_task_eq, Hup.
  set (id := nextval_task_id env) in *.
  set (row := {| task_id := id; job_id := sql_next_job_id db |}).
  assert (Hcount : (rowcount (sql_insert_task db row) id =? 0) = false).
  { apply Z.eqb_neq. intros H0. apply rowcount_zero in H0. apply H0.
    exists row. split; [|reflexivity].
    cbn [sql_insert_task tasks set_tasks]. apply in_or_app. right.
    now left. }
  rewrite Hcount. f_equal.
  unfold sql_delete_task, sql_delete_precedences_of, sql_insert_task,
    set_tasks. cbn [machines tasks precedences].
  rewrite filter_app. cbn [filter task_id row]. rewrite Z.eqb_refl.
  cbn [negb]. rewrite app_nil_r.
  rewrite !filter_all.
  - now destruct db.
  - intros [p s] Hin. destruct (Hedges p s Hin) as [Hp Hs']. simpl.
    apply negb_true_iff, orb_false_iff. now rewrite !Z.eqb_neq.
  - intros t Hin. apply negb_true_iff, Z.eqb_neq. now apply Hfresh.
Qed.

(** ** DELETE /api/machines/<id> *)

Lemma count_tasks_on_zero db m :
  sql_count_tasks_on db m = 0
  <-> forall t, In t (tasks db) -> required_machine_id t <> m.
Proof.
  unfold sql_count_tasks_on.
  induction (tasks db) as [|x l IH]; simpl.
  - split; [intros _ t []|reflexivity].
  - destruct (Z.eqb_spec (required_machine_id x) m) as [Heq|Hne]; simpl.
    + split; [lia|]. intros H. exfalso. now apply (H x (or_introl eq_refl)).
    + rewrite IH. split.
      * intros H t [<-|Hin]; auto.
      * intros H t Hin. apply H. now right.
Qed.

Lemma machine_rowcount_zero db m :
  machine_rowcount db m = 0
  <-> forall row, In row (machines db) -> machine_id row <> m.
Proof.
  unfold machine_rowcount.
  induction (machines db) as [|x l IH]; simpl.
  - split; [intros _ t []|reflexivity].
  - destruct (Z.eqb_spec (machine_id x) m) as [Heq|Hne]; simpl.
    + split; [lia|]. intros H. exfalso. now apply (H x (or_introl eq_refl)).
    + rewrite IH. split.
      * intros H t [<-|Hin]; auto.
      * intros H t Hin. apply H. now right.
Qed.

Lemma delete_machine_eq env db m :
  delete_machine env db m
  = if db_up env then
      if 0 <? sql_count_tasks_on db m then
        (message
           [Lit "Cannot delete machine ID "; ValZ m;
            Lit ". It is currently required by ";
            ValZ (sql_count_tasks_on db m); Lit " task(s)."] 409, db)
      else if machine_rowcount db m =? 0 then
        (message [Lit "Machine with ID "; ValZ m; Lit " not found."] 404, db)
      else
        (message [Lit "Machine ID "; ValZ m; Lit " successfully deleted."]
           200, sql_delete_machine db m)
    else (flask_internal_error, db).
Proof.
  unfold delete_machine, get_db_connection.
  destruct (db_up env); [|reflexivity].
  cbn [connect pending].
  destruct (0 <? sql_count_tasks_on db m); [reflexivity|].
  now destruct (machine_rowcount db m =? 0).
Qed.

(** X18: with a reachable store, DELETE /api/machines/<id> answers 409
    exactly when some task requires the machine, and then, as with the 404
    it gives for an id no machine has, the store is unchanged; otherwise it
    answers 200 and removes the machines with that id and nothing else. *)
Theorem delete_machine_outcomes (env : Env) (db : DB) (m : Z) :
  db_up env = true ->
  (code (fst (delete_machine env db m)) = 409
   <-> exists t, In t (tasks db) /\ required_machine_id t = m)
  /\ (code (fst (delete_machine env db m)) = 404
      <-> (forall t, In t (tasks db) -> required_machine_id t <> m)
          /\ forall row, In row (machines db) -> machine_id row <> m)
  /\ (code (fst (delete_machine env db m)) <> 200 ->
      snd (delete_machine env db m) = db)
  /\ (code (fst (delete_machine env db m)) = 200 ->
      tasks (snd (delete_machine env db m)) = tasks db
      /\ precedences (snd (delete_machine env db m)) = precedences db
      /\ machines (snd (delete_machine env db m))
         = filter (fun row => negb (machine_id row =? m)) (machines db)).
Proof.
  intros Hup. rewrite delete_machine_eq, Hup.
  pose proof (count_tasks_on_zero db m) as Hc.
  pose proof (machine_rowcount_zero db m) as Hr.
  assert (Hnn : 0 <= sql_count_tasks_on db m)
    by (unfold sql_count_tasks_on; lia).
  destruct (Z.ltb_spec 0 (sql_count_tasks_on db m)) as [Hpos|Hz].
  - assert (Hex : exists t, In t (tasks db) /\ required_machine_id t = m).
    { clear Hc Hr Hnn. unfold sql_count_tasks_on in Hpos.
      destruct (filter (fun t => required_machine_id t =? m) (tasks db))
        as [|t l] eqn:Hf; [simpl in Hpos; lia|].
      assert (Hin : In t (filter (fun t => required_machine_id t =? m)
                            (tasks db))) by (rewrite Hf; now left).
      apply filter_In in Hin. rewrite Z.eqb_eq in Hin. eauto. }
    cbn [fst snd code].
    split; [split; [intros _; exact Hex|reflexivity]|].
    split; [split; [discriminate|]|].
    + intros [Hno _]. destruct Hex as [t [Hin Ht]].
      exfalso. now apply (Hno t).
    + split; [reflexivity|discriminate].
  - assert (H0 : sql_count_tasks_on db m = 0) by lia.
    pose proof (proj1 Hc H0) as Hno.
    assert (Hnex : ~ exists t, In t (tasks db) /\ required_machine_id t = m).
    { intros [t [Hin Ht]]. now apply (Hno t). }
    destruct (Z.eqb_spec (machine_rowcount db m) 0) as [Hr0|Hr0];
      cbn [fst snd code].
    + pose proof (proj1 Hr Hr0) as Hnom.
      split; [split; [discriminate|intros H; contradiction]|].
      split; [split; [intros _; split; assumption|reflexivity]|].
      split; [reflexivity|discriminate].
    + split; [split; [discriminate|intros H; contradiction]|].
      split; [split; [discriminate|]|].
      * intros [_ Hnom]. exfalso. apply Hr0. now apply Hr.
      * split; [intros H; now contradiction H|].
        intros _. repeat split.
Qed.

(** ** POST /machines *)

Lemma add_machine_inv env fresh db request :
  (code (fst (add_machine env fresh db request)) <> 201
   /\ snd (add_machine env fresh db request) = db)
  \/ exists data n c,
       request = Some data
       /\ db_up env = true
       /\ text_param env (get data "name") = Some n
       /\ integer_param env (get_default data "capacity" (JNum 1)) = Some c
       /\ code (fst (add_machine env fresh db request)) = 201
       /\ snd (add_machine env fresh db request)
          = sql_insert_machine db
              {| machine_id := fresh; machine_name := n; capacity := c |}.
Proof.
  unfold add_machine, get_db_connection.
  destruct request as [data|]; cbn [request_object bind];
    [|left; split; [discriminate|reflexivity]].
  destruct (truthy (get data "name")) eqn:Ht; cbn [negb];
    [|left; split; [discriminate|reflexivity]].
  destruct (db_up env) eqn:Hup; cbn [cursor bind];
    [|left; split; [discriminate|reflexivity]].
  destruct (text_param env (get data "name")) as [n|] eqn:Hn; cbn [bind];
    [|left; split; [discriminate|reflexivity]].
  destruct (integer_param env (get_default data "capacity" (JNum 1)))
    as [c|] eqn:Hc; cbn [bind];
    [|left; split; [discriminate|reflexivity]].
  right. exists data, n, c. repeat split; auto.
Qed.

Lemma round_half_away_integer c : round_half_away (inject_Z c) = c.
Proof.
  unfold round_half_away, inject_Z. cbn [Qnum Qden].
  replace (2 * Z.abs c + 1) with (1 + Z.abs c * (2 * 1)) by lia.
  rewrite Z.div_add by lia. cbn [Z.mul]. rewrite Z.div_small by lia.
  destruct c; simpl; lia.
Qed.

(** X19: POST /machines appends one machine to the store, with the id
    handed out by the sequence and the requested name, and leaves every
    other row as it was: the machine has capacity 1 when the request has no
    capacity key, and the given integer when it has one (a 32-bit integer,
    which is what the column holds).  It answers 400 without touching the
    store when the name is missing, null or empty, and whenever its answer
    is not 201 the store is unchanged. *)
Theorem add_machine_default_capacity (env : Env) (fresh : Z) (db : DB)
  (data : body) :
  (forall n,
      db_up env = true -> get data "name" = JStr n -> n <> "" ->
      has_key data "capacity" = false ->
      code (fst (add_machine env fresh db (Some data))) = 201
      /\ machines (snd (add_machine env fresh db (Some data)))
         = (machines db
            ++ [{| machine_id := fresh; machine_name := n;
                   capacity := 1 |}])%list
      /\ tasks (snd (add_machine env fresh db (Some data))) = tasks db
      /\ precedences (snd (add_machine env fresh db (Some data)))
         = precedences db)
  /\ (forall n c,
         db_up env = true -> get data "name" = JStr n -> n <> "" ->
         has_key data "capacity" = true ->
         get data "capacity" = JNum (inject_Z c) ->
         INT4_MIN <= c <= INT4_MAX ->
         code (fst (add_machine env fresh db (Some data))) = 201
         /\ machines (snd (add_machine env fresh db (Some data)))
            = (machines db
               ++ [{| machine_id := fresh; machine_name := n;
                      capacity := c |}])%list
         /\ tasks (snd (add_machine env fresh db (Some data))) = tasks db
         /\ precedences (snd (add_machine env fresh db (Some data)))
            = precedences db)
  /\ (truthy (get data "name") = false ->
      code (fst (add_machine env fresh db (Some data))) = 400
      /\ snd (add_machine env fresh db (Some data)) = db)
  /\ (code (fst (add_machine env fresh db (Some data))) <> 201 ->
      snd (add_machine env fresh db (Some data)) = db).
Proof.
  split; [|split; [|split]].
  - intros n Hup Hn Hne Hk. unfold add_machine, get_db_connection,
      get_default. cbn [request_object bind]. rewrite Hn, Hk, Hup.
    cbn [truthy]. apply String.eqb_neq in Hne. rewrite Hne.
    repeat split.
  - intros n c Hup Hn Hne Hk Hc [Hlo Hhi]. unfold add_machine,
      get_db_connection, get_default. cbn [request_object bind].
    rewrite Hn, Hk, Hc, Hup.
    cbn [truthy]. apply String.eqb_neq in Hne. rewrite Hne.
    cbn [negb cursor bind text_param integer_param]. unfold to_int4.
    rewrite round_half_away_integer.
    apply Z.leb_le in Hlo, Hhi. rewrite Hlo, Hhi. repeat split.
  - intros Ht. unfold add_machine. cbn [request_object bind].
    rewrite Ht. split; reflexivity.
  - intros Hcode.
    destruct (add_machine_inv env fresh db (Some data)) as [[_ H]|H];
      [exact H|].
    destruct H as (d & n & c & _ & _ & _ & _ & Hc & _). contradiction.
Qed.

Lemma dict_get_dict_set {V} (d : dict V) k v k' :
  dict_get (dict_set d k v) k' = if k =? k' then Some v else dict_get d k'.
Proof.
  induction d as [|[k0 v0] d IH]; simpl; [reflexivity|].
  destruct (Z.eqb_spec k0 k) as [Heq|Hne]; simpl.
  - subst k0. now destruct (k =? k').
  - rewrite IH. destruct (Z.eqb_spec k0 k') as [Heq'|Hne']; [|reflexivity].
    subst k0. now rewrite (proj2 (Z.eqb_neq k k')) by auto.
Qed.

Lemma dict_of_rows_get {R V} (key : R -> Z) (val : R -> V) rows k v :
  (forall r, In r rows -> key r = k -> val r = v) ->
  (exists r, In r rows /\ key r = k) ->
  dict_get (dict_of_rows key val rows) k = Some v.
Proof.
  unfold dict_of_rows. intros Hval Hex.
  assert (Hgen : forall d,
             dict_get d k = Some v \/ (exists r, In r rows /\ key r = k) ->
             dict_get (fold_left (fun d row => dict_set d (key row) (val row))
                         rows d) k = Some v).
  { clear Hex. induction rows as [|r rows IH]; simpl; intros d H.
    - destruct H as [H|[r [[] _]]]. exact H.
    - apply IH; [intros r' Hr'; apply Hval; now right|].
      rewrite dict_get_dict_set.
      destruct (Z.eqb_spec (key r) k) as [Hk|Hk].
      + left. f_equal. apply Hval; [now left|exact Hk].
      + destruct H as [H|[r' [[Heq|Hr'] Hk']]].
        * now left.
        * subst r'. contradiction.
        * right. eauto. }
  apply Hgen. now right.
Qed.

(** X20: a machine created without a capacity is exclusive for the
    optimizer: when its id is new, the model built from the store that POST
    /machines left holds a no-overlap constraint over all the intervals of
    the tasks that require it. *)
Theorem default_machine_is_exclusive (env : Env) (fresh : Z) (db : DB)
  (data : body) (n : string) ms ts ps :
  db_up env = true -> get data "name" = JStr n -> n <> "" ->
  has_key data "capacity" = false ->
  (forall row, In row (machines db) -> machine_id row <> fresh) ->
  fetch_scheduling_data
    (connect (snd (add_machine env fresh db (Some data)))) = (ms, ts, ps) ->
  dict_get ms fresh = Some 1
  /\ exists model task_vars,
       build_model ms ts ps = Ok (model, task_vars)
       /\ In (NoOverlap (intervals_on ts fresh)) (constraints model).
Proof.
  intros Hup Hn Hne Hk Hfresh Hfetch.
  assert (Hs : snd (add_machine env fresh db (Some data))
               = sql_insert_machine db
                   {| machine_id := fresh; machine_name := n;
                      capacity := 1 |}).
  { unfold add_machine, get_db_connection, get_default.
    cbn [request_object bind]. rewrite Hn, Hk, Hup. cbn [truthy].
    apply String.eqb_neq in Hne. now rewrite Hne. }
  rewrite Hs in Hfetch.
  pose proof (fetch_machines_NoDup
                (connect (sql_insert_machine db
                   {| machine_id := fresh; machine_name := n;
                      capacity := 1 |}))) as Hnms.
  pose proof (fetch_tasks_NoDup
                (connect (sql_insert_machine db
                   {| machine_id := fresh; machine_name := n;
                      capacity := 1 |}))) as Hnts.
  rewrite Hfetch in Hnms, Hnts. cbn [fst snd] in Hnms, Hnts.
  assert (Hget : dict_get ms fresh = Some 1).
  { unfold fetch_scheduling_data in Hfetch. injection Hfetch as <- _ _.
    cbn [connect pending sql_insert_machine machines].
    apply dict_of_rows_get.
    - intros r Hr Hid. apply order_by_In, in_app_iff in Hr.
      destruct Hr as [Hr|[<-|[]]]; [|reflexivity].
      exfalso. now apply (Hfresh r).
    - eexists. split; [apply order_by_In, in_or_app; right; now left|].
      reflexivity. }
  split; [exact Hget|].
  exists (model_of ms ts ps), (task_vars_of ts).
  split; [now apply build_model_closed_form|].
  apply model_of_constraints_In. right. right. left.
  apply capacity_constraints_In. exists fresh. split; [|reflexivity].
  now apply dict_get_In.
Qed.

(** ** Every task requires a machine of the store *)

(** X21: if every task requires a machine of the store, this is still so
    after any request to POST /tasks, PATCH /tasks/<id>, PATCH
    /tasks/<id>/status, DELETE /tasks/<id>, DELETE /api/machines/<id>, POST
    /machines and POST /api/optimize: no handler leaves a task behind whose
    machine does not exist. *)
Theorem references_ok_is_kept (env : Env) (db : DB) :
  references_ok db ->
  (forall request, references_ok (snd (add_task env db request)))
  /\ (forall id request,
         references_ok (snd (edit_task_details env db id request)))
  /\ (forall id request,
         references_ok (snd (update_task_status env db id request)))
  /\ (forall id, references_ok (snd (delete_task env db id)))
  /\ (forall m, references_ok (snd (delete_machine env db m)))
  /\ (forall fresh request,
         references_ok (snd (add_machine env fresh db request)))
  /\ (forall request, references_ok (snd (run_optimization env db request))).
Proof.
  intros Hok. repeat apply conj.
  - intros request.
    destruct (add_task_inv env db request) as [[_ ->]|H]; [exact Hok|].
    destruct H as (data & n & d & hours & mn & m & s & e & _ & _ & _ & _ & _
                   & _ & Hm & _ & _ & ->).
    intros t Hin. cbn [sql_insert_task tasks machines set_tasks] in *.
    apply in_app_iff in Hin. destruct Hin as [Hin|[<-|[]]];
      [now apply Hok|].
    destruct (sql_machine_by_name_In db mn m Hm) as [row [Hr [Hid _]]].
    exists row. auto.
  - intros id request.
    destruct (edit_task_details_inv env db id request) as [H200 Hother].
    destruct (Z.eq_dec (code (fst (edit_task_details env db id request)))
                200) as [Hc|Hc]; [|rewrite (Hother Hc); exact Hok].
    destruct (H200 Hc) as [data [_ [Hm [_ [_ Hall]]]]].
    intros t' Hin'. rewrite Hm.
    destruct (Forall2_In_r _ _ _ _ Hall Hin') as [t [Hin Ht]].
    destruct (task_id t =? id); [|subst t'; now apply Hok].
    destruct Ht as (_ & _ & _ & _ & _ & _ & _ & Hmach).
    destruct (has_key data "machine_name").
    + destruct Hmach as [mn [_ Hfind]].
      destruct (sql_machine_by_name_In db mn _ Hfind) as [row [Hr [Hid _]]].
      exists row. auto.
    + rewrite Hmach. now apply Hok.
  - intros id request.
    destruct (update_task_status_inv env db id request)
      as [-> | [data [st [_ [_ ->]]]]]; [exact Hok|].
    intros t' Hin'. cbn [sql_update_status tasks machines set_tasks] in *.
    apply in_map_iff in Hin'. destruct Hin' as [t [<- Hin]].
    destruct (Hok t Hin) as [row [Hr Hid]]. exists row.
    split; [exact Hr|]. now destruct (task_id t =? id).
  - intros id. rewrite delete_task_eq.
    destruct (db_up env); [|exact Hok].
    destruct (rowcount db id =? 0); [exact Hok|].
    intros t Hin. cbn [snd sql_delete_task sql_delete_precedences_of tasks
                         machines set_tasks] in *.
    apply filter_In in Hin. apply Hok. tauto.
  - intros m. rewrite delete_machine_eq.
    destruct (db_up env); [|exact Hok].
    destruct (Z.ltb_spec 0 (sql_count_tasks_on db m)) as [Hpos|Hz];
      [exact Hok|].
    destruct (machine_rowcount db m =? 0); [exact Hok|].
    assert (H0 : sql_count_tasks_on db m = 0)
      by (unfold sql_count_tasks_on in *; lia).
    pose proof (proj1 (count_tasks_on_zero db m) H0) as Hno.
    intros t Hin. cbn [snd sql_delete_machine tasks machines] in *.
    destruct (Hok t Hin) as [row [Hr Hid]]. exists row.
    split; [|exact Hid]. apply filter_In. split; [exact Hr|].
    apply negb_true_iff, Z.eqb_neq. rewrite Hid. now apply Hno.
  - intros fresh request.
    destruct (add_machine_inv env fresh db request) as [[_ ->]|H];
      [exact Hok|].
    destruct H as (data & n & c & _ & _ & _ & _ & _ & ->).
    intros t Hin. cbn [sql_insert_machine tasks machines] in *.
    destruct (Hok t Hin) as [row [Hr Hid]]. exists row.
    split; [|exact Hid]. apply in_or_app. now left.
  - intros request.
    destruct (run_optimization_keeps_identity env db request)
      as [Hm [_ Hall]].
    intros t' Hin'. rewrite Hm.
    destruct (Forall2_In_r _ _ _ _ Hall Hin') as [t [Hin [Hsame _]]].
    destruct Hsame as (_ & _ & _ & _ & Hreq). rewrite Hreq.
    now apply Hok.
Qed.

(** ** The listing endpoints *)

Lemma insert_by_sorted {R} (key : R -> Z) x l :
  Sorted (fun a b => key a <= key b) l ->
  Sorted (fun a b => key a <= key b) (insert_by key x l).
Proof.
  induction l as [|y l IH]; simpl; intros Hs.
  - constructor; constructor.
  - destruct (Z.ltb_spec (key x) (key y)) as [Hlt|Hge].
    + constructor; [exact Hs|]. constructor. lia.
    + inversion Hs as [|? ? Hs' Hhd]; subst.
      constructor; [now apply IH|].
      destruct l as [|z l]; simpl.
      * constructor. exact Hge.
      * destruct (key x <? key z); constructor; [exact Hge|].
        now inversion Hhd.
Qed.

Lemma order_by_sorted {R} (key : R -> Z) l :
  StronglySorted (fun a b => key a <= key b) (order_by key l).
Proof.
  apply Sorted_StronglySorted.
  - intros a b c Hab Hbc. lia.
  - induction l as [|x l IH]; simpl; [constructor|].
    now apply insert_by_sorted.
Qed.

Lemma filter_unique {A} (f : A -> Z) l x :
  NoDup (map f l) -> In x l ->
  filter (fun y => f x =? f y) l = [x].
Proof.
  induction l as [|y l IH]; simpl; intros Hnd Hin; [destruct Hin|].
  inversion Hnd as [|? ? Hnotin Hnd']; subst.
  destruct Hin as [->|Hin].
  - rewrite Z.eqb_refl. f_equal. apply filter_none. intros z Hz.
    apply Z.eqb_neq. intros Heq. apply Hnotin. rewrite Heq.
    now apply in_map.
  - destruct (Z.eqb_spec (f x) (f y)) as [Heq|Hne]; [|now apply IH].
    exfalso. apply Hnotin. rewrite <- Heq. now apply in_map.
Qed.

(** X22: with a reachable store GET /api/schedule returns exactly the
    pairs of a task and a machine whose id the task requires, in increasing
    order of task id: a task whose machine does not exist is left out, and
    when machine ids are unique and every task requires a machine of the
    store, every task is listed exactly once.  Without a connection the
    answer is 500. *)
Theorem schedule_is_the_join (env : Env) (db : DB) :
  (db_up env = false -> exists r, get_schedule env db = inl r /\ code r = 500)
  /\ (db_up env = true ->
      exists rows,
        get_schedule env db = inr rows
        /\ (forall sr,
               In sr rows
               <-> exists t m, In t (tasks db) /\ In m (machines db)
                               /\ required_machine_id t = machine_id m
                               /\ sr = schedule_row t m)
        /\ StronglySorted (fun a b => sr_task_id a <= sr_task_id b) rows
        /\ (NoDup (map machine_id (machines db)) -> references_ok db ->
            Permutation (map sr_task_id rows) (map task_id (tasks db)))).
Proof.
  unfold get_schedule, get_db_connection. split; intros Hup; rewrite Hup.
  - eexists. split; reflexivity.
  - eexists. split; [reflexivity|]. cbn [connect pending].
    split; [|split].
    + intros sr. unfold sql_schedule. rewrite order_by_In, in_flat_map.
      split.
      * intros [t [Hin Hsr]]. apply in_map_iff in Hsr.
        destruct Hsr as [m [<- Hm]]. apply filter_In in Hm.
        rewrite Z.eqb_eq in Hm. exists t, m. tauto.
      * intros [t [m [Hin [Hm [Heq ->]]]]]. exists t. split; [exact Hin|].
        apply in_map. apply filter_In. rewrite Z.eqb_eq. tauto.
    + apply order_by_sorted.
    + intros Hnd Hok. unfold sql_schedule.
      rewrite (Permutation_map sr_task_id (order_by_perm sr_task_id _)).
      assert (Heq : forall l,
                 (forall t, In t l -> In t (tasks db)) ->
                 map sr_task_id
                   (flat_map
                      (fun t =>
                         map (schedule_row t)
                           (filter (fun m => required_machine_id t
                                             =? machine_id m) (machines db)))
                      l)
                 = map task_id l).
      { induction l as [|t l IH]; intros Hl; simpl; [reflexivity|].
        rewrite map_app, IH by (intros t' Ht'; apply Hl; now right).
        destruct (Hok t (Hl t (or_introl eq_refl))) as [m [Hm Hid]].
        rewrite <- Hid, (filter_unique machine_id _ m Hnd Hm).
        reflexivity. }
      rewrite Heq by auto. reflexivity.
Qed.

(** X23: with a reachable store GET /machines returns the machines, each
    row once, in increasing order of machine id, and GET /api/tasks returns
    the id and name of every task, each once, in increasing order of task
    id. *)
Theorem listings_are_sorted (env : Env) (db : DB) :
  db_up env = true ->
  (exists rows,
      get_machines env db = inr rows
      /\ Permutation rows (machines db)
      /\ StronglySorted (fun a b => machine_id a <= machine_id b) rows)
  /\ (exists rows,
         get_all_tasks env db = inr rows
         /\ Permutation rows (map (fun t => (task_id t, name t)) (tasks db))
         /\ StronglySorted (fun a b => fst a <= fst b) rows).
Proof.
  intros Hup. unfold get_machines, get_all_tasks, get_db_connection.
  rewrite Hup. cbn [connect pending]. split.
  - eexists. split; [reflexivity|].
    split; [apply order_by_perm|apply order_by_sorted].
  - eexists. split; [reflexivity|]. split.
    + apply Permutation_map, order_by_perm.
    + pose proof (order_by_sorted task_id (tasks db)) as Hs.
      induction Hs as [|t l Hs IH Hall]; simpl; constructor; [exact IH|].
      rewrite Forall_forall in *. intros p Hp. apply in_map_iff in Hp.
      destruct Hp as [t' [<- Ht']]. simpl. now apply Hall.
Qed.

(** ** POST /api/production_log *)

Lemma log_production_inv env f logs request :
  (code (fst (log_production env f logs request)) <> 201
   /\ snd (log_production env f logs request) = logs)
  \/ exists data id count,
       request = Some data
       /\ db_up env = true
       /\ truthy (get data "task_id") = true
       /\ truthy (get data "resource_used") = true
       /\ truthy (get data "product_count") = true
       /\ int_ f (get data "task_id") = Converted id
       /\ int_ f (get data "product_count") = Converted count
       /\ 0 <= count
       /\ code (fst (log_production env f logs request)) = 201
       /\ snd (log_production env f logs request)
          = (logs ++ [{| log_task_id := id;
                         log_resource_used := get data "resource_used";
                         log_product_count := count |}])%list.
Proof.
  unfold log_production.
  destruct request as [data|]; [|left; split; [discriminate|reflexivity]].
  cbn [forallb].
  destruct (truthy (get data "task_id")) eqn:Ht; cbn [andb negb];
    [|left; split; [discriminate|reflexivity]].
  destruct (truthy (get data "resource_used")) eqn:Hr; cbn [andb negb];
    [|left; split; [discriminate|reflexivity]].
  destruct (truthy (get data "product_count")) eqn:Hc; cbn [andb negb];
    [|left; split; [discriminate|reflexivity]].
  destruct (int_ f (get data "task_id")) as [id| |] eqn:Hid;
    try (left; split; [discriminate|reflexivity]).
  destruct (int_ f (get data "product_count")) as [count| |] eqn:Hcount;
    try (left; split; [discriminate|reflexivity]).
  destruct (Z.ltb_spec count 0) as [Hneg|Hpos];
    [left; split; [discriminate|reflexivity]|].
  destruct (db_up env) eqn:Hup;
    [|left; split; [discriminate|reflexivity]].
  right. exists data, id, count. repeat split; auto.
Qed.

(** X24: POST /api/production_log answers 400 and writes nothing when
    the task id, the resource or the product count is missing, null, empty or
    zero (so a count of exactly 0 cannot be logged), when the task id or the
    count is text that is not an integer, and when the count converts to a
    negative integer. *)
Theorem log_production_rejections (env : Env) (f : string -> option Z)
  (logs : list LogRow) (data : body) :
  (truthy (get data "task_id") = false
   \/ truthy (get data "resource_used") = false
   \/ truthy (get data "product_count") = false ->
   code (fst (log_production env f logs (Some data))) = 400
   /\ snd (log_production env f logs (Some data)) = logs)
  /\ (get data "product_count" = JNum 0 ->
      code (fst (log_production env f logs (Some data))) = 400)
  /\ (truthy (get data "task_id") = true ->
      truthy (get data "resource_used") = true ->
      truthy (get data "product_count") = true ->
      int_ f (get data "task_id") = ValueError
      \/ (exists id, int_ f (get data "task_id") = Converted id)
         /\ (int_ f (get data "product_count") = ValueError
             \/ exists count,
                  int_ f (get data "product_count") = Converted count
                  /\ count < 0) ->
      code (fst (log_production env f logs (Some data))) = 400
      /\ snd (log_production env f logs (Some data)) = logs).
Proof.
  assert (H400 : truthy (get data "task_id") = false
                 \/ truthy (get data "resource_used") = false
                 \/ truthy (get data "product_count") = false ->
                 code (fst (log_production env f logs (Some data))) = 400
                 /\ snd (log_production env f logs (Some data)) = logs).
  { intros H. unfold log_production. cbn [forallb].
    assert (Hall : (truthy (get data "task_id")
                    && (truthy (get data "resource_used")
                        && (truthy (get data "product_count") && true)))
                   = false).
    { destruct H as [ -> | [ -> | -> ] ]; cbn [andb];
        rewrite ?andb_false_r; reflexivity. }
    rewrite Hall. split; reflexivity. }
  split; [exact H400|]. split.
  - intros Hc. apply H400. right. right. now rewrite Hc.
  - intros Ht Hr Hc H. unfold log_production. cbn [forallb].
    rewrite Ht, Hr, Hc. cbn [andb negb].
    destruct H as [-> | [[id ->] [-> | [count [-> Hneg]]]]];
      try (split; reflexivity).
    apply Z.ltb_lt in Hneg. rewrite Hneg. split; reflexivity.
Qed.

(** X25: POST /api/production_log either answers 201 and appends one row
    to production_logs, or gives another answer and leaves the table
    unchanged; the appended row holds [int(task_id)], the resource as sent and
    [int(product_count)], which is never negative (a number is truncated
    towards zero, so a fraction below one is logged as 0). *)
Theorem log_production_appends_valid_row (env : Env)
  (f : string -> option Z) (logs : list LogRow) (request : option body) :
  (code (fst (log_production env f logs request)) <> 201 ->
   snd (log_production env f logs request) = logs)
  /\ (code (fst (log_production env f logs request)) = 201 ->
      exists data row,
        request = Some data
        /\ snd (log_production env f logs request) = (logs ++ [row])%list
        /\ int_ f (get data "task_id") = Converted (log_task_id row)
        /\ log_resource_used row = get data "resource_used"
        /\ int_ f (get data "product_count")
           = Converted (log_product_count row)
        /\ 0 <= log_product_count row
        /\ (forall q, get data "product_count" = JNum q ->
                      log_product_count row = py_int q)).
Proof.
  destruct (log_production_inv env f logs request) as [[Hc Hs]|H].
  - split; [auto|]. intros H. contradiction.
  - destruct H as (data & id & count & -> & _ & _ & _ & _ & Hid & Hcount
                   & Hpos & Hc & Hs).
    split; [intros H; contradiction|]. intros _.
    exists data. eexists. split; [reflexivity|]. split; [exact Hs|].
    cbn [log_task_id log_resource_used log_product_count].
    repeat split; auto.
    intros q Hq. rewrite Hq in Hcount. cbn [int_] in Hcount.
    now injection Hcount.
Qed.

(** ** The further properties at the example shop floors *)

Lemma run_optimization_frame_witness :
  NoDup (map task_id (tasks Example.db))
  /\ In (mkTask 3 2 "turn" 1 2 "Scheduled"
           (Some 1700000040000000) (Some 1700003640000000))
        (tasks (snd (run_optimization Example.env Example.db None)))
  /\ machines (snd (run_optimization Example.env Example.db None))
     = machines Example.db.
Proof.
  assert (Hnd : NoDup (map task_id (tasks Example.db))).
  { repeat (constructor;
            [simpl; intros H;
             repeat (destruct H as [H|H]; [discriminate H|]); exact H|]).
    constructor. }
  split; [exact Hnd|].
  destruct (run_optimization_frame Example.env Example.db None)
    as (Hm & _ & _ & _ & Hkept).
  split; [|exact Hm].
  apply (Hkept Hnd); [|reflexivity].
  right. right. now left.
Defined.

Lemma run_optimization_twice_witness :
  saved (fst (run_optimization Example.env Example.db None))
  /\ code (fst (run_optimization Example.env_failing
                  (snd (run_optimization Example.env Example.db None))
                  None)) = 200
  /\ snd (run_optimization Example.env_failing
            (snd (run_optimization Example.env Example.db None)) None)
     = snd (run_optimization Example.env Example.db None).
Proof.
  assert (Hs : saved (fst (run_optimization Example.env Example.db None))).
  { right. right. now left. }
  split; [exact Hs|].
  rewrite (run_optimization_twice Example.env Example.env_failing
             Example.db None None 1699999980000000 Hs eq_refl eq_refl).
  split; reflexivity.
Defined.

Lemma stored_interval_is_exact_witness :
  solver_contract Example.env Example.db = true
  /\ unresolved (mkTask 2 1 "drill" (3 # 2) 1 "Canceled"
                   (Some 1700000000000000) (Some 1700005400000000)) = true
  /\ exists s e,
       In (mkTask 2 1 "drill" (3 # 2) 1 "Scheduled" (Some s) (Some e))
          (tasks (snd (run_optimization Example.env Example.db None)))
       /\ e - s = 90 * MINUTE_US
       /\ s mod MINUTE_US = 0 /\ e mod MINUTE_US = 0.
Proof.
  split; [reflexivity|]. split; [reflexivity|].
  destruct (stored_interval_is_exact Example.env Example.db None
              (mkTask 2 1 "drill" (3 # 2) 1 "Canceled"
                 (Some 1700000000000000) (Some 1700005400000000)))
    as (start & s & e & _ & Hin & Hd & _ & _ & Hs & He).
  - repeat (constructor;
            [simpl; intros H;
             repeat (destruct H as [H|H]; [discriminate H|]); exact H|]).
    constructor.
  - reflexivity.
  - right. right. now left.
  - right. now left.
  - reflexivity.
  - exists s, e. split; [exact Hin|]. split; [exact Hd|].
    split; [exact Hs|exact He].
Defined.

Lemma stored_intervals_do_not_overlap_witness :
  dict_get Example.machines_ 1 = Some 1
  /\ exists s1 e1 s2 e2,
       start_time (mkTask 1 1 "cut" 2 1 "Scheduled"
                     (Some 1699999980000000) (Some 1700007180000000))
       = Some s1
       /\ end_time (mkTask 1 1 "cut" 2 1 "Scheduled"
                      (Some 1699999980000000) (Some 1700007180000000))
          = Some e1
       /\ start_time (mkTask 2 1 "drill" (3 # 2) 1 "Scheduled"
                        (Some 1700007180000000) (Some 1700012580000000))
          = Some s2
       /\ end_time (mkTask 2 1 "drill" (3 # 2) 1 "Scheduled"
                      (Some 1700007180000000) (Some 1700012580000000))
          = Some e2
       /\ (e1 <= s2 \/ e2 <= s1).
Proof.
  split; [reflexivity|].
  apply (stored_intervals_do_not_overlap Example.env Example.db None
           Example.machines_ Example.tasks_ (precedences Example.db)
           (mkTask 1 1 "cut" 2 1 "Pending" None None)
           (mkTask 2 1 "drill" (3 # 2) 1 "Canceled"
              (Some 1700000000000000) (Some 1700005400000000))
           _ _ 1);
    try reflexivity.
  - repeat (constructor;
            [simpl; intros H;
             repeat (destruct H as [H|H]; [discriminate H|]); exact H|]).
    constructor.
  - right. right. now left.
  - now left.
  - right. now left.
  - discriminate.
  - now left.
  - right. now left.
Defined.


Lemma oversized_task_is_infeasible_witness :
  horizon < duration_minutes_of 2000 <= INT64_MAX
  /\ solver_contract Example.env_infeasible Floor.oversized_db = true
  /\ run_optimization Example.env_infeasible Floor.oversized_db None
     = (infeasible_response, Floor.oversized_db).
Proof.
  assert (Hsize : horizon < duration_minutes_of 2000 <= INT64_MAX)
    by (split; [reflexivity|apply Z.leb_le; reflexivity]).
  split; [exact Hsize|]. split; [reflexivity|].
  destruct (oversized_task_is_infeasible Example.env_infeasible
              Floor.oversized_db None 1699999980000000
              (fst (fst (fetch_scheduling_data (connect Floor.oversized_db))))
              (snd (fst (fetch_scheduling_data (connect Floor.oversized_db))))
              (snd (fetch_scheduling_data (connect Floor.oversized_db)))
              1
              {| td_job_id := 1; td_duration := 2000; td_machine_id := 1 |}
              eq_refl eq_refl eq_refl eq_refl (or_introl Hsize))
    as (model & task_vars & _ & _ & H).
  apply H. reflexivity.
Defined.

Lemma objective_is_the_makespan_witness :
  fetch_scheduling_data (connect Example.db)
  = (Example.machines_, Example.tasks_, precedences Example.db)
  /\ exists model task_vars,
       build_model Example.machines_ Example.tasks_ (precedences Example.db)
       = Ok (model, task_vars)
       /\ objective model = Some max_end_time
       /\ (satisfies model Example.values_ = true ->
           Example.values_ (end_ 2) <= Example.values_ max_end_time).
Proof.
  split; [reflexivity|].
  destruct (objective_is_the_makespan (connect Example.db)
              Example.machines_ Example.tasks_ (precedences Example.db)
              eq_refl) as (model & task_vars & Hb & Ho & H);
    [discriminate|].
  exists model, task_vars. split; [exact Hb|]. split; [exact Ho|].
  intros Hsat. destruct (H Example.values_ Hsat) as [Hle _].
  apply Hle. reflexivity.
Defined.

Lemma start_time_fraction_is_dropped_witness :
  get Floor.timed_request "start_time" = JStr "2024-01-01T10:00:05.123Z"
  /\ parse_start_time Example.env Floor.timed_request
     = Ok (Some 1704103205000000)
  /\ code (fst (run_optimization Example.env Example.db
                  (Some Floor.timed_request))) = 200
  /\ In (mkTask 1 1 "cut" 2 1 "Scheduled"
           (Some 1704103200000000) (Some 1704110400000000))
        (tasks (snd (run_optimization Example.env Example.db
                       (Some Floor.timed_request))))
  /\ parse_start_time Example.env Floor.untimed_request = Ok None
  /\ code (fst (run_optimization Example.env Example.db
                  (Some Floor.untimed_request))) = 400
  /\ snd (run_optimization Example.env Example.db
            (Some Floor.untimed_request)) = Example.db.
Proof.
  split; [reflexivity|].
  destruct (start_time_fraction_is_dropped Example.env Floor.timed_request)
    as [Hdot _].
  split.
  - rewrite (Hdot "2024-01-01T10:00:05" "123Z"); [reflexivity| |reflexivity].
    intros c H. simpl in H.
    repeat (destruct H as [H|H]; [rewrite <- H; discriminate|]).
    destruct H.
  - split; [reflexivity|]. split; [now left|]. split; [reflexivity|].
    destruct (start_time_fraction_is_dropped Example.env
                Floor.untimed_request) as [_ [_ Hbad]].
    exact (Hbad Example.db eq_refl eq_refl).
Defined.

Lemma edit_resets_task_witness :
  code (fst (edit_task_details Example.env Example.db 3
               (Some [("duration_hours", JNum 4)]))) = 200
  /\ tasks (snd (edit_task_details Example.env Example.db 3
                   (Some [("duration_hours", JNum 4)])))
     = [mkTask 1 1 "cut" 2 1 "Pending" None None;
        mkTask 2 1 "drill" (3 # 2) 1 "Canceled"
          (Some 1700000000000000) (Some 1700005400000000);
        mkTask 3 2 "turn" 4 2 "Pending" None None;
        mkTask 4 2 "polish" 1 2 "In Progress" None None]
  /\ machines (snd (edit_task_details Example.env Example.db 3
                      (Some [("duration_hours", JNum 4)])))
     = machines Example.db
  /\ List.length (tasks (snd (edit_task_details Example.env Example.db 3
                                (Some [("duration_hours", JNum 4)]))))
     = 4%nat.
Proof.
  split; [reflexivity|]. split; [reflexivity|].
  destruct (edit_resets_task Example.env Example.db 3
              [("duration_hours", JNum 4)]) as [H _].
  destruct (H eq_refl) as (Hm & _ & _ & Hlen & _).
  split; [exact Hm|exact Hlen].
Defined.

Lemma edited_task_returns_to_backlog_witness :
  dict_mem (snd (fst (fetch_scheduling_data (connect Example.db)))) 3 = false
  /\ dict_mem
       (snd (fst (fetch_scheduling_data
                    (connect
                       (snd (edit_task_details Example.env Example.db 3
                               (Some [("duration_hours", JNum 4)])))))))
       3 = true.
Proof.
  split; [reflexivity|].
  apply (edited_task_returns_to_backlog Example.env Example.db 3
           (Some [("duration_hours", JNum 4)])).
  reflexivity.
Defined.

Lemma status_decides_backlog_witness :
  In "Completed" valid_statuses
  /\ dict_mem
       (snd (fst (fetch_scheduling_data
                    (connect
                       (snd (update_task_status Example.env Example.db 1
                               (Some [("status", JStr "Completed")])))))))
       1 = false.
Proof.
  split; [right; now left|].
  destruct (status_decides_backlog Example.env Example.db 1
              [("status", JStr "Completed")] "Completed" eq_refl eq_refl)
    as (_ & _ & _ & Hiff).
  - right. now left.
  - exists (mkTask 1 1 "cut" 2 1 "Pending" None None).
    split; [now left|reflexivity].
  - destruct (dict_mem _ 1) eqn:Hm; [|reflexivity].
    destruct (proj1 Hiff eq_refl) as [Hc _]. now contradiction Hc.
Defined.

Lemma add_task_appends_one_pending_task_witness :
  code (fst (add_task Example.env Example.scenario_db
               (Some Example.new_task))) = 201
  /\ tasks (snd (add_task Example.env Example.scenario_db
                   (Some Example.new_task)))
     = [mkTask 1 1 "cut" 2 1 "Pending" None None;
        mkTask 3 2 "turn" 1 2 "Scheduled"
          (Some 1700000052000000) (Some 1700003652000000);
        mkTask 5 3 "deburr" 2 2 "Pending"
          (Some 1700003640000000) (Some 1700010840000000)]
  /\ exists row s d,
       tasks (snd (add_task Example.env Example.scenario_db
                     (Some Example.new_task)))
       = (tasks Example.scenario_db ++ [row])%list
       /\ task_id row = 5 /\ status row = "Pending"
       /\ start_time row = Some s /\ s mod MINUTE_US = 0
       /\ end_time row = Some (s + timedelta_hours d).
Proof.
  split; [reflexivity|]. split; [reflexivity|].
  destruct (add_task_appends_one_pending_task Example.env Example.scenario_db
              (Some Example.new_task)) as [_ H].
  destruct (H eq_refl)
    as (row & s & d & Hs & _ & _ & Hid & Hst & _ & _ & _ & _ & _ & _ & Hal
        & Hstart & Hend & _).
  exists row, s, d. repeat split; assumption.
Defined.

Lemma add_task_rejections_witness :
  get [("name", JStr "deburr"); ("duration_hours", JNum 0);
       ("machine_name", JStr "Lathe")] "duration_hours" = JNum 0
  /\ code (fst (add_task Example.env Example.scenario_db
                  (Some [("name", JStr "deburr"); ("duration_hours", JNum 0);
                         ("machine_name", JStr "Lathe")]))) = 400
  /\ code (fst (add_task Example.env Example.scenario_db
                  (Some [("name", JStr "deburr"); ("duration_hours", JNum 2);
                         ("machine_name", JStr "Press")]))) = 404.
Proof.
  split; [reflexivity|]. split.
  - destruct (add_task_rejections Example.env Example.scenario_db
                [("name", JStr "deburr"); ("duration_hours", JNum 0);
                 ("machine_name", JStr "Lathe")]) as [_ [H _]].
    apply H. reflexivity.
  - destruct (add_task_rejections Example.env Example.scenario_db
                [("name", JStr "deburr"); ("duration_hours", JNum 2);
                 ("machine_name", JStr "Press")]) as [_ [_ H]].
    assert (Hne : "Press" <> "") by discriminate.
    destruct (H "Press" eq_refl eq_refl eq_refl eq_refl Hne) as [Hc _];
      [|exact Hc].
    intros m [<-|[<-|[]]]; discriminate.
Defined.

Lemma new_task_enters_backlog_witness :
  code (fst (add_task Example.env Example.scenario_db
               (Some Example.new_task))) = 201
  /\ dict_mem
       (snd (fst (fetch_scheduling_data
                    (connect
                       (snd (add_task Example.env Example.scenario_db
                               (Some Example.new_task)))))))
       5 = true.
Proof.
  split; [reflexivity|].
  apply (new_task_enters_backlog Example.env Example.scenario_db
           (Some Example.new_task) eq_refl).
Defined.

Lemma delete_task_cascades_witness :
  db_up Example.env = true
  /\ code (fst (delete_task Example.env Floor.db 1)) = 200
  /\ precedences (snd (delete_task Example.env Floor.db 1)) = []
  /\ tasks (snd (delete_task Example.env Floor.db 1))
     = [mkTask 2 1 "drill" (3 # 2) 1 "Pending" None None;
        mkTask 3 2 "turn" 1 2 "Scheduled"
          (Some 1700000040000000) (Some 1700003640000000)].
Proof.
  split; [reflexivity|].
  destruct (delete_task_cascades Example.env Floor.db 1 eq_refl)
    as (Hc & _ & Ht & Hp & _).
  - exists (mkTask 1 1 "cut" 2 1 "Pending" None None).
    split; [now left|reflexivity].
  - split; [exact Hc|]. split; [exact Hp|exact Ht].
Defined.

Lemma delete_unknown_task_changes_nothing_witness :
  db_up Example.env = true
  /\ In (2, 9) (precedences Example.db)
  /\ code (fst (delete_task Example.env Example.db 9)) = 404
  /\ snd (delete_task Example.env Example.db 9) = Example.db.
Proof.
  split; [reflexivity|]. split; [right; right; now left|].
  apply (delete_unknown_task_changes_nothing Example.env Example.db 9
           eq_refl).
  intros [t [Hin Hid]]. simpl in Hin.
  destruct Hin as [<-|[<-|[<-|[<-|[]]]]]; discriminate Hid.
Defined.

Lemma add_then_delete_task_witness :
  code (fst (add_task Example.env Example.scenario_db
               (Some Example.new_task))) = 201
  /\ snd (delete_task Example.env
            (snd (add_task Example.env Example.scenario_db
                    (Some Example.new_task))) 5)
     = Example.scenario_db.
Proof.
  split; [reflexivity|].
  change 5 with (nextval_task_id Example.env).
  rewrite (add_then_delete_task Example.env Example.scenario_db
             (Some Example.new_task)).
  - reflexivity.
  - intros t [<-|[<-|[]]]; discriminate.
  - intros p s [].
  - reflexivity.
Defined.

Lemma delete_machine_outcomes_witness :
  db_up Example.env = true
  /\ code (fst (delete_machine Example.env Floor.db 1)) = 409
  /\ snd (delete_machine Example.env Floor.db 1) = Floor.db.
Proof.
  split; [reflexivity|].
  destruct (delete_machine_outcomes Example.env Floor.db 1 eq_refl)
    as (H409 & _ & Hsame & _).
  assert (Hc : code (fst (delete_machine Example.env Floor.db 1)) = 409).
  { apply H409. exists (mkTask 1 1 "cut" 2 1 "Pending" None None).
    split; [now left|reflexivity]. }
  split; [exact Hc|]. apply Hsame. rewrite Hc. discriminate.
Defined.

Lemma add_machine_default_capacity_witness :
  has_key [("name", JStr "Press")] "capacity" = false
  /\ machines (snd (add_machine Example.env 3 Floor.db
                      (Some [("name", JStr "Press")])))
     = [mkMachine 1 "Mill" 1; mkMachine 2 "Lathe" 3; mkMachine 3 "Press" 1]
  /\ INT4_MIN <= 2 <= INT4_MAX
  /\ machines (snd (add_machine Example.env 3 Floor.db
                      (Some [("name", JStr "Press");
                             ("capacity", JNum 2)])))
     = [mkMachine 1 "Mill" 1; mkMachine 2 "Lathe" 3; mkMachine 3 "Press" 2].
Proof.
  assert (Hne : "Press" <> "") by discriminate.
  assert (Hc : INT4_MIN <= 2 <= INT4_MAX)
    by (split; apply Z.leb_le; reflexivity).
  split; [reflexivity|]. split.
  - destruct (add_machine_default_capacity Example.env 3 Floor.db
                [("name", JStr "Press")]) as [H _].
    destruct (H "Press" eq_refl eq_refl Hne eq_refl) as [_ [Hs _]]. exact Hs.
  - split; [exact Hc|].
    destruct (add_machine_default_capacity Example.env 3 Floor.db
                [("name", JStr "Press"); ("capacity", JNum 2)])
      as [_ [H _]].
    destruct (H "Press" 2 eq_refl eq_refl Hne eq_refl eq_refl Hc)
      as [_ [Hs _]].
    exact Hs.
Defined.

Lemma default_machine_is_exclusive_witness :
  (forall row, In row (machines Floor.db) -> machine_id row <> 3)
  /\ dict_get
       (fst (fst (fetch_scheduling_data
                    (connect
                       (snd (add_machine Example.env 3 Floor.db
                               (Some [("name", JStr "Press")])))))))
       3 = Some 1.
Proof.
  assert (Hfresh : forall row, In row (machines Floor.db) ->
                               machine_id row <> 3).
  { intros row [<-|[<-|[]]]; discriminate. }
  split; [exact Hfresh|].
  assert (Hne : "Press" <> "") by discriminate.
  destruct (default_machine_is_exclusive Example.env 3 Floor.db
              [("name", JStr "Press")] "Press"
              (fst (fst (fetch_scheduling_data
                           (connect
                              (snd (add_machine Example.env 3 Floor.db
                                      (Some [("name", JStr "Press")])))))))
              (snd (fst (fetch_scheduling_data
                           (connect
                              (snd (add_machine Example.env 3 Floor.db
                                      (Some [("name", JStr "Press")])))))))
              (snd (fetch_scheduling_data
                      (connect
                         (snd (add_machine Example.env 3 Floor.db
                                 (Some [("name", JStr "Press")]))))))
              eq_refl eq_refl Hne eq_refl Hfresh eq_refl) as [Hget _].
  exact Hget.
Defined.

Lemma references_ok_is_kept_witness :
  references_ok Floor.db
  /\ references_ok (snd (delete_machine Example.env Floor.db 2))
  /\ references_ok (snd (run_optimization Example.env Floor.db None)).
Proof.
  assert (Hok : references_ok Floor.db).
  { intros t [<-|[<-|[<-|[]]]].
    - exists (mkMachine 1 "Mill" 1). split; [now left|reflexivity].
    - exists (mkMachine 1 "Mill" 1). split; [now left|reflexivity].
    - exists (mkMachine 2 "Lathe" 3).
      split; [right; now left|reflexivity]. }
  split; [exact Hok|].
  destruct (references_ok_is_kept Example.env Floor.db Hok)
    as (_ & _ & _ & _ & Hdel & _ & Hrun).
  split; [apply Hdel|apply Hrun].
Defined.

Lemma schedule_is_the_join_witness :
  db_up Example.env = true
  /\ exists rows,
       get_schedule Example.env Floor.db = inr rows
       /\ StronglySorted (fun a b => sr_task_id a <= sr_task_id b) rows.
Proof.
  split; [reflexivity|].
  destruct (schedule_is_the_join Example.env Floor.db) as [_ H].
  destruct (H eq_refl) as (rows & Hr & _ & Hs & _).
  exists rows. split; [exact Hr|exact Hs].
Defined.

Lemma listings_are_sorted_witness :
  db_up Example.env = true
  /\ exists rows,
       get_machines Example.env Example.db = inr rows
       /\ Permutation rows (machines Example.db)
       /\ StronglySorted (fun a b => machine_id a <= machine_id b) rows.
Proof.
  split; [reflexivity|].
  destruct (listings_are_sorted Example.env Example.db eq_refl) as [H _].
  exact H.
Defined.

Lemma log_production_rejections_witness :
  get [("task_id", JNum 1); ("resource_used", JStr "steel");
       ("product_count", JNum 0)] "product_count" = JNum 0
  /\ code (fst (log_production Example.env Floor.int_of_text []
                  (Some [("task_id", JNum 1); ("resource_used", JStr "steel");
                         ("product_count", JNum 0)]))) = 400
  /\ code (fst (log_production Example.env Floor.int_of_text []
                  (Some [("task_id", JNum 1); ("resource_used", JStr "steel");
                         ("product_count", JStr "many")]))) = 400.
Proof.
  split; [reflexivity|]. split.
  - destruct (log_production_rejections Example.env Floor.int_of_text []
                [("task_id", JNum 1); ("resource_used", JStr "steel");
                 ("product_count", JNum 0)]) as [_ [H _]].
    apply H. reflexivity.
  - destruct (log_production_rejections Example.env Floor.int_of_text []
                [("task_id", JNum 1); ("resource_used", JStr "steel");
                 ("product_count", JStr "many")]) as [_ [_ H]].
    destruct (H eq_refl eq_refl eq_refl) as [Hc _]; [|exact Hc].
    right. split; [exists 1; reflexivity|]. left. reflexivity.
Defined.

Lemma log_production_appends_valid_row_witness :
  code (fst (log_production Example.env Floor.int_of_text []
               (Some Floor.log_request))) = 201
  /\ exists row,
       snd (log_production Example.env Floor.int_of_text []
              (Some Floor.log_request)) = [row]
       /\ 0 <= log_product_count row
       /\ log_product_count row = py_int (1 # 2).
Proof.
  split; [reflexivity|].
  destruct (log_production_appends_valid_row Example.env Floor.int_of_text
              [] (Some Floor.log_request)) as [_ H].
  destruct (H eq_refl) as (data & row & Hd & Hs & _ & _ & _ & Hpos & Hq).
  exists row. split; [exact Hs|]. split; [exact Hpos|].
  injection Hd as <-. apply Hq. reflexivity.
Defined.
